(** * gnome-software: the ODRS and fwupd plugins and the installed page

    A shallow embedding of [plugins/odrs/gs-plugin-odrs.c],
    [plugins/fwupd/gs-plugin-fwupd.c] and the ordering and the headers of
    the rows of [src/gs-installed-page.c].  C integers are [Z] with their
    wrap-around written out, [gchar *] is [option string] ([None] is the
    NULL pointer), GLib arrays are lists, hash tables are [gmap]s, and the
    collaborators reached over the network or D-Bus are records of
    answers that the plugin functions consult. *)

From stdpp Require Import base numbers option list strings pretty sorting gmap.
From Stdlib Require Import ZArith Lia OrderedTypeEx.

Local Open Scope Z_scope.

(** ** GLib *)

Module GLib.

(** [guint] is 32 bits wide. *)
Definition G_MAXUINT : Z := 4294967295.

Definition guint_wrap (z : Z) : Z := z mod (G_MAXUINT + 1).

Definition guint_add (a b : Z) : Z := guint_wrap (a + b).
Definition guint_sub (a b : Z) : Z := guint_wrap (a - b).

(** The conversion to [gint] (32 bits, two's complement). *)
Definition gint_cast (z : Z) : Z :=
  (z + 2147483648) mod (G_MAXUINT + 1) - 2147483648.

(** [g_strcmp0]: NULL sorts before every string and equals only NULL.
    Only the sign of the result is meaningful. *)
Definition g_strcmp0 (a b : option string) : Z :=
  match a, b with
  | None, None => 0
  | None, Some _ => -1
  | Some _, None => 1
  | Some x, Some y =>
      match String.compare x y with
      | Lt => -1
      | Eq => 0
      | Gt => 1
      end
  end.

(** The test [s == NULL || s[0] == '\0']. *)
Definition str_is_null_or_empty (s : option string) : bool :=
  match s with
  | None => true
  | Some EmptyString => true
  | Some (String _ _) => false
  end.

End GLib.

(** ** The bundled [g_array_binary_search] (glib < 2.62) *)

Module BinarySearch.
Import GLib.

(** What a call does: [Match i] is [return TRUE] with [*out_match_index = i],
    [NoMatch] is [return FALSE].  [BadRead i] records that [compare_func]
    was handed [data + elt_size * i] for an [i] that is not below [len];
    [LoopBudget] is the exit of the model's iteration bound. *)
Inductive search_result : Type :=
  | Match (middle : Z)
  | NoMatch
  | BadRead (middle : Z)
  | LoopBudget.

Section Search.

Context {A : Type}.
Variable compare_func : A -> A -> Z.

(** The [while (left <= right)] loop; [left], [middle] and [right] are
    [guint]s. *)
Fixpoint search_loop (budget : nat) (data : list A) (target : A)
    (left right : Z) : search_result :=
  if negb (left <=? right) then NoMatch
  else
    match budget with
    | O => LoopBudget
    | S budget' =>
        let middle := guint_add left (guint_sub right left / 2) in
        match data !! Z.to_nat middle with
        | None => BadRead middle
        | Some elt =>
            let val := compare_func elt target in
            if val =? 0 then Match middle
            else if val <? 0 then
              search_loop budget' data target (guint_add middle 1) right
            else if 0 <? middle then
              search_loop budget' data target left (guint_sub middle 1)
            else NoMatch
        end
    end.

Definition array_len (data : list A) : Z := Z.of_nat (length data).

Definition g_array_binary_search (data : list A) (target : A)
    : search_result :=
  if array_len data =? 0 then NoMatch
  else search_loop (length data) data target 0 (guint_sub (array_len data) 1).

(** A comparison function in the sense of [GCompareFunc]: the sign of
    [compare_func a b] is a total preorder. *)
Class GCompareOrder : Prop := {
  compare_flip : forall a b, compare_func a b < 0 <-> 0 < compare_func b a;
  compare_trans : forall a b c,
      compare_func a b <= 0 -> compare_func b c <= 0 -> compare_func a c <= 0
}.

(** Ascending order of the array with respect to [compare_func]. *)
Definition sorted_by (data : list A) : Prop :=
  forall (i j : nat) (x y : A),
    (i <= j)%nat -> data !! i = Some x -> data !! j = Some y ->
    compare_func x y <= 0.

(** What the caller may rely on after a call. *)
Definition search_post (data : list A) (target : A) (r : search_result) : Prop :=
  match r with
  | Match middle =>
      0 <= middle < array_len data /\
      exists elt, data !! Z.to_nat middle = Some elt /\ compare_func elt target = 0
  | NoMatch => forall elt, elt ∈ data -> compare_func elt target <> 0
  | BadRead _ | LoopBudget => False
  end.

End Search.

End BinarySearch.

(** ** Types of the gnome-software core that the plugins use *)

Module Gs.
Import GLib.

(** Error domains that reach the plugins. *)
Inductive GQuark : Type :=
  | GS_PLUGIN_ERROR
  | FWUPD_ERROR
  | G_IO_ERROR
  | G_DBUS_ERROR
  | G_FILE_ERROR
  | JSON_PARSER_ERROR
  | OTHER_DOMAIN (name : string).

(** [GsPluginError], as the plugins name its enumerators. *)
Inductive GsPluginError : Type :=
  | GS_PLUGIN_ERROR_FAILED
  | GS_PLUGIN_ERROR_NOT_SUPPORTED
  | GS_PLUGIN_ERROR_CANCELLED
  | GS_PLUGIN_ERROR_NO_NETWORK
  | GS_PLUGIN_ERROR_NO_SECURITY
  | GS_PLUGIN_ERROR_NO_SPACE
  | GS_PLUGIN_ERROR_AUTH_REQUIRED
  | GS_PLUGIN_ERROR_AUTH_INVALID
  | GS_PLUGIN_ERROR_PIN_REQUIRED
  | GS_PLUGIN_ERROR_ACCOUNT_SUSPENDED
  | GS_PLUGIN_ERROR_ACCOUNT_DEACTIVATED
  | GS_PLUGIN_ERROR_PLUGIN_DEPSOLVE_FAILED
  | GS_PLUGIN_ERROR_DOWNLOAD_FAILED
  | GS_PLUGIN_ERROR_WRITE_FAILED
  | GS_PLUGIN_ERROR_INVALID_FORMAT
  | GS_PLUGIN_ERROR_DELETE_FAILED
  | GS_PLUGIN_ERROR_RESTART_REQUIRED
  | GS_PLUGIN_ERROR_AC_POWER_REQUIRED
  | GS_PLUGIN_ERROR_TIMED_OUT
  | GS_PLUGIN_ERROR_BATTERY_LEVEL_TOO_LOW.

(** [FwupdError], the codes of the [FWUPD_ERROR] domain. *)
Inductive FwupdError : Type :=
  | FWUPD_ERROR_INTERNAL
  | FWUPD_ERROR_VERSION_NEWER
  | FWUPD_ERROR_VERSION_SAME
  | FWUPD_ERROR_ALREADY_PENDING
  | FWUPD_ERROR_AUTH_FAILED
  | FWUPD_ERROR_READ
  | FWUPD_ERROR_WRITE
  | FWUPD_ERROR_INVALID_FILE
  | FWUPD_ERROR_NOT_FOUND
  | FWUPD_ERROR_NOTHING_TO_DO
  | FWUPD_ERROR_NOT_SUPPORTED
  | FWUPD_ERROR_SIGNATURE_INVALID
  | FWUPD_ERROR_AC_POWER_REQUIRED
  | FWUPD_ERROR_PERMISSION_DENIED
  | FWUPD_ERROR_BROKEN_SYSTEM
  | FWUPD_ERROR_BATTERY_LEVEL_TOO_LOW
  | FWUPD_ERROR_NEEDS_USER_ACTION.

(** The [gint code] of a [GError] is read through the enumeration of its
    domain; codes of other libraries stay numbers. *)
Inductive ErrorCode : Type :=
  | PluginCode (c : GsPluginError)
  | FwupdCode (c : FwupdError)
  | RawCode (n : Z).

(** A [GError]; the message text is not modelled. *)
Record GError : Type := mkGError {
  domain : GQuark;
  code : ErrorCode
}.

Global Instance GQuark_eq_dec : EqDecision GQuark.
Proof. solve_decision. Defined.
Global Instance GsPluginError_eq_dec : EqDecision GsPluginError.
Proof. solve_decision. Defined.
Global Instance FwupdError_eq_dec : EqDecision FwupdError.
Proof. solve_decision. Defined.
Global Instance ErrorCode_eq_dec : EqDecision ErrorCode.
Proof. solve_decision. Defined.
Global Instance GError_eq_dec : EqDecision GError.
Proof. solve_decision. Defined.

Definition plugin_error (c : GsPluginError) : GError :=
  mkGError GS_PLUGIN_ERROR (PluginCode c).

(** [g_error_matches]: FALSE on a NULL error. *)
Definition g_error_matches (error : option GError) (d : GQuark) (c : ErrorCode)
    : bool :=
  match error with
  | None => false
  | Some e => bool_decide (domain e = d) && bool_decide (code e = c)
  end.

(** The outcome of a [gboolean f (..., GError **error)] call, or of one
    returning a pointer that is NULL on failure.  [Fail None] is a failure
    return that left [*error] unset. *)
Inductive Result (A : Type) : Type :=
  | Ok (a : A)
  | Fail (error : option GError).
Arguments Ok {A} a.
Arguments Fail {A} error.

Definition is_ok {A} (r : Result A) : bool :=
  match r with Ok _ => true | Fail _ => false end.

(** Plugin code runs against mutable state [S]: the plugin's private data,
    the objects it was handed and the record of what it asked of the
    outside world.  A failed step keeps the state it reached. *)
Definition Act (S A : Type) : Type := S -> Result A * S.

Global Instance act_ret {S} : MRet (Act S) := fun A a s => (Ok a, s).
Global Instance act_bind {S} : MBind (Act S) := fun A B f m s =>
  match m s with
  | (Ok a, s') => f a s'
  | (Fail e, s') => (Fail e, s')
  end.

Definition act_fail {S A} (e : option GError) : Act S A := fun s => (Fail e, s).
Definition act_get {S} : Act S S := fun s => (Ok s, s).
Definition act_gets {S A} (f : S -> A) : Act S A := fun s => (Ok (f s), s).
Definition act_modify {S} (f : S -> S) : Act S unit := fun s => (Ok tt, f s).

(** Run [m] with a local [GError *] and hand back how it ended. *)
Definition act_try {S A} (m : Act S A) : Act S (Result A) := fun s =>
  let '(r, s') := m s in (Ok r, s').

(** [g_set_error (error, GS_PLUGIN_ERROR, c, ...); return FALSE;] *)
Definition fail_with {S A} (c : GsPluginError) : Act S A :=
  act_fail (Some (plugin_error c)).

(** [for (i = 0; i < n; i++) body (xs[i])], leaving at the first failure. *)
Fixpoint act_iter {S A} (body : A -> Act S unit) (xs : list A) : Act S unit :=
  match xs with
  | [] => mret tt
  | x :: xs' => body x ;; act_iter body xs'
  end.

Inductive AsComponentKind : Type :=
  | AS_COMPONENT_KIND_UNKNOWN
  | AS_COMPONENT_KIND_GENERIC
  | AS_COMPONENT_KIND_DESKTOP_APP
  | AS_COMPONENT_KIND_ADDON
  | AS_COMPONENT_KIND_FIRMWARE
  | AS_COMPONENT_KIND_REPOSITORY.

Inductive GsAppState : Type :=
  | GS_APP_STATE_UNKNOWN
  | GS_APP_STATE_INSTALLED
  | GS_APP_STATE_AVAILABLE
  | GS_APP_STATE_AVAILABLE_LOCAL
  | GS_APP_STATE_UPDATABLE
  | GS_APP_STATE_UNAVAILABLE
  | GS_APP_STATE_QUEUED_FOR_INSTALL
  | GS_APP_STATE_INSTALLING
  | GS_APP_STATE_REMOVING
  | GS_APP_STATE_UPDATABLE_LIVE.

Inductive GsAppQuirk : Type :=
  | GS_APP_QUIRK_NOT_LAUNCHABLE
  | GS_APP_QUIRK_DO_NOT_AUTO_UPDATE
  | GS_APP_QUIRK_NEEDS_USER_ACTION.

Inductive AsProvidedKind : Type :=
  | AS_PROVIDED_KIND_UNKNOWN
  | AS_PROVIDED_KIND_LIBRARY
  | AS_PROVIDED_KIND_BINARY
  | AS_PROVIDED_KIND_ID.

Global Instance AsComponentKind_eq_dec : EqDecision AsComponentKind.
Proof. solve_decision. Defined.
Global Instance GsAppState_eq_dec : EqDecision GsAppState.
Proof. solve_decision. Defined.
Global Instance GsAppQuirk_eq_dec : EqDecision GsAppQuirk.
Proof. solve_decision. Defined.
Global Instance AsProvidedKind_eq_dec : EqDecision AsProvidedKind.
Proof. solve_decision. Defined.

Record AsProvided : Type := mkAsProvided {
  provided_kind : AsProvidedKind;
  provided_items : list (option string)
}.

(** [AsReviewFlags] bits. *)
Definition AS_REVIEW_FLAG_SELF : Z := 1.
Definition AS_REVIEW_FLAG_VOTED : Z := 2.

(** An [AsReview], with the attributes the ODRS plugin sets or reads. *)
Record AsReview : Type := mkAsReview {
  review_id : option string;
  review_date : option Z;
  review_rating : Z;
  review_priority : Z;
  review_reviewer_id : option string;
  review_reviewer_name : option string;
  review_summary : option string;
  review_description : option string;
  review_version : option string;
  review_flags : Z;
  review_metadata : gmap string (option string)
}.

Definition as_review_new : AsReview :=
  mkAsReview None None 0 0 None None None None None 0 ∅.

(** [as_review_get_metadata_item]: NULL when the key is absent. *)
Definition as_review_get_metadata_item (r : AsReview) (key : string)
    : option string :=
  match review_metadata r !! key with
  | Some v => v
  | None => None
  end.

(** A [GsApp], with the attributes the two plugins set or read. *)
Record GsApp : Type := mkGsApp {
  app_id : option string;
  app_kind : AsComponentKind;
  app_state : GsAppState;
  app_state_recover : GsAppState;
  app_management_plugin : option string;
  app_name : option string;
  app_summary : option string;
  app_description : option string;
  app_version : option string;
  app_update_version : option string;
  app_metadata : gmap string string;
  app_provided : list AsProvided;
  app_reviews : list AsReview;
  app_review_ratings : option (list Z);
  app_rating : Z;
  app_local_file : option string;
  app_size_download : Z;
  app_quirks : list GsAppQuirk;
  app_action_screenshot : option string
}.

(** [gs_app_new (id)]: every other attribute at its initial value; the
    rating of a fresh app is -1. *)
Definition gs_app_new (id : option string) : GsApp :=
  mkGsApp id AS_COMPONENT_KIND_UNKNOWN GS_APP_STATE_UNKNOWN GS_APP_STATE_UNKNOWN
          None None None None None None ∅ [] [] None (-1) None 0 [] None.

Definition gs_app_get_metadata_item (app : GsApp) (key : string) : option string :=
  app_metadata app !! key.

(** Field updates of a [GsApp]. *)
Definition with_app_id (v : option string) (a : GsApp) : GsApp :=
  mkGsApp v (app_kind a) (app_state a) (app_state_recover a)
    (app_management_plugin a) (app_name a) (app_summary a)
    (app_description a) (app_version a) (app_update_version a)
    (app_metadata a) (app_provided a) (app_reviews a) (app_review_ratings a)
    (app_rating a) (app_local_file a) (app_size_download a) (app_quirks a)
    (app_action_screenshot a).
Definition with_app_kind (v : AsComponentKind) (a : GsApp) : GsApp :=
  mkGsApp (app_id a) v (app_state a) (app_state_recover a)
    (app_management_plugin a) (app_name a) (app_summary a)
    (app_description a) (app_version a) (app_update_version a)
    (app_metadata a) (app_provided a) (app_reviews a) (app_review_ratings a)
    (app_rating a) (app_local_file a) (app_size_download a) (app_quirks a)
    (app_action_screenshot a).
Definition with_app_state (v : GsAppState) (a : GsApp) : GsApp :=
  mkGsApp (app_id a) (app_kind a) v (app_state_recover a)
    (app_management_plugin a) (app_name a) (app_summary a)
    (app_description a) (app_version a) (app_update_version a)
    (app_metadata a) (app_provided a) (app_reviews a) (app_review_ratings a)
    (app_rating a) (app_local_file a) (app_size_download a) (app_quirks a)
    (app_action_screenshot a).
Definition with_app_state_recover (v : GsAppState) (a : GsApp) : GsApp :=
  mkGsApp (app_id a) (app_kind a) (app_state a) v (app_management_plugin a)
    (app_name a) (app_summary a) (app_description a) (app_version a)
    (app_update_version a) (app_metadata a) (app_provided a) (app_reviews a)
    (app_review_ratings a) (app_rating a) (app_local_file a)
    (app_size_download a) (app_quirks a) (app_action_screenshot a).
Definition with_app_management_plugin (v : option string) (a : GsApp) : GsApp :=
  mkGsApp (app_id a) (app_kind a) (app_state a) (app_state_recover a) v
    (app_name a) (app_summary a) (app_description a) (app_version a)
    (app_update_version a) (app_metadata a) (app_provided a) (app_reviews a)
    (app_review_ratings a) (app_rating a) (app_local_file a)
    (app_size_download a) (app_quirks a) (app_action_screenshot a).
Definition with_app_name (v : option string) (a : GsApp) : GsApp :=
  mkGsApp (app_id a) (app_kind a) (app_state a) (app_state_recover a)
    (app_management_plugin a) v (app_summary a) (app_description a)
    (app_version a) (app_update_version a) (app_metadata a) (app_provided a)
    (app_reviews a) (app_review_ratings a) (app_rating a) (app_local_file a)
    (app_size_download a) (app_quirks a) (app_action_screenshot a).
Definition with_app_summary (v : option string) (a : GsApp) : GsApp :=
  mkGsApp (app_id a) (app_kind a) (app_state a) (app_state_recover a)
    (app_management_plugin a) (app_name a) v (app_description a)
    (app_version a) (app_update_version a) (app_metadata a) (app_provided a)
    (app_reviews a) (app_review_ratings a) (app_rating a) (app_local_file a)
    (app_size_download a) (app_quirks a) (app_action_screenshot a).
Definition with_app_description (v : option string) (a : GsApp) : GsApp :=
  mkGsApp (app_id a) (app_kind a) (app_state a) (app_state_recover a)
    (app_management_plugin a) (app_name a) (app_summary a) v (app_version a)
    (app_update_version a) (app_metadata a) (app_provided a) (app_reviews a)
    (app_review_ratings a) (app_rating a) (app_local_file a)
    (app_size_download a) (app_quirks a) (app_action_screenshot a).
Definition with_app_version (v : option string) (a : GsApp) : GsApp :=
  mkGsApp (app_id a) (app_kind a) (app_state a) (app_state_recover a)
    (app_management_plugin a) (app_name a) (app_summary a)
    (app_description a) v (app_update_version a) (app_metadata a)
    (app_provided a) (app_reviews a) (app_review_ratings a) (app_rating a)
    (app_local_file a) (app_size_download a) (app_quirks a)
    (app_action_screenshot a).
Definition with_app_update_version (v : option string) (a : GsApp) : GsApp :=
  mkGsApp (app_id a) (app_kind a) (app_state a) (app_state_recover a)
    (app_management_plugin a) (app_name a) (app_summary a)
    (app_description a) (app_version a) v (app_metadata a) (app_provided a)
    (app_reviews a) (app_review_ratings a) (app_rating a) (app_local_file a)
    (app_size_download a) (app_quirks a) (app_action_screenshot a).
Definition with_app_metadata (v : gmap string string) (a : GsApp) : GsApp :=
  mkGsApp (app_id a) (app_kind a) (app_state a) (app_state_recover a)
    (app_management_plugin a) (app_name a) (app_summary a)
    (app_description a) (app_version a) (app_update_version a) v
    (app_provided a) (app_reviews a) (app_review_ratings a) (app_rating a)
    (app_local_file a) (app_size_download a) (app_quirks a)
    (app_action_screenshot a).
Definition with_app_reviews (v : list AsReview) (a : GsApp) : GsApp :=
  mkGsApp (app_id a) (app_kind a) (app_state a) (app_state_recover a)
    (app_management_plugin a) (app_name a) (app_summary a)
    (app_description a) (app_version a) (app_update_version a)
    (app_metadata a) (app_provided a) v (app_review_ratings a)
    (app_rating a) (app_local_file a) (app_size_download a) (app_quirks a)
    (app_action_screenshot a).
Definition with_app_review_ratings (v : option (list Z)) (a : GsApp) : GsApp :=
  mkGsApp (app_id a) (app_kind a) (app_state a) (app_state_recover a)
    (app_management_plugin a) (app_name a) (app_summary a)
    (app_description a) (app_version a) (app_update_version a)
    (app_metadata a) (app_provided a) (app_reviews a) v (app_rating a)
    (app_local_file a) (app_size_download a) (app_quirks a)
    (app_action_screenshot a).
Definition with_app_rating (v : Z) (a : GsApp) : GsApp :=
  mkGsApp (app_id a) (app_kind a) (app_state a) (app_state_recover a)
    (app_management_plugin a) (app_name a) (app_summary a)
    (app_description a) (app_version a) (app_update_version a)
    (app_metadata a) (app_provided a) (app_reviews a) (app_review_ratings a)
    v (app_local_file a) (app_size_download a) (app_quirks a)
    (app_action_screenshot a).
Definition with_app_size_download (v : Z) (a : GsApp) : GsApp :=
  mkGsApp (app_id a) (app_kind a) (app_state a) (app_state_recover a)
    (app_management_plugin a) (app_name a) (app_summary a)
    (app_description a) (app_version a) (app_update_version a)
    (app_metadata a) (app_provided a) (app_reviews a) (app_review_ratings a)
    (app_rating a) (app_local_file a) v (app_quirks a)
    (app_action_screenshot a).
Definition with_app_quirks (v : list GsAppQuirk) (a : GsApp) : GsApp :=
  mkGsApp (app_id a) (app_kind a) (app_state a) (app_state_recover a)
    (app_management_plugin a) (app_name a) (app_summary a)
    (app_description a) (app_version a) (app_update_version a)
    (app_metadata a) (app_provided a) (app_reviews a) (app_review_ratings a)
    (app_rating a) (app_local_file a) (app_size_download a) v
    (app_action_screenshot a).
Definition with_app_action_screenshot (v : option string) (a : GsApp) : GsApp :=
  mkGsApp (app_id a) (app_kind a) (app_state a) (app_state_recover a)
    (app_management_plugin a) (app_name a) (app_summary a)
    (app_description a) (app_version a) (app_update_version a)
    (app_metadata a) (app_provided a) (app_reviews a) (app_review_ratings a)
    (app_rating a) (app_local_file a) (app_size_download a) (app_quirks a) v.

Definition with_app_local_file (v : option string) (a : GsApp) : GsApp :=
  mkGsApp (app_id a) (app_kind a) (app_state a) (app_state_recover a)
    (app_management_plugin a) (app_name a) (app_summary a)
    (app_description a) (app_version a) (app_update_version a)
    (app_metadata a) (app_provided a) (app_reviews a) (app_review_ratings a)
    (app_rating a) v (app_size_download a) (app_quirks a)
    (app_action_screenshot a).

(** Modelled from the spec: [gs_app_set_state] and [gs_app_set_state_recover]
    live in lib/gs-app.c, which is not among the sources.  The app state
    is the enumeration of the data model; the states INSTALLING, REMOVING
    and QUEUED are the transient ones of an action in flight, and
    recovering returns the app to the last state that was not transient.
    Which transitions the library refuses is not modelled. *)
Definition state_is_transient (st : GsAppState) : bool :=
  match st with
  | GS_APP_STATE_INSTALLING | GS_APP_STATE_REMOVING
  | GS_APP_STATE_QUEUED_FOR_INSTALL => true
  | _ => false
  end.

Definition gs_app_set_state (st : GsAppState) (a : GsApp) : GsApp :=
  if state_is_transient st then with_app_state st a
  else with_app_state_recover st (with_app_state st a).

Definition gs_app_set_state_recover (a : GsApp) : GsApp :=
  if bool_decide (app_state_recover a = GS_APP_STATE_UNKNOWN) then a
  else with_app_state (app_state_recover a) a.

(** Modelled from the spec: [gs_app_set_metadata] (lib/gs-app.c, not among
    the sources) stores backend-private string pairs on the shared entity;
    a NULL value removes the key and a key already present is kept. *)
Definition gs_app_set_metadata (key : string) (value : option string)
    (a : GsApp) : GsApp :=
  match value with
  | None => with_app_metadata (delete key (app_metadata a)) a
  | Some v =>
      match app_metadata a !! key with
      | Some _ => a
      | None => with_app_metadata (<[key := v]> (app_metadata a)) a
      end
  end.

Definition gs_app_add_review (review : AsReview) (a : GsApp) : GsApp :=
  with_app_reviews (app_reviews a ++ [review]) a.

Definition gs_app_add_quirk (q : GsAppQuirk) (a : GsApp) : GsApp :=
  if bool_decide (q ∈ app_quirks a) then a
  else with_app_quirks (app_quirks a ++ [q]) a.

(** [GsPluginRefineFlags] is a bit set; the three bits the ODRS plugin
    looks at. *)
Definition GS_PLUGIN_REFINE_FLAGS_REQUIRE_RATING : Z := Z.shiftl 1 5.
Definition GS_PLUGIN_REFINE_FLAGS_REQUIRE_REVIEWS : Z := Z.shiftl 1 18.
Definition GS_PLUGIN_REFINE_FLAGS_REQUIRE_REVIEW_RATINGS : Z := Z.shiftl 1 19.

(** The C truth value of [flags & mask]. *)
Definition has_flag (flags mask : Z) : bool := negb (Z.land flags mask =? 0).

Inductive GsPluginAction : Type :=
  | GS_PLUGIN_ACTION_UNKNOWN
  | GS_PLUGIN_ACTION_DOWNLOAD.

Inductive GsPluginEventFlag : Type :=
  | GS_PLUGIN_EVENT_FLAG_INTERACTIVE
  | GS_PLUGIN_EVENT_FLAG_WARNING.

Global Instance GsPluginEventFlag_eq_dec : EqDecision GsPluginEventFlag.
Proof. solve_decision. Defined.

(** A [GsPluginEvent] as handed to [gs_plugin_report_event]. *)
Record GsPluginEvent : Type := mkGsPluginEvent {
  event_error : option GError;
  event_action : GsPluginAction;
  event_origin : option string;
  event_flags : list GsPluginEventFlag
}.


End Gs.

(** ** plugins/odrs/gs-plugin-odrs.c *)

Module Odrs.
Import GLib Gs BinarySearch.

Definition ODRS_REVIEW_CACHE_AGE_MAX : Z := 237000.
Definition ODRS_REVIEW_NUMBER_RESULTS_MAX : Z := 20.

Definition SOUP_STATUS_OK : Z := 200.

(** Element of [priv->ratings]. *)
Record GsOdrsRating : Type := mkGsOdrsRating {
  rating_app_id : option string;
  n_star_ratings : list Z
}.

Definition rating_compare (a b : GsOdrsRating) : Z :=
  g_strcmp0 (rating_app_id a) (rating_app_id b).

(** A parsed JSON document (json-glib's [JsonNode]). *)
#[local] Unset Elimination Schemes.
Inductive JsonNode : Type :=
  | JsonNull
  | JsonBool (b : bool)
  | JsonInt (n : Z)
  | JsonString (s : string)
  | JsonArray (elements : list JsonNode)
  | JsonObject (members : list (string * JsonNode)).
#[local] Set Elimination Schemes.

Definition JsonMembers : Type := list (string * JsonNode).

Fixpoint json_object_get_member (obj : JsonMembers) (name : string)
    : option JsonNode :=
  match obj with
  | [] => None
  | (k, v) :: rest =>
      if String.eqb k name then Some v else json_object_get_member rest name
  end.

Definition json_object_has_member (obj : JsonMembers) (name : string) : bool :=
  match json_object_get_member obj name with Some _ => true | None => false end.

Definition json_object_get_int_member (obj : JsonMembers) (name : string) : Z :=
  match json_object_get_member obj name with
  | Some (JsonInt n) => n
  | _ => 0
  end.

Definition json_object_get_string_member (obj : JsonMembers) (name : string)
    : option string :=
  match json_object_get_member obj name with
  | Some (JsonString v) => Some v
  | _ => None
  end.

Definition json_object_get_boolean_member (obj : JsonMembers) (name : string)
    : bool :=
  match json_object_get_member obj name with
  | Some (JsonBool b) => b
  | _ => false
  end.

(** What the plugin asks of the world outside the process, in the order
    it asked.  Request bodies are not modelled, and with them the returns
    taken when [json_generator_to_data] yields no body. *)
Inductive Call : Type :=
  | GetCacheFilename (kind basename : string)
  | GetFileAge (filename : string)
  | DownloadFile (uri filename : string)
  | ParseJsonFile (filename : string)
  | MapFile (filename : string)
  | SoupSend (method uri : string)
  | SetFileContents (filename : string)
  | QueryFileExists (filename : string)
  | DeleteFile (filename : string).

(** A reply of the review server: status code and response body (NULL
    when nothing came back). *)
Record SoupReply : Type := mkSoupReply {
  status_code : Z;
  response_body : option string
}.

(** The collaborators of the plugin.  Each answer may depend on the calls
    made before it.  From [json_parser_load_from_data] on they are pure
    library functions declared outside the sources at hand;
    [wilson_priority] is the floating-point score that
    [gs_plugin_odrs_parse_review_object] computes from the karma counts. *)
Record Host : Type := mkHost {
  gs_plugin_get_name : string;
  gs_plugin_get_locale : string;
  gs_plugin_is_interactive : bool;
  gs_plugin_get_network_available : list Call -> bool;
  gs_utils_get_cache_filename : list Call -> string -> string -> Result string;
  gs_utils_get_file_age : list Call -> string -> Z;
  gs_plugin_download_file : list Call -> string -> string -> Result unit;
  json_parser_load_from_file : list Call -> string -> Result (option JsonNode);
  g_mapped_file_new : list Call -> string -> Result string;
  soup_session_send_message : list Call -> string -> string -> SoupReply;
  g_file_set_contents : list Call -> string -> Result unit;
  g_file_query_exists : list Call -> string -> bool;
  g_file_delete : list Call -> string -> Result unit;
  json_parser_load_from_data : string -> Result (option JsonNode);
  gs_utils_error_convert_json_glib : option GError -> option GError;
  gs_utils_get_wilson_rating : Z -> Z -> Z -> Z -> Z -> Z;
  wilson_priority : Z -> Z -> Z;
  as_gstring_replace : string -> string -> string -> string;
  g_get_real_name : string
}.

(** [GsPluginData], the apps the plugin holds pointers to (a [GsApp *] is
    an index into [apps]), the calls made and the events reported. *)
Record State : Type := mkState {
  review_server : option string;
  user_hash : option string;
  distro : option string;
  ratings : option (list GsOdrsRating);
  cached_origin : option string;
  apps : list GsApp;
  calls : list Call;
  events : list GsPluginEvent
}.

Definition with_ratings (v : option (list GsOdrsRating)) (s : State) : State :=
  mkState (review_server s) (user_hash s) (distro s) v (cached_origin s)
          (apps s) (calls s) (events s).
Definition with_apps (v : list GsApp) (s : State) : State :=
  mkState (review_server s) (user_hash s) (distro s) (ratings s)
          (cached_origin s) v (calls s) (events s).
Definition with_calls (v : list Call) (s : State) : State :=
  mkState (review_server s) (user_hash s) (distro s) (ratings s)
          (cached_origin s) (apps s) v (events s).
Definition with_events (v : list GsPluginEvent) (s : State) : State :=
  mkState (review_server s) (user_hash s) (distro s) (ratings s)
          (cached_origin s) (apps s) (calls s) v.

Definition M : Type -> Type := Act State.

(** Ask the outside world: the answer is computed from the calls so far
    and the call is recorded. *)
Definition ask {A} (c : Call) (answer : list Call -> A) : M A := fun s =>
  (Ok (answer (calls s)), with_calls (calls s ++ [c]) s).

(** The same for a call that can fail with a [GError]. *)
Definition ask_result {A} (c : Call) (answer : list Call -> Result A) : M A :=
  fun s => (answer (calls s), with_calls (calls s ++ [c]) s).

(** Reading through and writing through a [GsApp *]. *)
Definition app_at (app : nat) (s : State) : GsApp :=
  default (gs_app_new None) (apps s !! app).

Definition get_app (app : nat) : M GsApp := act_gets (app_at app).

Definition modify_app (app : nat) (f : GsApp -> GsApp) : M unit :=
  act_modify (fun s => with_apps (alter f app (apps s)) s).

Definition server_disabled (s : State) : bool :=
  str_is_null_or_empty (review_server s).

Definition server_uri (s : State) (suffix : string) : string :=
  String.append (default EmptyString (review_server s)) suffix.

Definition star_names : list string :=
  ["star0"; "star1"; "star2"; "star3"; "star4"; "star5"]%string.

(** [gs_plugin_odrs_load_ratings_for_app]: [None] is the FALSE return.
    The counts are stored in [guint32] slots. *)
Fixpoint load_star_ratings (json_app : JsonMembers) (names : list string)
    : option (list Z) :=
  match names with
  | [] => Some []
  | name :: rest =>
      if negb (json_object_has_member json_app name) then None
      else
        match load_star_ratings json_app rest with
        | None => None
        | Some counts =>
            Some (guint_wrap (json_object_get_int_member json_app name) :: counts)
        end
  end.

Definition gs_plugin_odrs_load_ratings_for_app (json_app : JsonMembers)
    (app_id : string) : option GsOdrsRating :=
  match load_star_ratings json_app star_names with
  | None => None
  | Some counts => Some (mkGsOdrsRating (Some app_id) counts)
  end.

(** The [while (json_object_iter_next ...)] loop of
    [gs_plugin_odrs_load_ratings]. *)
Fixpoint parse_each_app (members : JsonMembers) : list GsOdrsRating :=
  match members with
  | [] => []
  | (app_id, JsonObject json_app) :: rest =>
      match gs_plugin_odrs_load_ratings_for_app json_app app_id with
      | Some rating => rating :: parse_each_app rest
      | None => parse_each_app rest
      end
  | _ :: rest => parse_each_app rest
  end.

Definition rating_le (a b : GsOdrsRating) : Prop := rating_compare a b <= 0.

Global Instance rating_le_dec : RelDecision rating_le.
Proof. intros a b. unfold rating_le. apply _. Defined.

(** [g_array_sort (new_ratings, rating_compare)]. *)
Definition g_array_sort_ratings (l : list GsOdrsRating) : list GsOdrsRating :=
  merge_sort rating_le l.

Definition gs_plugin_odrs_load_ratings (h : Host) (fn : string) : M unit :=
  fun s =>
    match ask_result (ParseJsonFile fn) (fun cs => json_parser_load_from_file h cs fn) s with
    | (Fail e, s1) => (Fail (gs_utils_error_convert_json_glib h e), s1)
    | (Ok None, s1) => fail_with GS_PLUGIN_ERROR_INVALID_FORMAT s1
    | (Ok (Some (JsonObject json_item)), s1) =>
        let new_ratings := g_array_sort_ratings (parse_each_app json_item) in
        (Ok tt, with_ratings (Some new_ratings) s1)
    | (Ok (Some _), s1) => fail_with GS_PLUGIN_ERROR_INVALID_FORMAT s1
    end.

Definition report_download_failure (h : Host) (error_local : option GError)
    : M unit :=
  act_modify (fun s =>
    let flag := if gs_plugin_is_interactive h
                then GS_PLUGIN_EVENT_FLAG_INTERACTIVE
                else GS_PLUGIN_EVENT_FLAG_WARNING in
    with_events (events s ++ [mkGsPluginEvent error_local GS_PLUGIN_ACTION_DOWNLOAD
                                              (cached_origin s) [flag]]) s).

Definition gs_plugin_refresh (h : Host) (cache_age : Z) : M unit :=
  s ← act_get;
  if server_disabled s then mret tt
  else
    let uri := server_uri s "/ratings" in
    cache_filename ← ask_result (GetCacheFilename "odrs" "ratings.json")
                       (fun cs => gs_utils_get_cache_filename h cs "odrs" "ratings.json");
    fresh ← (if 0 <? cache_age
             then tmp ← ask (GetFileAge cache_filename)
                          (fun cs => gs_utils_get_file_age h cs cache_filename);
                  mret (tmp <? cache_age)
             else mret false);
    if (fresh : bool) then gs_plugin_odrs_load_ratings h cache_filename
    else
      downloaded ← act_try (ask_result (DownloadFile uri cache_filename)
                     (fun cs => gs_plugin_download_file h cs uri cache_filename));
      match downloaded with
      | Fail error_local =>
          (* don't fail updates if the ratings server is unavailable *)
          report_download_failure h error_local
      | Ok _ => gs_plugin_odrs_load_ratings h cache_filename
      end.


Definition as_review_add_metadata (key : string) (value : option string)
    (rev : AsReview) : AsReview :=
  mkAsReview (review_id rev) (review_date rev) (review_rating rev)
    (review_priority rev) (review_reviewer_id rev) (review_reviewer_name rev)
    (review_summary rev) (review_description rev) (review_version rev)
    (review_flags rev) (<[key := value]> (review_metadata rev)).

Definition as_review_set_flags (flags : Z) (rev : AsReview) : AsReview :=
  mkAsReview (review_id rev) (review_date rev) (review_rating rev)
    (review_priority rev) (review_reviewer_id rev) (review_reviewer_name rev)
    (review_summary rev) (review_description rev) (review_version rev)
    flags (review_metadata rev).

Definition as_review_add_flags (flags : Z) (rev : AsReview) : AsReview :=
  as_review_set_flags (Z.lor (review_flags rev) flags) rev.

Definition as_review_set_reviewer_name (name : option string) (rev : AsReview)
    : AsReview :=
  mkAsReview (review_id rev) (review_date rev) (review_rating rev)
    (review_priority rev) (review_reviewer_id rev) name
    (review_summary rev) (review_description rev) (review_version rev)
    (review_flags rev) (review_metadata rev).

Definition gs_plugin_odrs_parse_review_object (h : Host) (item : JsonMembers)
    : AsReview :=
  let has := json_object_has_member item in
  let str := json_object_get_string_member item in
  let int := json_object_get_int_member item in
  let rev0 :=
    mkAsReview
      (if has "review_id" then Some (pretty (int "review_id")) else None)
      (if has "date_created" then Some (int "date_created") else None)
      (if has "rating" then gint_cast (int "rating") else 0)
      (if has "score" then gint_cast (int "score")
       else if has "karma_up" && has "karma_down"
            then wilson_priority h (int "karma_up") (int "karma_down")
            else 0)
      (if has "user_hash" then str "user_hash" else None)
      (if has "user_display" then str "user_display" else None)
      (if has "summary" then str "summary" else None)
      (if has "description" then str "description" else None)
      (if has "version" then str "version" else None)
      0 ∅ in
  let rev1 := if has "user_skey"
              then as_review_add_metadata "user_skey" (str "user_skey") rev0
              else rev0 in
  let rev2 := if has "app_id"
              then as_review_add_metadata "app_id" (str "app_id") rev1
              else rev1 in
  (* don't allow multiple votes *)
  if has "vote_id" then as_review_add_flags AS_REVIEW_FLAG_VOTED rev2 else rev2.

(** The loop of [gs_plugin_odrs_parse_reviews]; [reviewer_ids] is the
    hash table used as a set.  [None] is the early [return NULL] on an
    element that is not an object. *)
Fixpoint parse_each_review (h : Host) (json_reviews : list JsonNode)
    (reviewer_ids : gset string) (reviews : list AsReview)
    : option (list AsReview) :=
  match json_reviews with
  | [] => Some reviews
  | JsonObject json_item :: rest =>
      let review := gs_plugin_odrs_parse_review_object h json_item in
      match review_reviewer_id review with
      | None => parse_each_review h rest reviewer_ids reviews
      | Some reviewer_id =>
          (* dedupe each on the user_hash *)
          if bool_decide (reviewer_id ∈ reviewer_ids)
          then parse_each_review h rest reviewer_ids reviews
          else parse_each_review h rest ({[reviewer_id]} ∪ reviewer_ids)
                                 (reviews ++ [review])
      end
  | _ :: _ => None
  end.

(** The error for [data == NULL]. *)
Definition no_data_error (h : Host) {A} : M A :=
  s ← act_get;
  if negb (gs_plugin_get_network_available h (calls s))
  then fail_with GS_PLUGIN_ERROR_NO_NETWORK
  else fail_with GS_PLUGIN_ERROR_INVALID_FORMAT.

Definition gs_plugin_odrs_parse_reviews (h : Host) (data : option string)
    : M (list AsReview) :=
  match data with
  | None => no_data_error h
  | Some text =>
      match json_parser_load_from_data h text with
      | Fail e => act_fail (gs_utils_error_convert_json_glib h e)
      | Ok None => fail_with GS_PLUGIN_ERROR_INVALID_FORMAT
      | Ok (Some (JsonArray json_reviews)) =>
          match parse_each_review h json_reviews ∅ [] with
          | None => fail_with GS_PLUGIN_ERROR_INVALID_FORMAT
          | Some reviews => mret reviews
          end
      | Ok (Some _) => fail_with GS_PLUGIN_ERROR_INVALID_FORMAT
      end
  end.

Definition gs_plugin_odrs_parse_success (h : Host) (data : option string)
    : M unit :=
  match data with
  | None => no_data_error h
  | Some text =>
      match json_parser_load_from_data h text with
      | Fail e => act_fail (gs_utils_error_convert_json_glib h e)
      | Ok None => fail_with GS_PLUGIN_ERROR_INVALID_FORMAT
      | Ok (Some (JsonObject json_item)) =>
          if negb (json_object_get_boolean_member json_item "success")
          then fail_with GS_PLUGIN_ERROR_INVALID_FORMAT
          else mret tt
      | Ok (Some _) => fail_with GS_PLUGIN_ERROR_INVALID_FORMAT
      end
  end.

Definition gs_plugin_odrs_json_post (h : Host) (uri : string) : M unit :=
  reply ← ask (SoupSend "POST" uri)
            (fun cs => soup_session_send_message h cs "POST" uri);
  if negb (status_code reply =? SOUP_STATUS_OK)
  then fail_with GS_PLUGIN_ERROR_FAILED
  else gs_plugin_odrs_parse_success h (response_body reply).

(** The items of the ID provides, NULL items skipped. *)
Definition provided_id_items (provided : list AsProvided) : list string :=
  concat (map (fun prov =>
                 if bool_decide (provided_kind prov = AS_PROVIDED_KIND_ID)
                 then omap id (provided_items prov)
                 else [])
              provided).

Definition _gs_app_get_reviewable_ids (app : GsApp) : list (option string) :=
  app_id app :: map Some (provided_id_items (app_provided app)).

Definition zero_ratings : list Z := [0; 0; 0; 0; 0; 0].

(** [ratings_raw[j] += found_rating->n_star_ratings[j]] over [guint32]. *)
Definition add_star_ratings (ratings_raw found : list Z) : list Z :=
  zip_with (fun a b => guint_add a b) ratings_raw
           (take 6 (found ++ zero_ratings)).

(** The lookup loop of [gs_plugin_odrs_refine_ratings]: the accumulator
    array and [cnt].  On the sorted [priv->ratings] the search ends in
    [Match] or [NoMatch]; every outcome but [Match] skips the id. *)
Fixpoint accumulate_ratings (all : list GsOdrsRating)
    (reviewable_ids : list (option string)) (ratings_raw : list Z) (cnt : Z)
    : list Z * Z :=
  match reviewable_ids with
  | [] => (ratings_raw, cnt)
  | id :: rest =>
      let search_rating := mkGsOdrsRating id zero_ratings in
      match g_array_binary_search rating_compare all search_rating with
      | Match found_index =>
          let found_rating :=
            default search_rating (all !! Z.to_nat found_index) in
          accumulate_ratings all rest
            (add_star_ratings ratings_raw (n_star_ratings found_rating))
            (guint_add cnt 1)
      | _ => accumulate_ratings all rest ratings_raw cnt
      end
  end.

Definition nth_rating (l : list Z) (i : nat) : Z := default 0 (l !! i).

(** The part of [gs_plugin_odrs_refine_ratings] that runs under the
    ratings lock once [priv->ratings] is there. *)
Definition apply_ratings (h : Host) (app : nat) (all : list GsOdrsRating)
    : M unit :=
  a ← get_app app;
  let '(review_ratings, cnt) :=
    accumulate_ratings all (_gs_app_get_reviewable_ids a) zero_ratings 0 in
  if cnt =? 0 then mret tt
  else
    modify_app app (with_app_review_ratings (Some review_ratings));;
    (* find the wilson rating *)
    let rating := gs_utils_get_wilson_rating h
                    (nth_rating review_ratings 1) (nth_rating review_ratings 2)
                    (nth_rating review_ratings 3) (nth_rating review_ratings 4)
                    (nth_rating review_ratings 5) in
    if 0 <? rating then modify_app app (with_app_rating rating) else mret tt.

(** [gs_plugin_odrs_refine_ratings] returns TRUE on every path.  When the
    cache file name cannot be had it returns TRUE as well, so that error
    is dropped here. *)
Definition gs_plugin_odrs_refine_ratings (h : Host) (app : nat) : M unit :=
  s ← act_get;
  if server_disabled s then mret tt
  else
    match ratings s with
    | Some all => apply_ratings h app all
    | None =>
        (* Load from the local cache, if available *)
        cache ← act_try (ask_result (GetCacheFilename "odrs" "ratings.json")
                   (fun cs => gs_utils_get_cache_filename h cs "odrs" "ratings.json"));
        match cache with
        | Fail _ => mret tt
        | Ok cache_filename =>
            loaded ← act_try (gs_plugin_odrs_load_ratings h cache_filename);
            match loaded with
            | Fail _ => mret tt
            | Ok _ =>
                s' ← act_get;
                match ratings s' with
                | None => mret tt
                | Some all => apply_ratings h app all
                end
            end
        end
    end.

Definition cache_basename (id : option string) : string :=
  String.append (default "(null)"%string id) ".json".

Definition gs_plugin_odrs_fetch_for_app (h : Host) (app : nat)
    : M (list AsReview) :=
  s ← act_get;
  if server_disabled s then mret []
  else
    a ← get_app app;
    (* look in the cache *)
    let cachefn_basename := cache_basename (app_id a) in
    cachefn ← ask_result (GetCacheFilename "odrs" cachefn_basename)
                (fun cs => gs_utils_get_cache_filename h cs "odrs" cachefn_basename);
    age ← ask (GetFileAge cachefn) (fun cs => gs_utils_get_file_age h cs cachefn);
    if age <? ODRS_REVIEW_CACHE_AGE_MAX then
      contents ← ask_result (MapFile cachefn) (fun cs => g_mapped_file_new h cs cachefn);
      gs_plugin_odrs_parse_reviews h (Some contents)
    else
      let uri := server_uri s "/fetch" in
      reply ← ask (SoupSend "POST" uri)
                (fun cs => soup_session_send_message h cs "POST" uri);
      if negb (status_code reply =? SOUP_STATUS_OK) then
        gs_plugin_odrs_parse_success h (response_body reply);;
        (* not sure what to do here *)
        fail_with GS_PLUGIN_ERROR_DOWNLOAD_FAILED
      else
        reviews ← gs_plugin_odrs_parse_reviews h (response_body reply);
        (* save to the cache *)
        ask_result (SetFileContents cachefn) (fun cs => g_file_set_contents h cs cachefn);;
        mret reviews.

(** The body of the loop of [gs_plugin_odrs_refine_reviews] for the
    review at index [i]. *)
Definition refine_one_review (s_user_hash : option string) (i : nat)
    (review : AsReview) (a : GsApp) : GsApp :=
  let a1 := if bool_decide (i = 0%nat)
            then gs_app_set_metadata "ODRS::user_skey"
                   (as_review_get_metadata_item review "user_skey") a
            else a in
  (* ignore invalid reviews *)
  if review_rating review =? 0 then a1
  else
    let review' :=
      if g_strcmp0 (review_reviewer_id review) s_user_hash =? 0
      then as_review_set_flags AS_REVIEW_FLAG_SELF review
      else review in
    gs_app_add_review review' a1.

Fixpoint refine_each_review (s_user_hash : option string) (i : nat)
    (reviews : list AsReview) (a : GsApp) : GsApp :=
  match reviews with
  | [] => a
  | review :: rest =>
      refine_each_review s_user_hash (S i) rest
        (refine_one_review s_user_hash i review a)
  end.

Definition gs_plugin_odrs_refine_reviews (h : Host) (app : nat) : M unit :=
  (* get from server *)
  reviews ← gs_plugin_odrs_fetch_for_app h app;
  s ← act_get;
  modify_app app (refine_each_review (user_hash s) 0 reviews).

(** The second block of [refine_app]: add ratings if possible. *)
Definition refine_app_ratings (h : Host) (app : nat) (flags : Z) : M unit :=
  if has_flag flags GS_PLUGIN_REFINE_FLAGS_REQUIRE_REVIEW_RATINGS
     || has_flag flags GS_PLUGIN_REFINE_FLAGS_REQUIRE_RATING then
    a ← get_app app;
    match app_review_ratings a with
    | Some _ => mret tt
    | None => gs_plugin_odrs_refine_ratings h app
    end
  else mret tt.

Definition refine_app (h : Host) (app : nat) (flags : Z) : M unit :=
  a ← get_app app;
  (* not valid *)
  if bool_decide (app_kind a = AS_COMPONENT_KIND_ADDON) then mret tt
  else if bool_decide (app_id a = None) then mret tt
  else
    (* add reviews if possible *)
    if has_flag flags GS_PLUGIN_REFINE_FLAGS_REQUIRE_REVIEWS then
      if 0 <? Z.of_nat (length (app_reviews a)) then mret tt
      else
        gs_plugin_odrs_refine_reviews h app;;
        refine_app_ratings h app flags
    else refine_app_ratings h app flags.

(** One turn of the loop of [gs_plugin_refine]. *)
Definition refine_list_entry (h : Host) (flags : Z) (app : nat) : M unit :=
  refined ← act_try (refine_app h app flags);
  match refined with
  | Ok _ => mret tt
  | Fail local_error =>
      if g_error_matches local_error GS_PLUGIN_ERROR
           (PluginCode GS_PLUGIN_ERROR_NO_NETWORK)
      then mret tt
      else act_fail local_error
  end.

Definition gs_plugin_refine (h : Host) (app_list : list nat) (flags : Z) : M unit :=
  (* nothing to do here *)
  if Z.land flags (Z.lor GS_PLUGIN_REFINE_FLAGS_REQUIRE_REVIEWS
                     (Z.lor GS_PLUGIN_REFINE_FLAGS_REQUIRE_REVIEW_RATINGS
                            GS_PLUGIN_REFINE_FLAGS_REQUIRE_RATING)) =? 0
  then mret tt
  else act_iter (refine_list_entry h flags) app_list.


Definition gs_plugin_odrs_invalidate_cache (h : Host) (review : AsReview)
    : M unit :=
  (* look in the cache *)
  let cachefn_basename :=
    cache_basename (as_review_get_metadata_item review "app_id") in
  cachefn ← ask_result (GetCacheFilename "odrs" cachefn_basename)
              (fun cs => gs_utils_get_cache_filename h cs "odrs" cachefn_basename);
  found ← ask (QueryFileExists cachefn) (fun cs => g_file_query_exists h cs cachefn);
  if negb found then mret tt
  else ask_result (DeleteFile cachefn) (fun cs => g_file_delete h cs cachefn).

(** The plugin writes through its [AsReview *] argument; a successful
    call hands back the review as it left it. *)
Definition gs_plugin_review_submit (h : Host) (app : nat) (review : AsReview)
    : M AsReview :=
  s ← act_get;
  if server_disabled s then fail_with GS_PLUGIN_ERROR_NOT_SUPPORTED
  else
    a ← get_app app;
    (* save as we don't re-request the review from the server *)
    let review' :=
      as_review_add_metadata "user_skey"
        (gs_app_get_metadata_item a "ODRS::user_skey")
        (as_review_add_metadata "app_id" (app_id a)
           (as_review_set_reviewer_name (Some (g_get_real_name h))
              (as_review_add_flags AS_REVIEW_FLAG_SELF review))) in
    (* clear cache *)
    gs_plugin_odrs_invalidate_cache h review';;
    (* POST *)
    gs_plugin_odrs_json_post h (server_uri s "/submit");;
    mret review'.

Definition gs_plugin_odrs_vote (h : Host) (review : AsReview) (path : string)
    : M AsReview :=
  s ← act_get;
  if server_disabled s then fail_with GS_PLUGIN_ERROR_NOT_SUPPORTED
  else
    let uri := server_uri s (String.append "/" path) in
    (* clear cache *)
    gs_plugin_odrs_invalidate_cache h review;;
    (* send to server *)
    gs_plugin_odrs_json_post h uri;;
    (* mark as voted *)
    mret (as_review_add_flags AS_REVIEW_FLAG_VOTED review).

Definition gs_plugin_review_report (h : Host) (app : nat) (review : AsReview)
    : M AsReview := gs_plugin_odrs_vote h review "report".
Definition gs_plugin_review_upvote (h : Host) (app : nat) (review : AsReview)
    : M AsReview := gs_plugin_odrs_vote h review "upvote".
Definition gs_plugin_review_downvote (h : Host) (app : nat) (review : AsReview)
    : M AsReview := gs_plugin_odrs_vote h review "downvote".
Definition gs_plugin_review_dismiss (h : Host) (app : nat) (review : AsReview)
    : M AsReview := gs_plugin_odrs_vote h review "dismiss".
Definition gs_plugin_review_remove (h : Host) (app : nat) (review : AsReview)
    : M AsReview := gs_plugin_odrs_vote h review "remove".

Definition gs_plugin_create_app_dummy (h : Host) (id : string) : GsApp :=
  let str := String.append "No description is available for "
               (as_gstring_replace h id ".desktop" "") in
  with_app_description (Some str)
    (with_app_summary (Some "Application not found"%string)
       (with_app_name (Some "Unknown Application"%string)
          (gs_app_new (Some id)))).

(** Modelled from the spec: [gs_app_list_add] (lib/gs-app-list.c) is not
    among the sources.  An entity list is identity-unique: an entity whose
    identity key is already in the list is not inserted again; otherwise
    the new entity is inserted.  Of the identity key the model has the
    id; an app without id is always inserted. *)
Definition same_identity (a b : GsApp) : bool :=
  match app_id a, app_id b with
  | Some x, Some y => String.eqb x y
  | _, _ => false
  end.

Definition gs_app_list_add (store : list GsApp) (app_list : list nat) (app : nat)
    : list nat :=
  let a := default (gs_app_new None) (store !! app) in
  if existsb (fun q => Nat.eqb q app
                       || same_identity (default (gs_app_new None) (store !! q)) a)
             app_list
  then app_list
  else app_list ++ [app].

(** One turn of the loop of [gs_plugin_add_unvoted_reviews]; [hash] maps
    an app id to the [GsApp *] faked for it.  [g_str_hash] reads through
    its key, so a review without "app_id" metadata ends the run; the
    model stops there with a failure that sets no error. *)
Definition add_unvoted_review (h : Host) (review : AsReview)
    (acc : list nat * gmap string nat) : M (list nat * gmap string nat) :=
  let '(app_list, hash) := acc in
  match as_review_get_metadata_item review "app_id" with
  | None => act_fail None
  | Some app_id =>
      (* same app? *)
      '(app, app_list', hash') ←
        match hash !! app_id with
        | Some app => mret (app, app_list, hash)
        | None =>
            s ← act_get;
            let app := length (apps s) in
            let store := apps s ++ [gs_plugin_create_app_dummy h app_id] in
            act_modify (with_apps store);;
            mret (app, gs_app_list_add store app_list app, <[app_id := app]> hash)
        end;
      modify_app app (gs_app_add_review review);;
      mret (app_list', hash')
  end.

Fixpoint add_unvoted_each (h : Host) (reviews : list AsReview)
    (acc : list nat * gmap string nat) : M (list nat * gmap string nat) :=
  match reviews with
  | [] => mret acc
  | review :: rest =>
      acc' ← add_unvoted_review h review acc;
      add_unvoted_each h rest acc'
  end.

Definition moderate_uri (h : Host) (s : State) : string :=
  server_uri s
    (String.append "/moderate/"
       (String.append (default "(null)"%string (user_hash s))
          (String.append "/" (gs_plugin_get_locale h)))).

(** The list is handed in as the [GsApp *]s it holds and handed back as
    the call left it. *)
Definition gs_plugin_add_unvoted_reviews (h : Host) (app_list : list nat)
    : M (list nat) :=
  s ← act_get;
  if server_disabled s then fail_with GS_PLUGIN_ERROR_NOT_SUPPORTED
  else
    (* create the GET data *with* the machine hash *)
    let uri := moderate_uri h s in
    reply ← ask (SoupSend "GET" uri)
              (fun cs => soup_session_send_message h cs "GET" uri);
    if negb (status_code reply =? SOUP_STATUS_OK) then
      gs_plugin_odrs_parse_success h (response_body reply);;
      (* not sure what to do here *)
      fail_with GS_PLUGIN_ERROR_DOWNLOAD_FAILED
    else
      reviews ← gs_plugin_odrs_parse_reviews h (response_body reply);
      (* look at all the reviews; faking application objects *)
      '(app_list', _) ← add_unvoted_each h reviews (app_list, ∅);
      mret app_list'.


(** *** What [gs_plugin_add_unvoted_reviews] maintains *)

Definition review_app_id (review : AsReview) : option string :=
  as_review_get_metadata_item review "app_id".





End Odrs.

(** ** plugins/fwupd/gs-plugin-fwupd.c *)

Module Fwupd.
Import GLib Gs.

Definition FWUPD_DEVICE_ID_ANY : string := "*".

Record FwupdRelease : Type := mkFwupdRelease {
  release_appstream_id : option string;
  release_version : option string;
  release_checksums : list string;
  release_uri : option string
}.

Inductive FwupdDeviceFlag : Type :=
  | FWUPD_DEVICE_FLAG_UPDATABLE
  | FWUPD_DEVICE_FLAG_LOCKED
  | FWUPD_DEVICE_FLAG_SUPPORTED.

Global Instance FwupdDeviceFlag_eq_dec : EqDecision FwupdDeviceFlag.
Proof. solve_decision. Defined.

Record FwupdDevice : Type := mkFwupdDevice {
  device_id : option string;
  device_version : option string;
  device_flags : list FwupdDeviceFlag;
  device_release_default : option FwupdRelease;
  device_update_message : option string;
  device_update_image : option string
}.

(** What the plugin asks of the fwupd daemon and of the file system, in
    the order it asked. *)
Inductive Call : Type :=
  | QueryFileExists (filename : string)
  | ClientDownloadFile (uri : option string) (filename : string)
  | PluginDownloadFile (uri : option string) (filename : string)
  | ClientInstall (device_id filename : string) (offline : bool)
  | DeleteFile (filename : string)
  | ClientGetDeviceById (device_id : string)
  | ClientModifyRemote (remote_id key value : string)
  | GetCacheFilename (kind basename : string)
  | FileChecksum (filename : string)
  | Unlink (filename : string).

(** The collaborators of the plugin; each answer may depend on the calls
    made before it.  From [gs_utils_error_convert_gio] on they are pure
    functions of the core and of gs-fwupd-app.c, declared outside the
    sources at hand.  The two error converters answer [Some e'] when they
    return TRUE, having rewritten the error to [e']. *)
Record Host : Type := mkHost {
  gs_plugin_get_name : string;
  fwupd_check_version_1_5_2 : bool;
  fwupd_check_version_1_2_10 : bool;
  g_file_query_exists : list Call -> string -> bool;
  fwupd_client_download_file : list Call -> option string -> string -> Result unit;
  gs_plugin_download_file : list Call -> option string -> string -> Result unit;
  fwupd_client_install : list Call -> string -> string -> bool -> Result unit;
  g_file_delete : list Call -> string -> Result unit;
  fwupd_client_get_device_by_id : list Call -> string -> Result FwupdDevice;
  fwupd_client_modify_remote : list Call -> string -> string -> string -> Result unit;
  gs_utils_get_cache_filename : list Call -> string -> string -> Result string;
  gs_plugin_fwupd_get_file_checksum : list Call -> string -> Result string;
  gs_utils_error_convert_gio : GError -> option GError;
  gs_utils_error_convert_gdbus : GError -> option GError;
  as_utils_build_data_id : string -> string;
  gs_fwupd_app_set_from_device : FwupdDevice -> GsApp -> GsApp;
  gs_fwupd_app_set_from_release : FwupdRelease -> GsApp -> GsApp;
  fwupd_checksum_get_by_kind_sha1 : list string -> option string;
  g_path_get_basename : string -> string
}.

(** [GsPluginData], the apps the plugin holds pointers to (a [GsApp *] is
    an index into [apps]), the plugin cache and the calls made. *)
Record State : Type := mkState {
  app_current : option nat;
  apps : list GsApp;
  plugin_cache : gmap string nat;
  calls : list Call
}.

Definition with_app_current (v : option nat) (s : State) : State :=
  mkState v (apps s) (plugin_cache s) (calls s).
Definition with_apps (v : list GsApp) (s : State) : State :=
  mkState (app_current s) v (plugin_cache s) (calls s).
Definition with_plugin_cache (v : gmap string nat) (s : State) : State :=
  mkState (app_current s) (apps s) v (calls s).
Definition with_calls (v : list Call) (s : State) : State :=
  mkState (app_current s) (apps s) (plugin_cache s) v.

Definition M : Type -> Type := Act State.

Definition ask {A} (c : Call) (answer : list Call -> A) : M A := fun s =>
  (Ok (answer (calls s)), with_calls (calls s ++ [c]) s).

Definition ask_result {A} (c : Call) (answer : list Call -> Result A) : M A :=
  fun s => (answer (calls s), with_calls (calls s ++ [c]) s).

Definition app_at (app : nat) (s : State) : GsApp :=
  default (gs_app_new None) (apps s !! app).

Definition get_app (app : nat) : M GsApp := act_gets (app_at app).

Definition modify_app (app : nat) (f : GsApp -> GsApp) : M unit :=
  act_modify (fun s => with_apps (alter f app (apps s)) s).

(** [gs_plugin_fwupd_error_convert] on [*perror]; [None] is an error that
    is not set. *)
Definition gs_plugin_fwupd_error_convert (h : Host) (perror : option GError)
    : option GError :=
  match perror with
  | None => None
  | Some error =>
      (* already correct *)
      if bool_decide (domain error = GS_PLUGIN_ERROR) then Some error
      else
        (* this are allowed for low-level errors *)
        match gs_utils_error_convert_gio h error with
        | Some converted => Some converted
        | None =>
            match gs_utils_error_convert_gdbus h error with
            | Some converted => Some converted
            | None =>
                (* custom to this plugin *)
                if bool_decide (domain error = FWUPD_ERROR) then
                  match code error with
                  | FwupdCode FWUPD_ERROR_ALREADY_PENDING
                  | FwupdCode FWUPD_ERROR_INVALID_FILE
                  | FwupdCode FWUPD_ERROR_NOT_SUPPORTED =>
                      Some (plugin_error GS_PLUGIN_ERROR_NOT_SUPPORTED)
                  | FwupdCode FWUPD_ERROR_AUTH_FAILED =>
                      Some (plugin_error GS_PLUGIN_ERROR_AUTH_INVALID)
                  | FwupdCode FWUPD_ERROR_SIGNATURE_INVALID =>
                      Some (plugin_error GS_PLUGIN_ERROR_NO_SECURITY)
                  | FwupdCode FWUPD_ERROR_AC_POWER_REQUIRED =>
                      Some (plugin_error GS_PLUGIN_ERROR_AC_POWER_REQUIRED)
                  | FwupdCode FWUPD_ERROR_BATTERY_LEVEL_TOO_LOW =>
                      if fwupd_check_version_1_2_10 h
                      then Some (plugin_error GS_PLUGIN_ERROR_BATTERY_LEVEL_TOO_LOW)
                      else Some (plugin_error GS_PLUGIN_ERROR_FAILED)
                  | _ => Some (plugin_error GS_PLUGIN_ERROR_FAILED)
                  end
                else Some (plugin_error GS_PLUGIN_ERROR_FAILED)
            end
        end
  end.

(** Run a daemon call and convert the error it leaves. *)
Definition converting {A} (h : Host) (m : M A) : M A :=
  r ← act_try m;
  match r with
  | Ok a => mret a
  | Fail e => act_fail (gs_plugin_fwupd_error_convert h e)
  end.

(** gs-fwupd-app.c keeps the device id and the update URI in the app's
    metadata. *)
Definition gs_fwupd_app_get_device_id (a : GsApp) : option string :=
  gs_app_get_metadata_item a "fwupd::DeviceID".
Definition gs_fwupd_app_get_update_uri (a : GsApp) : option string :=
  gs_app_get_metadata_item a "fwupd::UpdateID".
Definition gs_fwupd_app_set_device_id (id : option string) (a : GsApp) : GsApp :=
  gs_app_set_metadata "fwupd::DeviceID" id a.

Definition gs_plugin_fwupd_new_app_from_device (h : Host) (dev : FwupdDevice)
    : M (option nat) :=
  match device_release_default dev with
  | None => mret None
  | Some rel =>
      match release_appstream_id rel with
      | None =>
          (* older versions of fwups didn't record this for historical devices *)
          mret None
      | Some appstream_id =>
          (* get from cache *)
          let id := as_utils_build_data_id h appstream_id in
          s ← act_get;
          app ← match plugin_cache s !! id with
                | Some app => mret app
                | None =>
                    let app := length (apps s) in
                    act_modify (fun s =>
                      with_plugin_cache (<[id := app]> (plugin_cache s))
                        (with_apps (apps s ++ [gs_app_new (Some id)]) s));;
                    mret app
                end;
          (* default stuff *)
          modify_app app (fun a =>
            with_app_id (Some appstream_id)
              (gs_fwupd_app_set_from_release h rel
                 (gs_fwupd_app_set_from_device h dev
                    (gs_fwupd_app_set_device_id (device_id dev)
                       (with_app_management_plugin (Some "fwupd"%string)
                          (gs_app_add_quirk GS_APP_QUIRK_DO_NOT_AUTO_UPDATE
                             (gs_app_add_quirk GS_APP_QUIRK_NOT_LAUNCHABLE
                                (with_app_kind AS_COMPONENT_KIND_FIRMWARE a))))))));;
          mret (Some app)
      end
  end.

(** [gs_app_get_state (NULL)] is GS_APP_STATE_UNKNOWN, and the other
    getters answer NULL on a NULL app. *)
Definition state_of (s : State) (app : option nat) : GsAppState :=
  match app with
  | None => GS_APP_STATE_UNKNOWN
  | Some p => app_state (app_at p s)
  end.

(** The cached-file check of [gs_plugin_fwupd_new_app]: a missing SHA1
    only sets the error, and the first error set is the one that stays. *)
Definition check_cached_file (h : Host) (checksums : list string)
    (filename_cache : string) : M unit :=
  let checksum_tmp := fwupd_checksum_get_by_kind_sha1 h checksums in
  computed ← act_try (ask_result (FileChecksum filename_cache)
                (fun cs => gs_plugin_fwupd_get_file_checksum h cs filename_cache));
  match computed with
  | Fail e =>
      match checksum_tmp with
      | None => fail_with GS_PLUGIN_ERROR_INVALID_FORMAT
      | Some _ => act_fail e
      end
  | Ok checksum =>
      if negb (g_strcmp0 checksum_tmp (Some checksum) =? 0) then
        ask (Unlink filename_cache) (fun _ => tt);;
        fail_with GS_PLUGIN_ERROR_INVALID_FORMAT
      else mret tt
  end.

Definition gs_plugin_fwupd_new_app (h : Host) (dev : FwupdDevice) : M nat :=
  app ← gs_plugin_fwupd_new_app_from_device h dev;
  s ← act_get;
  (* update unsupported *)
  if negb (bool_decide (state_of s app = GS_APP_STATE_UPDATABLE_LIVE))
  then fail_with GS_PLUGIN_ERROR_NOT_SUPPORTED
  else
    match app, device_release_default dev with
    | Some app, Some rel =>
        let a := app_at app s in
        (* some missing *)
        if bool_decide (app_id a = None)
        then fail_with GS_PLUGIN_ERROR_NOT_SUPPORTED
        else if bool_decide (app_version a = None)
        then fail_with GS_PLUGIN_ERROR_NOT_SUPPORTED
        else if bool_decide (app_update_version a = None)
        then fail_with GS_PLUGIN_ERROR_NOT_SUPPORTED
        else if Z.of_nat (length (release_checksums rel)) =? 0
        then fail_with GS_PLUGIN_ERROR_NO_SECURITY
        else
          match release_uri rel with
          | None => fail_with GS_PLUGIN_ERROR_INVALID_FORMAT
          | Some update_uri =>
              (* does the firmware already exist in the cache? *)
              let basename := g_path_get_basename h update_uri in
              filename_cache ← ask_result (GetCacheFilename "fwupd" basename)
                (fun cs => gs_utils_get_cache_filename h cs "fwupd" basename);
              (* delete the file if the checksum does not match *)
              present ← ask (QueryFileExists filename_cache)
                (fun cs => g_file_query_exists h cs filename_cache);
              (if (present : bool)
               then check_cached_file h (release_checksums rel) filename_cache
               else mret tt);;
              (* already downloaded, so overwrite *)
              present' ← ask (QueryFileExists filename_cache)
                (fun cs => g_file_query_exists h cs filename_cache);
              (if (present' : bool)
               then modify_app app (with_app_size_download 0)
               else mret tt);;
              (* actually add the application *)
              modify_app app (with_app_local_file (Some filename_cache));;
              mret app
          end
    | _, _ => fail_with GS_PLUGIN_ERROR_NOT_SUPPORTED
    end.

(** The download step of [gs_plugin_fwupd_install], in both variants of
    the FWUPD_CHECK_VERSION(1,5,2) conditional. *)
Definition install_download (h : Host) (app : nat) (filename : string) : M unit :=
  a ← get_app app;
  let uri := gs_fwupd_app_get_update_uri a in
  modify_app app (gs_app_set_state GS_APP_STATE_INSTALLING);;
  if fwupd_check_version_1_5_2 h then
    converting h (ask_result (ClientDownloadFile uri filename)
                    (fun cs => fwupd_client_download_file h cs uri filename))
  else
    ask_result (PluginDownloadFile uri filename)
      (fun cs => gs_plugin_download_file h cs uri filename).

(** The tail of [gs_plugin_fwupd_install]: does the device have an update
    message? *)
Definition install_update_message (h : Host) (app : nat) (device_id : string)
    : M unit :=
  found ← act_try (ask_result (ClientGetDeviceById device_id)
             (fun cs => fwupd_client_get_device_by_id h cs device_id));
  match found with
  | Fail _ => mret tt
  | Ok dev =>
      match device_update_message dev with
      | None => mret tt
      | Some message =>
          modify_app app (fun a =>
            (* require the dialog *)
            gs_app_add_quirk GS_APP_QUIRK_NEEDS_USER_ACTION
              (with_app_action_screenshot (Some message) a))
      end
  end.

Definition gs_plugin_fwupd_install (h : Host) (app : nat) : M unit :=
  a ← get_app app;
  (* not set *)
  match app_local_file a with
  | None => fail_with GS_PLUGIN_ERROR_FAILED
  | Some filename =>
      (* file does not yet exist *)
      present ← ask (QueryFileExists filename)
                  (fun cs => g_file_query_exists h cs filename);
      downloaded_to_cache ←
        (if negb present
         then install_download h app filename;; mret true
         else mret false);
      (* limit to single device? *)
      let device_id := default FWUPD_DEVICE_ID_ANY (gs_fwupd_app_get_device_id a) in
      (* set the last object *)
      act_modify (with_app_current (Some app));;
      (* only offline supported *)
      let offline :=
        bool_decide (gs_app_get_metadata_item a "fwupd::OnlyOffline" <> None) in
      modify_app app (gs_app_set_state GS_APP_STATE_INSTALLING);;
      installed ← act_try (ask_result (ClientInstall device_id filename offline)
                     (fun cs => fwupd_client_install h cs device_id filename offline));
      match installed with
      | Fail e =>
          modify_app app gs_app_set_state_recover;;
          act_fail (gs_plugin_fwupd_error_convert h e)
      | Ok _ =>
          (* delete the file from the cache *)
          modify_app app (gs_app_set_state GS_APP_STATE_INSTALLED);;
          (if (downloaded_to_cache : bool)
           then ask_result (DeleteFile filename) (fun cs => g_file_delete h cs filename)
           else mret tt);;
          install_update_message h app device_id
      end
  end.

Definition gs_plugin_fwupd_modify_source (h : Host) (app : nat) (enabled : bool)
    : M unit :=
  a ← get_app app;
  match gs_app_get_metadata_item a "fwupd::remote-id" with
  | None => fail_with GS_PLUGIN_ERROR_FAILED
  | Some remote_id =>
      modify_app app (gs_app_set_state
        (if enabled then GS_APP_STATE_INSTALLING else GS_APP_STATE_REMOVING));;
      let value := if enabled then "true"%string else "false"%string in
      modified ← act_try (ask_result (ClientModifyRemote remote_id "Enabled" value)
                    (fun cs => fwupd_client_modify_remote h cs remote_id "Enabled" value));
      match modified with
      | Fail e =>
          modify_app app gs_app_set_state_recover;;
          act_fail e
      | Ok _ =>
          modify_app app (gs_app_set_state
            (if enabled then GS_APP_STATE_INSTALLED else GS_APP_STATE_AVAILABLE))
      end
  end.

(** [g_strcmp0 (gs_app_get_management_plugin (app),
                gs_plugin_get_name (plugin)) != 0] *)
Definition not_managed_here (h : Host) (a : GsApp) : bool :=
  negb (g_strcmp0 (app_management_plugin a) (Some (gs_plugin_get_name h)) =? 0).

Definition gs_plugin_app_install (h : Host) (app : nat) : M unit :=
  a ← get_app app;
  (* only process this app if was created by this plugin *)
  if not_managed_here h a then mret tt
  else
    (* source -> remote *)
    if bool_decide (app_kind a = AS_COMPONENT_KIND_REPOSITORY)
    then gs_plugin_fwupd_modify_source h app true
    else
      (* firmware *)
      gs_plugin_fwupd_install h app.

Definition gs_plugin_app_remove (h : Host) (app : nat) : M unit :=
  a ← get_app app;
  (* only process this app if was created by this plugin *)
  if not_managed_here h a then mret tt
  else
    (* source -> remote *)
    gs_plugin_fwupd_modify_source h app false.

End Fwupd.

(** ** Concrete collaborators and states, for running the plugin code *)

Module Examples.
Import GLib Gs.

(** A review server that cannot be reached: every request comes back
    without a body, downloads fail, and the cache directory is empty
    except for a ratings file and per-app files of age [age]. *)
Definition odrs_host (interactive online : bool) (age : Z) : Odrs.Host :=
  Odrs.mkHost "odrs" "en_GB" interactive
    (fun _ => online)
    (fun _ kind basename => Ok (String.append "/cache/" basename))
    (fun _ _ => age)
    (fun _ _ _ => Fail (Some (plugin_error GS_PLUGIN_ERROR_DOWNLOAD_FAILED)))
    (fun _ _ => Fail (Some (mkGError JSON_PARSER_ERROR (RawCode 0))))
    (fun _ _ => Ok "[]"%string)
    (fun _ _ _ => Odrs.mkSoupReply 0 None)
    (fun _ _ => Ok tt)
    (fun _ _ => false)
    (fun _ _ => Ok tt)
    (fun text => if String.eqb text "[]" then Ok (Some (Odrs.JsonArray []))
                 else Fail (Some (mkGError JSON_PARSER_ERROR (RawCode 0))))
    (fun _ => Some (plugin_error GS_PLUGIN_ERROR_INVALID_FORMAT))
    (fun _ _ _ _ _ => 80)
    (fun _ _ => 0)
    (fun text _ _ => text)
    "A. User".

Definition example_review : AsReview :=
  mkAsReview (Some "1"%string) None 80 0 (Some "reviewer"%string) None None None
             None 0 ∅.

(** An app with id, version and the given reviews and review ratings. *)
Definition example_app (reviews : list AsReview) (review_ratings : option (list Z))
    : GsApp :=
  with_app_review_ratings review_ratings
    (with_app_reviews reviews
       (with_app_version (Some "1.0"%string)
          (with_app_kind AS_COMPONENT_KIND_DESKTOP_APP
             (gs_app_new (Some "org.example.App"%string))))).

Definition example_ratings : list Odrs.GsOdrsRating :=
  [Odrs.mkGsOdrsRating (Some "org.example.App"%string) [0; 1; 2; 3; 4; 5]].

Definition odrs_state (server : option string) (store : list GsApp) : Odrs.State :=
  Odrs.mkState server (Some "hash"%string) (Some "Fedora"%string)
               (Some example_ratings) (Some "odrs"%string) store [] [].

Definition example_server : option string :=
  Some "https://odrs.example/1.0/reviews/api"%string.

Definition review_and_rating_flags : Z :=
  Z.lor GS_PLUGIN_REFINE_FLAGS_REQUIRE_REVIEWS GS_PLUGIN_REFINE_FLAGS_REQUIRE_RATING.


(** A fwupd daemon whose downloads, installs and remote changes fail with
    [failure]; [present] says whether files exist. *)
Definition fwupd_host (v_1_5_2 present : bool) (failure : GError) : Fwupd.Host :=
  Fwupd.mkHost "fwupd" v_1_5_2 true
    (fun _ _ => present)
    (fun _ _ _ => Fail (Some failure))
    (fun _ _ _ => Fail (Some failure))
    (fun _ _ _ _ => Fail (Some failure))
    (fun _ _ => Ok tt)
    (fun _ _ => Fail (Some failure))
    (fun _ _ _ _ => Fail (Some failure))
    (fun _ _ basename => Ok (String.append "/cache/fwupd/" basename))
    (fun _ _ => Ok "da39a3ee"%string)
    (fun e => if bool_decide (domain e = G_IO_ERROR)
              then Some (plugin_error GS_PLUGIN_ERROR_FAILED) else None)
    (fun e => if bool_decide (domain e = G_DBUS_ERROR)
              then Some (plugin_error GS_PLUGIN_ERROR_FAILED) else None)
    (fun id => String.append "system/*/*/" (String.append id "/*"))
    (fun dev a =>
       let a' := with_app_version (Fwupd.device_version dev) a in
       if bool_decide (Fwupd.FWUPD_DEVICE_FLAG_UPDATABLE ∈ Fwupd.device_flags dev)
       then gs_app_set_state GS_APP_STATE_UPDATABLE_LIVE a' else a')
    (fun rel a => with_app_update_version (Fwupd.release_version rel) a)
    (fun checksums => head checksums)
    (fun uri => uri).

Definition ac_power_error : GError :=
  mkGError FWUPD_ERROR (FwupdCode FWUPD_ERROR_AC_POWER_REQUIRED).

Definition write_error : GError :=
  mkGError FWUPD_ERROR (FwupdCode FWUPD_ERROR_WRITE).

(** A firmware update managed by the plugin, ready to be installed. *)
Definition firmware_app : GsApp :=
  with_app_local_file (Some "/cache/fwupd/firmware.cab"%string)
    (with_app_management_plugin (Some "fwupd"%string)
       (gs_app_set_state GS_APP_STATE_UPDATABLE_LIVE
          (with_app_kind AS_COMPONENT_KIND_FIRMWARE
             (gs_app_new (Some "com.example.firmware"%string))))).

(** An enabled remote of the plugin. *)
Definition remote_app : GsApp :=
  gs_app_set_metadata "fwupd::remote-id" (Some "lvfs"%string)
    (with_app_management_plugin (Some "fwupd"%string)
       (gs_app_set_state GS_APP_STATE_INSTALLED
          (with_app_kind AS_COMPONENT_KIND_REPOSITORY
             (gs_app_new (Some "org.fwupd.lvfs.remote"%string))))).

(** An app of another plugin. *)
Definition package_app : GsApp :=
  with_app_management_plugin (Some "packagekit"%string)
    (gs_app_set_state GS_APP_STATE_AVAILABLE
       (gs_app_new (Some "org.example.App"%string))).

Definition fwupd_state (store : list GsApp) : Fwupd.State :=
  Fwupd.mkState None store ∅ [].

(** A device whose default release has no checksums, with the given
    device flags. *)
Definition unsigned_device (flags : list Fwupd.FwupdDeviceFlag)
    : Fwupd.FwupdDevice :=
  Fwupd.mkFwupdDevice (Some "dev0"%string) (Some "1.0"%string) flags
    (Some (Fwupd.mkFwupdRelease (Some "com.example.firmware"%string)
             (Some "1.1"%string) [] (Some "https://example/firmware.cab"%string)))
    None None.

(** A review server that answers the moderation request with three
    reviews, two of them for the same app. *)
Definition unvoted_reply : Odrs.JsonNode :=
  Odrs.JsonArray
    [Odrs.JsonObject [("user_hash", Odrs.JsonString "u1"); ("rating", Odrs.JsonInt 80);
                      ("app_id", Odrs.JsonString "a.desktop")]%string;
     Odrs.JsonObject [("user_hash", Odrs.JsonString "u2"); ("rating", Odrs.JsonInt 60);
                      ("app_id", Odrs.JsonString "b.desktop")]%string;
     Odrs.JsonObject [("user_hash", Odrs.JsonString "u3"); ("rating", Odrs.JsonInt 20);
                      ("app_id", Odrs.JsonString "a.desktop")]%string].

Definition moderation_host : Odrs.Host :=
  Odrs.mkHost "odrs" "en_GB" false
    (fun _ => true)
    (fun _ kind basename => Ok (String.append "/cache/" basename))
    (fun _ _ => 0)
    (fun _ _ _ => Ok tt)
    (fun _ _ => Fail None)
    (fun _ _ => Fail None)
    (fun _ _ _ => Odrs.mkSoupReply 200 (Some "reviews"%string))
    (fun _ _ => Ok tt)
    (fun _ _ => false)
    (fun _ _ => Ok tt)
    (fun _ => Ok (Some unvoted_reply))
    (fun e => e)
    (fun _ _ _ _ _ => 80)
    (fun _ _ => 0)
    (fun text _ _ => text)
    "A. User".

(** A sorted ratings array and a comparison on integers, for running the
    binary search. *)
Definition compare_int (a b : Z) : Z :=
  if a <? b then -1 else if b <? a then 1 else 0.

End Examples.

(** ** GLib string functions on buffers *)

Module GStrings.

Definition NUL : Ascii.ascii := Ascii.zero.

(** The C string that a buffer holds: its bytes before the first NUL. *)
Fixpoint c_str (buf : string) : string :=
  match buf with
  | EmptyString => EmptyString
  | String c rest => if Ascii.eqb c NUL then EmptyString else String c (c_str rest)
  end.

(** [strchr (s, c) != NULL] for a [c] that is not NUL. *)
Fixpoint has_char (c : Ascii.ascii) (s : string) : bool :=
  match s with
  | EmptyString => false
  | String c' rest => Ascii.eqb c' c || has_char c rest
  end.

(** [g_strdelimit (s, delimiters, new_delimiter)]: every byte of [s] that
    is in [delimiters] is overwritten. *)
Fixpoint g_strdelimit (s delimiters : string) (new_delimiter : Ascii.ascii) : string :=
  match s with
  | EmptyString => EmptyString
  | String c rest =>
      String (if has_char c delimiters then new_delimiter else c)
             (g_strdelimit rest delimiters new_delimiter)
  end.

(** [g_str_has_prefix (str, prefix)]. *)
Fixpoint g_str_has_prefix (str prefix : string) {struct prefix} : bool :=
  match prefix, str with
  | EmptyString, _ => true
  | String _ _, EmptyString => false
  | String a prefix', String b str' => Ascii.eqb a b && g_str_has_prefix str' prefix'
  end.

(** [g_strstr_len (haystack, -1, needle)]: the offset of the first
    occurrence, [None] for NULL. *)
Fixpoint g_strstr (haystack needle : string) : option nat :=
  if g_str_has_prefix haystack needle then Some 0%nat
  else
    match haystack with
    | EmptyString => None
    | String _ rest => S <$> g_strstr rest needle
    end.

(** [g_strrstr (haystack, needle)]: the offset of the last occurrence. *)
Fixpoint g_strrstr (haystack needle : string) : option nat :=
  match haystack with
  | EmptyString => if g_str_has_prefix EmptyString needle then Some 0%nat else None
  | String _ rest =>
      match g_strrstr rest needle with
      | Some i => Some (S i)
      | None => if g_str_has_prefix haystack needle then Some 0%nat else None
      end
  end.

(** The pointer [s + n]. *)
Fixpoint str_offset (n : nat) (s : string) : string :=
  match n, s with
  | O, _ => s
  | S n', String _ rest => str_offset n' rest
  | S _, EmptyString => EmptyString
  end.

(** [buf[n] = c]. *)
Fixpoint poke (n : nat) (c : Ascii.ascii) (buf : string) {struct buf} : string :=
  match buf, n with
  | EmptyString, _ => EmptyString
  | String _ rest, O => String c rest
  | String c' rest, S n' => String c' (poke n' c rest)
  end.

End GStrings.

(** ** plugins/odrs/gs-plugin-odrs.c: what goes into a request *)

Module OdrsRequest.
Import GLib Gs Odrs GStrings.




Definition gs_plugin_odrs_sanitize_version (version : option string) : string :=
  match version with
  | None =>
      (* nothing set *)
      "unknown"
  | Some version =>
      (* remove epoch *)
      let version := match g_strrstr version ":" with
                     | Some i => str_offset (S i) version
                     | None => version
                     end in
      (* remove release *)
      let tmp := g_strdelimit version "-" NUL in
      (* remove '+dfsg' suffix *)
      let tmp := match g_strstr (c_str tmp) "+dfsg" with
                 | Some i => poke i NUL tmp
                 | None => tmp
                 end in
      c_str tmp
  end.

End OdrsRequest.

(** ** plugins/fwupd/gs-plugin-fwupd.c: the callbacks and the jobs *)

Module FwupdJobs.
Import Stdlib.Strings.Ascii.
Import GLib Gs GStrings.

Inductive FwupdStatus : Type :=
  | FWUPD_STATUS_UNKNOWN
  | FWUPD_STATUS_IDLE
  | FWUPD_STATUS_LOADING
  | FWUPD_STATUS_DECOMPRESSING
  | FWUPD_STATUS_DEVICE_RESTART
  | FWUPD_STATUS_DEVICE_WRITE
  | FWUPD_STATUS_DEVICE_VERIFY
  | FWUPD_STATUS_SCHEDULING
  | FWUPD_STATUS_DOWNLOADING
  | FWUPD_STATUS_DEVICE_READ
  | FWUPD_STATUS_DEVICE_ERASE
  | FWUPD_STATUS_WAITING_FOR_AUTH
  | FWUPD_STATUS_DEVICE_BUSY
  | FWUPD_STATUS_SHUTDOWN.

Definition gs_plugin_adopt_app (h : Fwupd.Host) (app : nat) : Fwupd.M unit :=
  a ← Fwupd.get_app app;
  if bool_decide (app_kind a = AS_COMPONENT_KIND_FIRMWARE)
  then Fwupd.modify_app app
         (with_app_management_plugin (Some (Fwupd.gs_plugin_get_name h)))
  else mret tt.

(** [gs_plugin_fwupd_notify_status_cb], with the status that
    [fwupd_client_get_status] answers. *)
Definition gs_plugin_fwupd_notify_status_cb (status : FwupdStatus)
    : Fwupd.M unit :=
  s ← act_get;
  match Fwupd.app_current s with
  | None =>
      (* nothing in progress *)
      mret tt
  | Some app_current =>
      match status with
      | FWUPD_STATUS_DECOMPRESSING
      | FWUPD_STATUS_DEVICE_RESTART
      | FWUPD_STATUS_DEVICE_WRITE
      | FWUPD_STATUS_DEVICE_VERIFY =>
          Fwupd.modify_app app_current (gs_app_set_state GS_APP_STATE_INSTALLING)
      | FWUPD_STATUS_IDLE => act_modify (Fwupd.with_app_current None)
      | _ => mret tt
      end
  end.

Inductive FwupdRemoteKind : Type :=
  | FWUPD_REMOTE_KIND_UNKNOWN
  | FWUPD_REMOTE_KIND_DOWNLOAD
  | FWUPD_REMOTE_KIND_LOCAL
  | FWUPD_REMOTE_KIND_DIRECTORY.

Global Instance FwupdRemoteKind_eq_dec : EqDecision FwupdRemoteKind.
Proof. solve_decision. Defined.

(** A [FwupdRemote], with what the plugin reads of it; the age is a
    [guint64]. *)
Record FwupdRemote : Type := mkFwupdRemote {
  remote_id : option string;
  remote_kind : FwupdRemoteKind;
  remote_enabled : bool;
  remote_age : Z;
  remote_title : option string;
  remote_checksum : option string;
  remote_metadata_uri : option string;
  remote_metadata_uri_sig : option string;
  remote_filename_cache : option string;
  remote_filename_cache_sig : option string
}.

(** What the jobs ask of the daemon, of the download scheduler and of the
    file system, in the order they asked; [Plugin c] is a call made by a
    function of [Fwupd] that a job ran. *)
Inductive Call : Type :=
  | Plugin (c : Fwupd.Call)
  | ClientGetDevices
  | ClientGetUpgrades (device_id : option string)
  | ClientGetResults (device_id : string)
  | ClientUnlock (device_id : string)
  | ClientGetRemotes
  | ClientRefreshRemote (remote : FwupdRemote)
  | ClientUpdateMetadata (remote_id : option string) (filename : string)
                         (filename_sig : option string)
  | GetCacheFilename (kind : string) (basename : option string)
  | DownloadData (uri : option string)
  | SetFileContents (filename : option string)
  | MeteredBlock (app : nat)
  | MeteredRemove.

(** The collaborators of the jobs, over those of [Fwupd]; each answer may
    depend on the calls made before it.  From [g_compute_checksum_for_data]
    on they are pure: the checksum of data in the kind of a given
    checksum, attributes of devices and releases that the records of
    [Fwupd] do not carry, and the markup converter of appstream. *)
Record Host : Type := mkHost {
  plugin_host : Fwupd.Host;
  gs_plugin_has_flags_interactive : bool;
  fwupd_client_get_devices : list Call -> Result (list Fwupd.FwupdDevice);
  fwupd_client_get_upgrades :
    list Call -> option string -> Result (list Fwupd.FwupdRelease);
  fwupd_client_get_results : list Call -> string -> Result Fwupd.FwupdDevice;
  fwupd_client_unlock : list Call -> string -> Result unit;
  fwupd_client_get_remotes : list Call -> Result (list FwupdRemote);
  fwupd_client_refresh_remote : list Call -> FwupdRemote -> Result unit;
  fwupd_client_update_metadata :
    list Call -> option string -> string -> option string -> Result unit;
  gs_utils_get_cache_filename : list Call -> string -> option string -> Result string;
  gs_plugin_download_data : list Call -> option string -> Result string;
  g_file_set_contents : list Call -> option string -> Result unit;
  gs_metered_block_app_on_download_scheduler : list Call -> nat -> Result unit;
  gs_metered_remove_from_download_scheduler : list Call -> Result unit;
  g_compute_checksum_for_data : option string -> string -> string;
  fwupd_device_get_name : Fwupd.FwupdDevice -> option string;
  fwupd_device_get_summary : Fwupd.FwupdDevice -> option string;
  fwupd_device_get_description : Fwupd.FwupdDevice -> option string;
  fwupd_release_get_description : Fwupd.FwupdRelease -> option string;
  as_markup_convert_simple : string -> option string
}.

(** The state of [Fwupd], the apps that are marked as locked and the
    update details of apps (entity attributes that the app record of the
    model does not carry), and the calls made. *)
Record State : Type := mkState {
  plugin : Fwupd.State;
  locked : gset nat;
  update_details : gmap nat string;
  calls : list Call
}.

Definition M : Type -> Type := Act State.

Definition ask_result {A} (c : Call) (answer : list Call -> Result A) : M A :=
  fun s => (answer (calls s),
            mkState (plugin s) (locked s) (update_details s) (calls s ++ [c])).

(** Run a function of [Fwupd]; the calls it makes are entered in the log
    of the job. *)
Definition lift {A} (m : Fwupd.M A) : M A := fun s =>
  let '(r, p) := m (plugin s) in
  (r, mkState p (locked s) (update_details s)
        (calls s ++ (Plugin <$> drop (length (Fwupd.calls (plugin s)))
                                     (Fwupd.calls p)))).

(** Run a call and convert the error it leaves. *)
Definition converting {A} (h : Host) (m : M A) : M A :=
  r ← act_try m;
  match r with
  | Ok a => mret a
  | Fail e => act_fail (Fwupd.gs_plugin_fwupd_error_convert (plugin_host h) e)
  end.

(** Modelled from the spec: gs-fwupd-app.c is not among the sources.  It
    keeps whether the device of an app is locked as backend-private data
    of the entity, FALSE until it is set. *)
Definition gs_fwupd_app_get_is_locked (s : State) (app : nat) : bool :=
  bool_decide (app ∈ locked s).

Definition gs_fwupd_app_set_is_locked (app : nat) (is_locked : bool) : M unit :=
  act_modify (fun s =>
    mkState (plugin s)
            (if is_locked then {[app]} ∪ locked s else locked s ∖ {[app]})
            (update_details s) (calls s)).

Definition gs_app_set_update_details (app : nat) (details : string) : M unit :=
  act_modify (fun s =>
    mkState (plugin s) (locked s) (<[app := details]> (update_details s)) (calls s)).

(** A new [GsApp] object: the pointer to it. *)
Definition gs_app_new_object (a : GsApp) : M nat :=
  lift (s ← act_get;
        act_modify (Fwupd.with_apps (Fwupd.apps s ++ [a]));;
        mret (length (Fwupd.apps s))).

(** [gs_app_list_add (list, app)] on the apps as they stand. *)
Definition list_add (app_list : list nat) (app : nat) : M (list nat) :=
  s ← act_get;
  mret (Odrs.gs_app_list_add (Fwupd.apps (plugin s)) app_list app).

(** A loop over an array that hands a value from turn to turn and leaves
    at the first failure. *)
Fixpoint act_fold {S A B} (body : A -> B -> Act S B) (xs : list A) (acc : B)
    : Act S B :=
  match xs with
  | [] => mret acc
  | x :: xs' => acc' ← body x acc; act_fold body xs' acc'
  end.

Definition gs_plugin_update_app (h : Host) (app : nat) : M unit :=
  a ← lift (Fwupd.get_app app);
  (* only process this app if was created by this plugin *)
  if Fwupd.not_managed_here (plugin_host h) a then mret tt
  else
    s ← act_get;
    (* locked devices need unlocking, rather than installing *)
    if gs_fwupd_app_get_is_locked s app then
      match Fwupd.gs_fwupd_app_get_device_id a with
      | None => fail_with GS_PLUGIN_ERROR_INVALID_FORMAT
      | Some device_id =>
          converting h (ask_result (ClientUnlock device_id)
                          (fun cs => fwupd_client_unlock h cs device_id))
      end
    else
      (* update means install *)
      converting h (lift (Fwupd.gs_plugin_fwupd_install (plugin_host h) app)).

Definition gs_plugin_download_app (h : Host) (app : nat) : M unit :=
  let ph := plugin_host h in
  a ← lift (Fwupd.get_app app);
  (* only process this app if was created by this plugin *)
  if Fwupd.not_managed_here ph a then mret tt
  else
    match app_local_file a with
    | None =>
        (* not set *)
        fail_with GS_PLUGIN_ERROR_FAILED
    | Some filename =>
        (* file does not yet exist *)
        present ← lift (Fwupd.ask (Fwupd.QueryFileExists filename)
                          (fun cs => Fwupd.g_file_query_exists ph cs filename));
        (if negb present then
           let uri := Fwupd.gs_fwupd_app_get_update_uri a in
           (if negb (gs_plugin_has_flags_interactive h)
            then act_try (ask_result (MeteredBlock app)
                            (fun cs => gs_metered_block_app_on_download_scheduler h cs app));;
                 mret tt
            else mret tt);;
           download_success ← act_try
             (if Fwupd.fwupd_check_version_1_5_2 ph
              then lift (Fwupd.converting ph
                           (Fwupd.ask_result (Fwupd.ClientDownloadFile uri filename)
                              (fun cs => Fwupd.fwupd_client_download_file ph cs uri filename)))
              else lift (Fwupd.ask_result (Fwupd.PluginDownloadFile uri filename)
                           (fun cs => Fwupd.gs_plugin_download_file ph cs uri filename)));
           act_try (ask_result MeteredRemove
                      (gs_metered_remove_from_download_scheduler h));;
           match download_success with
           | Fail e => act_fail e
           | Ok _ => mret tt
           end
         else mret tt);;
        lift (Fwupd.modify_app app (with_app_size_download 0))
    end.

(** The cache age check of [gs_plugin_fwupd_refresh_remote]: TRUE is the
    early [return TRUE]. *)
Definition remote_is_fresh (remote : FwupdRemote) (cache_age : Z) : bool :=
  if 0 <? cache_age then
    let age := remote_age remote in
    let tmp := if age <? G_MAXUINT then age else G_MAXUINT in
    tmp <? cache_age
  else false.

(** [g_set_error] and [g_propagate_error] leave alone an error that is
    already set. *)
Definition keeping (pending e : option GError) : option GError :=
  match pending with
  | Some _ => pending
  | None => e
  end.

(** The download of [gs_plugin_fwupd_refresh_remote] before fwupd 1.5.2.
    The first cache file name is used unchecked: when it could not be had
    its error stays set and the function goes on with a NULL name.
    [g_file_set_contents] failing without an error ends the run, its
    message being read through NULL; the model stops there with a failure
    that sets no error. *)
Definition refresh_remote_download (h : Host) (remote : FwupdRemote)
    (filename_cache_sig : string) : M unit :=
  let ph := plugin_host h in
  (* download the signature first, it's smaller *)
  let cache_id := String.append "fwupd/remotes.d/"
                    (default "(null)"%string (remote_id remote)) in
  let basename_sig := Fwupd.g_path_get_basename ph filename_cache_sig in
  named ← act_try (ask_result (GetCacheFilename cache_id (Some basename_sig))
             (fun cs => gs_utils_get_cache_filename h cs cache_id (Some basename_sig)));
  let pending := match named with Fail e => e | Ok _ => None end in
  let filename_sig := match named with Ok fn => Some fn | Fail _ => None end in
  let url_sig := remote_metadata_uri_sig remote in
  fetched ← act_try (ask_result (DownloadData url_sig)
               (fun cs => gs_plugin_download_data h cs url_sig));
  match fetched with
  | Fail e => act_fail (keeping pending e)
  | Ok data =>
      (* is the signature hash the same as we had before? *)
      let checksum := g_compute_checksum_for_data h (remote_checksum remote) data in
      if g_strcmp0 (Some checksum) (remote_checksum remote) =? 0 then mret tt
      else
        (* save to a file *)
        saved ← act_try (ask_result (SetFileContents filename_sig)
                   (fun cs => g_file_set_contents h cs filename_sig));
        match saved with
        | Fail None => act_fail None
        | Fail (Some _) =>
            act_fail (keeping pending (Some (plugin_error GS_PLUGIN_ERROR_WRITE_FAILED)))
        | Ok _ =>
            (* download the payload and save to file *)
            let basename :=
              Fwupd.g_path_get_basename ph <$> remote_filename_cache remote in
            named' ← act_try (ask_result (GetCacheFilename cache_id basename)
                        (fun cs => gs_utils_get_cache_filename h cs cache_id basename));
            match named' with
            | Fail e => act_fail (keeping pending e)
            | Ok filename =>
                let url := remote_metadata_uri remote in
                downloaded ← act_try
                  (lift (Fwupd.ask_result (Fwupd.PluginDownloadFile url filename)
                           (fun cs => Fwupd.gs_plugin_download_file ph cs url filename)));
                match downloaded with
                | Fail e => act_fail (keeping pending e)
                | Ok _ =>
                    (* phew, lets send all this to fwupd *)
                    updated ← act_try
                      (ask_result
                         (ClientUpdateMetadata (remote_id remote) filename filename_sig)
                         (fun cs => fwupd_client_update_metadata h cs
                                      (remote_id remote) filename filename_sig));
                    match updated with
                    | Fail e =>
                        act_fail (Fwupd.gs_plugin_fwupd_error_convert ph
                                    (keeping pending e))
                    | Ok _ => mret tt
                    end
                end
            end
        end
  end.

Definition gs_plugin_fwupd_refresh_remote (h : Host) (remote : FwupdRemote)
    (cache_age : Z) : M unit :=
  if Fwupd.fwupd_check_version_1_5_2 (plugin_host h) then
    (* check cache age *)
    if remote_is_fresh remote cache_age then mret tt
    else
      (* download new content *)
      converting h (ask_result (ClientRefreshRemote remote)
                      (fun cs => fwupd_client_refresh_remote h cs remote))
  else
    (* sanity check *)
    match remote_filename_cache_sig remote with
    | None => fail_with GS_PLUGIN_ERROR_FAILED
    | Some filename_cache_sig =>
        (* check cache age *)
        if remote_is_fresh remote cache_age then mret tt
        else refresh_remote_download h remote filename_cache_sig
    end.

(** The errors of the daemon that stand for "nothing there". *)
Definition nothing_to_do (error_local : option GError) : bool :=
  g_error_matches error_local FWUPD_ERROR (FwupdCode FWUPD_ERROR_NOTHING_TO_DO)
  || g_error_matches error_local FWUPD_ERROR (FwupdCode FWUPD_ERROR_NOT_SUPPORTED)
  || g_error_matches error_local FWUPD_ERROR (FwupdCode FWUPD_ERROR_NOT_FOUND).

(** One turn of the loop of [gs_plugin_refresh]. *)
Definition refresh_each (h : Host) (cache_age : Z) (remote : FwupdRemote)
    : M unit :=
  if negb (remote_enabled remote) then mret tt
  else if bool_decide (remote_kind remote = FWUPD_REMOTE_KIND_LOCAL) then mret tt
  else gs_plugin_fwupd_refresh_remote h remote cache_age.

Definition gs_plugin_refresh (h : Host) (cache_age : Z) : M unit :=
  (* get the list of enabled remotes *)
  remotes ← act_try (ask_result ClientGetRemotes (fwupd_client_get_remotes h));
  match remotes with
  | Fail error_local =>
      if nothing_to_do error_local then mret tt
      else act_fail (Fwupd.gs_plugin_fwupd_error_convert (plugin_host h) error_local)
  | Ok remotes => act_iter (refresh_each h cache_age) remotes
  end.

(** The app that [gs_plugin_add_sources] makes for a remote; its scope,
    agreement and URL are attributes that the model's app does not
    carry. *)
Definition source_app (remote : FwupdRemote) : GsApp :=
  (* create something that we can use to enable/disable *)
  let id := String.append "org.fwupd."
              (String.append (default "(null)"%string (remote_id remote)) ".remote") in
  with_app_management_plugin (Some "fwupd"%string)
    (gs_app_set_metadata "fwupd::remote-id" (remote_id remote)
       (with_app_name (remote_title remote)
          (gs_app_add_quirk GS_APP_QUIRK_NOT_LAUNCHABLE
             (gs_app_set_state (if remote_enabled remote
                                then GS_APP_STATE_INSTALLED
                                else GS_APP_STATE_AVAILABLE)
                (with_app_kind AS_COMPONENT_KIND_REPOSITORY
                   (gs_app_new (Some id))))))).

Definition add_source (remote : FwupdRemote) (app_list : list nat)
    : M (list nat) :=
  (* ignore these, they're built in *)
  if bool_decide (remote_kind remote <> FWUPD_REMOTE_KIND_DOWNLOAD)
  then mret app_list
  else
    app ← gs_app_new_object (source_app remote);
    list_add app_list app.

(** The list is handed in as the [GsApp *]s it holds and handed back as
    the call left it. *)
Definition gs_plugin_add_sources (h : Host) (app_list : list nat)
    : M (list nat) :=
  (* find all remotes *)
  remotes ← ask_result ClientGetRemotes (fwupd_client_get_remotes h);
  act_fold add_source remotes app_list.

Definition gs_plugin_add_updates_historical (h : Host) (app_list : list nat)
    : M (list nat) :=
  (* get historical updates *)
  dev ← act_try (ask_result (ClientGetResults Fwupd.FWUPD_DEVICE_ID_ANY)
           (fun cs => fwupd_client_get_results h cs Fwupd.FWUPD_DEVICE_ID_ANY));
  match dev with
  | Fail error_local =>
      if g_error_matches error_local FWUPD_ERROR (FwupdCode FWUPD_ERROR_NOTHING_TO_DO)
      then mret app_list
      else if g_error_matches error_local FWUPD_ERROR (FwupdCode FWUPD_ERROR_NOT_FOUND)
      then mret app_list
      else act_fail (Fwupd.gs_plugin_fwupd_error_convert (plugin_host h) error_local)
  | Ok dev =>
      (* parse *)
      app ← lift (Fwupd.gs_plugin_fwupd_new_app_from_device (plugin_host h) dev);
      match app with
      | None => fail_with GS_PLUGIN_ERROR_FAILED
      | Some app => list_add app_list app
      end
  end.

Definition gs_plugin_fwupd_build_device_id (dev : Fwupd.FwupdDevice) : string :=
  let tmp := (fun id => g_strdelimit id "/" "_"%char) <$> Fwupd.device_id dev in
  String.append "org.fwupd."
    (String.append (default "(null)"%string tmp) ".device").

(** The app that [gs_plugin_fwupd_new_app_from_device_raw] makes; its
    scope, origin and icons are attributes that the model's app does not
    carry. *)
Definition gs_plugin_fwupd_new_app_from_device_raw (h : Host)
    (device : Fwupd.FwupdDevice) : GsApp :=
  (* create a GsApp based on the device, not the release *)
  let id := gs_plugin_fwupd_build_device_id device in
  with_app_management_plugin (Some "fwupd"%string)
    (Fwupd.gs_fwupd_app_set_device_id (Fwupd.device_id device)
       (with_app_description (fwupd_device_get_description h device)
          (with_app_summary (fwupd_device_get_summary h device)
             (with_app_name (fwupd_device_get_name h device)
                (with_app_version (Fwupd.device_version device)
                   (gs_app_add_quirk GS_APP_QUIRK_DO_NOT_AUTO_UPDATE
                      (gs_app_add_quirk GS_APP_QUIRK_NOT_LAUNCHABLE
                         (gs_app_set_state GS_APP_STATE_INSTALLED
                            (with_app_kind AS_COMPONENT_KIND_FIRMWARE
                               (gs_app_new (Some id))))))))))).

(** libfwupd: the default release of a device is the first of its
    releases, and [fwupd_device_add_release] appends one. *)
Definition fwupd_device_add_release (rel : Fwupd.FwupdRelease)
    (dev : Fwupd.FwupdDevice) : Fwupd.FwupdDevice :=
  match Fwupd.device_release_default dev with
  | Some _ => dev
  | None =>
      Fwupd.mkFwupdDevice (Fwupd.device_id dev) (Fwupd.device_version dev)
        (Fwupd.device_flags dev) (Some rel) (Fwupd.device_update_message dev)
        (Fwupd.device_update_image dev)
  end.

Definition newline : string := String (Ascii.ascii_of_nat 10) EmptyString.

(** The loop that fills [update_desc] in [gs_plugin_add_updates]. *)
Fixpoint update_desc_of (h : Host) (rels : list Fwupd.FwupdRelease) : string :=
  match rels with
  | [] => EmptyString
  | rel :: rest =>
      match fwupd_release_get_description h rel with
      | None => update_desc_of h rest
      | Some description =>
          match as_markup_convert_simple h description with
          | None => update_desc_of h rest
          | Some desc =>
              String.append "Version "
                (String.append (default "(null)"%string (Fwupd.release_version rel))
                   (String.append ":"
                      (String.append newline
                         (String.append desc
                            (String.append newline
                               (String.append newline (update_desc_of h rest)))))))
          end
      end
  end.

(** One turn of the loop of [gs_plugin_add_updates].  An array of
    upgrades without an element has its first element read all the same;
    the model stops there with a failure that sets no error. *)
Definition add_update (h : Host) (dev : Fwupd.FwupdDevice) (app_list : list nat)
    : M (list nat) :=
  (* locked device that needs unlocking *)
  if bool_decide (Fwupd.FWUPD_DEVICE_FLAG_LOCKED ∈ Fwupd.device_flags dev) then
    app ← gs_app_new_object (gs_plugin_fwupd_new_app_from_device_raw h dev);
    gs_fwupd_app_set_is_locked app true;;
    list_add app_list app
  else
    (* not going to have results, so save a D-Bus round-trip *)
    if negb (bool_decide (Fwupd.FWUPD_DEVICE_FLAG_SUPPORTED ∈ Fwupd.device_flags dev))
    then mret app_list
    else
      (* get the releases for this device and filter for validity *)
      rels ← act_try (ask_result (ClientGetUpgrades (Fwupd.device_id dev))
                (fun cs => fwupd_client_get_upgrades h cs (Fwupd.device_id dev)));
      match rels with
      | Fail _ => mret app_list
      | Ok [] => act_fail None
      | Ok (rel_newest :: older) =>
          (* normal device update *)
          let dev' := fwupd_device_add_release rel_newest dev in
          app ← act_try (lift (Fwupd.gs_plugin_fwupd_new_app (plugin_host h) dev'));
          match app with
          | Fail _ => mret app_list
          | Ok app =>
              (* add update descriptions for all releases inbetween *)
              (if 1 <? Z.of_nat (length (rel_newest :: older)) then
                 let update_desc := update_desc_of h (rel_newest :: older) in
                 if 2 <? Z.of_nat (String.length update_desc) then
                   gs_app_set_update_details app
                     (String.substring 0 (String.length update_desc - 2) update_desc)
                 else mret tt
               else mret tt);;
              list_add app_list app
          end
      end.

Definition gs_plugin_add_updates (h : Host) (app_list : list nat)
    : M (list nat) :=
  (* get current list of updates *)
  devices ← act_try (ask_result ClientGetDevices (fwupd_client_get_devices h));
  match devices with
  | Fail error_local =>
      if nothing_to_do error_local then mret app_list
      else act_fail (Fwupd.gs_plugin_fwupd_error_convert (plugin_host h) error_local)
  | Ok devices => act_fold (add_update h) devices app_list
  end.

End FwupdJobs.

(** ** src/gs-installed-page.c: the order and the headers of the rows *)

Module InstalledPage.
Import GLib Gs.

(** The component kinds that the page tells apart. *)
Inductive AsComponentKind : Type :=
  | AS_COMPONENT_KIND_UNKNOWN
  | AS_COMPONENT_KIND_GENERIC
  | AS_COMPONENT_KIND_DESKTOP_APP
  | AS_COMPONENT_KIND_WEB_APP
  | AS_COMPONENT_KIND_RUNTIME
  | AS_COMPONENT_KIND_ADDON
  | AS_COMPONENT_KIND_CODEC
  | AS_COMPONENT_KIND_FONT
  | AS_COMPONENT_KIND_INPUT_METHOD
  | AS_COMPONENT_KIND_OPERATING_SYSTEM
  | AS_COMPONENT_KIND_FIRMWARE
  | AS_COMPONENT_KIND_REPOSITORY.

Global Instance AsComponentKind_eq_dec : EqDecision AsComponentKind.
Proof. solve_decision. Defined.

Inductive GsAppSpecialKind : Type :=
  | GS_APP_SPECIAL_KIND_NONE
  | GS_APP_SPECIAL_KIND_OS_UPDATE.

Global Instance GsAppSpecialKind_eq_dec : EqDecision GsAppSpecialKind.
Proof. solve_decision. Defined.

(** What the page reads of a [GsApp], named by the getter it reads it
    through; [gs_app_is_compulsory] is
    [gs_app_has_quirk (app, GS_APP_QUIRK_COMPULSORY)]. *)
Record InstalledApp : Type := mkInstalledApp {
  gs_app_get_state : GsAppState;
  gs_app_get_kind : AsComponentKind;
  gs_app_get_special_kind : GsAppSpecialKind;
  gs_app_is_compulsory : bool;
  gs_app_get_name : option string;
  gs_app_get_id : option string;
  gs_app_get_description : option string
}.

Definition gs_installed_page_is_actual_app (app : InstalledApp) : bool :=
  if bool_decide (gs_app_get_description app <> None) then true
  else
    (* special snowflake *)
    g_strcmp0 (gs_app_get_id app) (Some "google-chrome.desktop"%string) =? 0.

Section SortKey.

(** [gs_utils_sort_key] (lib/gs-utils.c) folds the case of a name and
    turns it into a collation key. *)
Variable gs_utils_sort_key : string -> string.

Definition gs_installed_page_get_app_sort_key (app : InstalledApp) : string :=
  (* sort installed, removing, other *)
  let key := match gs_app_get_state app with
             | GS_APP_STATE_INSTALLING => "1:"
             | GS_APP_STATE_QUEUED_FOR_INSTALL => "2:"
             | GS_APP_STATE_REMOVING => "3:"
             | _ => "4:"
             end%string in
  (* sort apps by kind *)
  let key := String.append key
               match gs_app_get_kind app with
               | AS_COMPONENT_KIND_DESKTOP_APP => "2:"
               | AS_COMPONENT_KIND_WEB_APP => "3:"
               | AS_COMPONENT_KIND_RUNTIME => "4:"
               | AS_COMPONENT_KIND_ADDON => "5:"
               | AS_COMPONENT_KIND_CODEC => "6:"
               | AS_COMPONENT_KIND_FONT => "6:"
               | AS_COMPONENT_KIND_INPUT_METHOD => "7:"
               | _ =>
                   if bool_decide (gs_app_get_special_kind app
                                   = GS_APP_SPECIAL_KIND_OS_UPDATE)
                   then "1:" else "8:"
               end%string in
  (* sort normal, compulsory *)
  let key := String.append key
               (if negb (gs_app_is_compulsory app) then "1:" else "2:")%string in
  (* finally, sort by short name *)
  match gs_app_get_name app with
  | Some name => String.append key (gs_utils_sort_key name)
  | None => key
  end.

(** [gs_installed_page_sort_func] on two valid rows. *)
Definition gs_installed_page_sort_func (a1 a2 : InstalledApp) : Z :=
  let key1 := gs_installed_page_get_app_sort_key a1 in
  let key2 := gs_installed_page_get_app_sort_key a2 in
  (* compare the keys according to the algorithm above *)
  g_strcmp0 (Some key1) (Some key2).

End SortKey.

Inductive GsInstalledPageSection : Type :=
  | GS_UPDATE_LIST_SECTION_REMOVABLE_APPS
  | GS_UPDATE_LIST_SECTION_SYSTEM_APPS
  | GS_UPDATE_LIST_SECTION_ADDONS
  | GS_UPDATE_LIST_SECTION_LAST.

Global Instance GsInstalledPageSection_eq_dec : EqDecision GsInstalledPageSection.
Proof. solve_decision. Defined.






(** [gs_installed_page_has_app]: the rows of the list box are the
    [GsApp *] they show. *)
Definition gs_installed_page_has_app (rows : list nat) (app : nat) : bool :=
  existsb (Nat.eqb app) rows.

(** The loop of [gs_installed_page_pending_apps_changed_cb] over the
    pending apps, with the rows and [cnt]; [kind_of] reads the kind
    through a [GsApp *]. *)
Fixpoint add_pending_apps (kind_of : nat -> AsComponentKind) (pending : list nat)
    (rows : list nat) (cnt : Z) : list nat * Z :=
  match pending with
  | [] => (rows, cnt)
  | app :: rest =>
      (* never show OS upgrades *)
      if bool_decide (kind_of app = AS_COMPONENT_KIND_OPERATING_SYSTEM)
      then add_pending_apps kind_of rest rows cnt
      else
        (* do not to add pending apps more than once. *)
        let rows' := if negb (gs_installed_page_has_app rows app)
                     then rows ++ [app] else rows in
        (* incremement the label *)
        add_pending_apps kind_of rest rows' (guint_add cnt 1)
  end.

(** [gs_installed_page_pending_apps_changed_cb]: the rows afterwards and
    the label of the counter, [None] when it is hidden. *)
Definition gs_installed_page_pending_apps_changed_cb
    (kind_of : nat -> AsComponentKind) (pending rows : list nat)
    : list nat * option Z :=
  let '(rows', cnt) := add_pending_apps kind_of pending rows 0 in
  (* show a label with the number of on-going operations *)
  (rows', if cnt =? 0 then None else Some cnt).

End InstalledPage.

(** ** Notions used to state what the plugins do *)

Module Notions.
Import GLib Gs.

(** The calls of the ODRS plugin that leave the machine. *)
Definition is_network_call (c : Odrs.Call) : bool :=
  match c with
  | Odrs.DownloadFile _ _ | Odrs.SoupSend _ _ => true
  | _ => false
  end.

(** Writing a file of the review cache. *)
Definition is_cache_write (c : Odrs.Call) : bool :=
  match c with
  | Odrs.SetFileContents _ => true
  | _ => false
  end.

(** [priv->ratings] is in the order that the binary search of
    [gs_plugin_odrs_refine_ratings] relies on. *)
Definition ratings_in_order (s : Odrs.State) : Prop :=
  match Odrs.ratings s with
  | None => True
  | Some all => BinarySearch.sorted_by Odrs.rating_compare all
  end.

(** What a run may do to [priv->ratings]: leave it, or replace it by an
    array that [g_array_sort] has been through. *)
Definition ratings_reloaded (before after : Odrs.State) : Prop :=
  Odrs.ratings after = Odrs.ratings before \/
  exists l, Odrs.ratings after = Some (Odrs.g_array_sort_ratings l).

(** The groups that the rows of the installed page are ordered by:
    the number that stands for the state of an app, for its kind and for
    its being compulsory. *)
Definition state_group (app : InstalledPage.InstalledApp) : Z :=
  match InstalledPage.gs_app_get_state app with
  | GS_APP_STATE_INSTALLING => 1
  | GS_APP_STATE_QUEUED_FOR_INSTALL => 2
  | GS_APP_STATE_REMOVING => 3
  | _ => 4
  end.

Definition kind_group (app : InstalledPage.InstalledApp) : Z :=
  match InstalledPage.gs_app_get_kind app with
  | InstalledPage.AS_COMPONENT_KIND_DESKTOP_APP => 2
  | InstalledPage.AS_COMPONENT_KIND_WEB_APP => 3
  | InstalledPage.AS_COMPONENT_KIND_RUNTIME => 4
  | InstalledPage.AS_COMPONENT_KIND_ADDON => 5
  | InstalledPage.AS_COMPONENT_KIND_CODEC => 6
  | InstalledPage.AS_COMPONENT_KIND_FONT => 6
  | InstalledPage.AS_COMPONENT_KIND_INPUT_METHOD => 7
  | _ =>
      if bool_decide (InstalledPage.gs_app_get_special_kind app
                      = InstalledPage.GS_APP_SPECIAL_KIND_OS_UPDATE)
      then 1 else 8
  end.

Definition quirk_group (app : InstalledPage.InstalledApp) : Z :=
  if InstalledPage.gs_app_is_compulsory app then 2 else 1.

(** The decimal digit of a number from 0 to 9. *)
Definition digit (n : Z) : Ascii.ascii := Ascii.ascii_of_nat (48 + Z.to_nat n).


(** The calls a run made: what it appended to the log. *)
Definition calls_since (before after : Odrs.State) : list Odrs.Call :=
  drop (length (Odrs.calls before)) (Odrs.calls after).

End Notions.

(** ** Further collaborators and states, for running the plugin code *)

Module Scenarios.
Import GLib Gs.

Definition stars (n0 n1 n2 n3 n4 n5 : Z) : Odrs.JsonMembers :=
  [("star0", Odrs.JsonInt n0); ("star1", Odrs.JsonInt n1);
   ("star2", Odrs.JsonInt n2); ("star3", Odrs.JsonInt n3);
   ("star4", Odrs.JsonInt n4); ("star5", Odrs.JsonInt n5)]%string.

(** A ratings file: two complete entries out of order, an entry that
    lacks star counts and a member that is not an object. *)
Definition ratings_file : Odrs.JsonMembers :=
  [("org.example.Editor", Odrs.JsonObject (stars 0 1 2 3 4 50));
   ("org.example.App", Odrs.JsonObject (stars 1 0 0 2 10 30));
   ("org.example.Broken", Odrs.JsonObject [("star0", Odrs.JsonInt 1)]);
   ("comment", Odrs.JsonString "generated")]%string.

Definition sorted_ratings : list Odrs.GsOdrsRating :=
  Odrs.g_array_sort_ratings (Odrs.parse_each_app ratings_file).

(** Two reviews by the same reviewer, one without a rating, and one by
    the user of this machine. *)
Definition fetched_reply : Odrs.JsonNode :=
  Odrs.JsonArray
    [Odrs.JsonObject [("user_hash", Odrs.JsonString "u1"); ("rating", Odrs.JsonInt 80);
                      ("user_skey", Odrs.JsonString "k1")]%string;
     Odrs.JsonObject [("user_hash", Odrs.JsonString "u1"); ("rating", Odrs.JsonInt 20)]%string;
     Odrs.JsonObject [("user_hash", Odrs.JsonString "u2"); ("rating", Odrs.JsonInt 0)]%string;
     Odrs.JsonObject [("user_hash", Odrs.JsonString "hash"); ("rating", Odrs.JsonInt 100);
                      ("vote_id", Odrs.JsonInt 7)]%string].

Definition acknowledged : Odrs.JsonNode :=
  Odrs.JsonObject [("success", Odrs.JsonBool true)]%string.

(** A review server that answers every request with [status] and a body
    that parses to [document]; the ratings file on disk is [ratings_file],
    cache files are [age] seconds old, exist when [cached] and can be
    deleted when [deletable]. *)
Definition review_server (age status : Z) (document : Odrs.JsonNode)
    (cached deletable : bool) : Odrs.Host :=
  Odrs.mkHost "odrs" "en_GB" false
    (fun _ => true)
    (fun _ kind basename => Ok (String.append "/cache/" basename))
    (fun _ _ => age)
    (fun _ _ _ => Ok tt)
    (fun _ _ => Ok (Some (Odrs.JsonObject ratings_file)))
    (fun _ _ => Ok "cached"%string)
    (fun _ _ _ => Odrs.mkSoupReply status (Some "reply"%string))
    (fun _ _ => Ok tt)
    (fun _ _ => cached)
    (fun _ _ => if deletable then Ok tt
                else Fail (Some (mkGError G_IO_ERROR (RawCode 14))))
    (fun _ => Ok (Some document))
    (fun e => e)
    (fun _ _ _ _ n5 => n5)
    (fun _ _ => 0)
    (fun text _ _ => text)
    "A. User".

(** A plugin with the review server set, the ratings loaded from
    [ratings_file] and the given apps. *)
Definition rated_state (store : list GsApp) : Odrs.State :=
  Odrs.mkState Examples.example_server (Some "hash"%string) (Some "Fedora"%string)
               (Some sorted_ratings) (Some "odrs"%string) store [] [].

Definition unrated_app : GsApp :=
  with_app_kind AS_COMPONENT_KIND_DESKTOP_APP
    (gs_app_new (Some "org.example.Unrated"%string)).

(** A fwupd daemon that does what it is asked, except that it does not
    find a device by its id; [present] says whether files exist and
    [deletable] whether they can be deleted. *)
Definition daemon (present deletable : bool) : Fwupd.Host :=
  Fwupd.mkHost "fwupd" true true
    (fun _ _ => present)
    (fun _ _ _ => Ok tt)
    (fun _ _ _ => Ok tt)
    (fun _ _ _ _ => Ok tt)
    (fun _ _ => if deletable then Ok tt
                else Fail (Some (mkGError G_IO_ERROR (RawCode 14))))
    (fun _ _ => Fail (Some Examples.write_error))
    (fun _ _ _ _ => Ok tt)
    (fun _ _ basename => Ok (String.append "/cache/fwupd/" basename))
    (fun _ _ => Ok "da39a3ee"%string)
    (fun e => if bool_decide (domain e = G_IO_ERROR)
              then Some (plugin_error GS_PLUGIN_ERROR_FAILED) else None)
    (fun e => if bool_decide (domain e = G_DBUS_ERROR)
              then Some (plugin_error GS_PLUGIN_ERROR_FAILED) else None)
    (fun id => String.append "system/*/*/" (String.append id "/*"))
    (fun dev a =>
       let a' := with_app_version (Fwupd.device_version dev) a in
       if bool_decide (Fwupd.FWUPD_DEVICE_FLAG_UPDATABLE ∈ Fwupd.device_flags dev)
       then gs_app_set_state GS_APP_STATE_UPDATABLE_LIVE a' else a')
    (fun rel a => with_app_update_version (Fwupd.release_version rel) a)
    (fun checksums => head checksums)
    (fun uri => uri).

(** Three remotes: a download remote that is enabled and a day old, a
    local one, and a download remote that is disabled. *)
Definition lvfs : FwupdJobs.FwupdRemote :=
  FwupdJobs.mkFwupdRemote (Some "lvfs"%string) FwupdJobs.FWUPD_REMOTE_KIND_DOWNLOAD
    true 86400 (Some "Linux Vendor Firmware Service"%string) None
    (Some "https://cdn.fwupd.example/firmware.xml.gz"%string)
    (Some "https://cdn.fwupd.example/firmware.xml.gz.asc"%string)
    (Some "/var/lib/fwupd/remotes.d/lvfs/metadata.xml.gz"%string)
    (Some "/var/lib/fwupd/remotes.d/lvfs/metadata.xml.gz.asc"%string).

Definition vendor_directory : FwupdJobs.FwupdRemote :=
  FwupdJobs.mkFwupdRemote (Some "vendor-directory"%string)
    FwupdJobs.FWUPD_REMOTE_KIND_LOCAL true 86400 (Some "Vendor"%string)
    None None None None None.

Definition lvfs_testing : FwupdJobs.FwupdRemote :=
  FwupdJobs.mkFwupdRemote (Some "lvfs-testing"%string)
    FwupdJobs.FWUPD_REMOTE_KIND_DOWNLOAD false 86400 (Some "Testing"%string)
    None None None None None.

(** An upgrade without checksums. *)
Definition unsigned_release : Fwupd.FwupdRelease :=
  Fwupd.mkFwupdRelease (Some "com.example.firmware"%string) (Some "1.1"%string) []
    (Some "https://example/firmware.cab"%string).

(** A device with the given flags that carries no release yet. *)
Definition bare_device (flags : list Fwupd.FwupdDeviceFlag) : Fwupd.FwupdDevice :=
  Fwupd.mkFwupdDevice (Some "dev0"%string) (Some "1.0"%string) flags None None None.

(** The daemon and the core as the jobs see them, over [ph]: the daemon
    lists [devices] and the three remotes, offers [unsigned_release] for
    every device, has no results of earlier updates, and unlocks and
    refreshes what it is asked to. *)
Definition jobs_host (ph : Fwupd.Host) (interactive : bool)
    (devices : list Fwupd.FwupdDevice) : FwupdJobs.Host :=
  FwupdJobs.mkHost ph interactive
    (fun _ => Ok devices)
    (fun _ _ => Ok [unsigned_release])
    (fun _ _ => Fail (Some (mkGError FWUPD_ERROR (FwupdCode FWUPD_ERROR_NOTHING_TO_DO))))
    (fun _ _ => Ok tt)
    (fun _ => Ok [lvfs; vendor_directory; lvfs_testing])
    (fun _ _ => Ok tt)
    (fun _ _ _ _ => Ok tt)
    (fun _ _ basename => Ok (String.append "/cache/fwupd/" (default ""%string basename)))
    (fun _ _ => Ok "data"%string)
    (fun _ _ => Ok tt)
    (fun _ _ => Ok tt)
    (fun _ => Ok tt)
    (fun _ data => data)
    (fun _ => Some "Embedded controller"%string)
    (fun _ => None)
    (fun _ => None)
    (fun _ => None)
    (fun text => Some text).

Definition jobs_state (store : list GsApp) (locked : gset nat) : FwupdJobs.State :=
  FwupdJobs.mkState (Examples.fwupd_state store) locked ∅ [].

(** The firmware of a device that has to be unlocked. *)
Definition locked_firmware_app : GsApp :=
  Fwupd.gs_fwupd_app_set_device_id (Some "dev0"%string) Examples.firmware_app.


(** The kinds of the apps of a page on which app 2 is an upgrade of the
    operating system. *)
Definition upgrade_is_app_2 (app : nat) : InstalledPage.AsComponentKind :=
  if (app =? 2)%nat then InstalledPage.AS_COMPONENT_KIND_OPERATING_SYSTEM
  else InstalledPage.AS_COMPONENT_KIND_DESKTOP_APP.

End Scenarios.

(** * Properties *)

(** Unfolding one step of plugin code. *)
Ltac act_unfold :=
  unfold Odrs.ask, Odrs.ask_result, Odrs.get_app, Odrs.modify_app, Gs.fail_with;
  unfold mbind, mret, Gs.act_bind, Gs.act_ret, Gs.act_get, Gs.act_gets,
    Gs.act_modify, Gs.act_fail, Gs.act_try;
  cbv beta iota zeta.

(** ** Binary search *)

Section BinarySearchFacts.
Import GLib BinarySearch.

Context {A : Type}.
Variable compare_func : A -> A -> Z.
Hypothesis compare_order : GCompareOrder compare_func.

Lemma guint_wrap_small z : 0 <= z <= G_MAXUINT -> guint_wrap z = z.
Proof. intros Hz. unfold guint_wrap, G_MAXUINT in *. apply Z.mod_small. lia. Qed.

Lemma compare_zero_flip a b : compare_func a b = 0 -> compare_func b a = 0.
Proof.
  intros Hab.
  pose proof (@compare_flip _ compare_func compare_order a b) as H1.
  pose proof (@compare_flip _ compare_func compare_order b a) as H2.
  lia.
Qed.

(** Everything at or before an element below the target is below it. *)
Lemma compare_below a b t :
  compare_func a b <= 0 -> compare_func b t < 0 -> compare_func a t < 0.
Proof.
  intros Hab Hbt.
  assert (compare_func a t <= 0) as Hle
    by (apply (@compare_trans _ compare_func compare_order a b t); lia).
  destruct (Z.eq_dec (compare_func a t) 0) as [Hz | Hnz]; [| lia].
  apply compare_zero_flip in Hz.
  assert (compare_func t b <= 0) as Htb
    by (apply (@compare_trans _ compare_func compare_order t a b); lia).
  pose proof (@compare_flip _ compare_func compare_order b t). lia.
Qed.

(** Everything at or after an element above the target is above it. *)
Lemma compare_above a b t :
  compare_func a b <= 0 -> 0 < compare_func a t -> 0 < compare_func b t.
Proof.
  intros Hab Hat.
  pose proof (@compare_flip _ compare_func compare_order t a) as Hta.
  pose proof (@compare_flip _ compare_func compare_order t b) as Htb.
  destruct (Z_lt_le_dec 0 (compare_func b t)) as [? | Hle]; [done |].
  assert (compare_func a t <= 0)
    by (apply (@compare_trans _ compare_func compare_order a b t); lia).
  lia.
Qed.

Lemma search_loop_spec (data : list A) (target : A) :
  sorted_by compare_func data ->
  array_len data <= G_MAXUINT ->
  forall (budget : nat) (left right : Z),
    0 <= left -> right < array_len data ->
    right - left + 1 <= Z.of_nat budget ->
    (forall (i : nat) x, Z.of_nat i < left -> data !! i = Some x ->
                         compare_func x target < 0) ->
    (forall (i : nat) x, right < Z.of_nat i -> data !! i = Some x ->
                         0 < compare_func x target) ->
    search_post compare_func data target (search_loop compare_func budget data target left right).
Proof.
  intros Hsorted Hlen budget.
  induction budget as [| budget IH]; intros left right Hl Hr Hb Hlo Hhi.
  - simpl. destruct (left <=? right) eqn:Hle; simpl; [apply Z.leb_le in Hle; lia |].
    apply Z.leb_gt in Hle.
    intros elt [i Hi]%list_elem_of_lookup.
    destruct (Z_lt_le_dec (Z.of_nat i) left) as [Hlt | Hge].
    + specialize (Hlo i elt Hlt Hi). lia.
    + assert (right < Z.of_nat i) as Hgt by lia.
      specialize (Hhi i elt Hgt Hi). lia.
  - simpl. destruct (left <=? right) eqn:Hle; simpl.
    2:{ apply Z.leb_gt in Hle.
        intros elt [i Hi]%list_elem_of_lookup.
        destruct (Z_lt_le_dec (Z.of_nat i) left) as [Hlt | Hge].
        - specialize (Hlo i elt Hlt Hi). lia.
        - assert (right < Z.of_nat i) as Hgt by lia.
          specialize (Hhi i elt Hgt Hi). lia. }
    apply Z.leb_le in Hle.
    unfold array_len in *.
    assert (guint_sub right left = right - left) as ->
      by (unfold guint_sub; apply guint_wrap_small; lia).
    assert (0 <= (right - left) / 2 <= right - left) as Hhalf.
    { split; [apply Z.div_pos; lia |]. apply Z.div_le_upper_bound; lia. }
    assert (guint_add left ((right - left) / 2) = left + (right - left) / 2) as ->
      by (unfold guint_add; apply guint_wrap_small; lia).
    set (middle := left + (right - left) / 2) in *.
    assert (left <= middle <= right) as Hmid by (subst middle; lia).
    clearbody middle.
    destruct (data !! Z.to_nat middle) as [elt |] eqn:Helt.
    2:{ apply lookup_ge_None in Helt. exfalso. lia. }
    destruct (compare_func elt target =? 0) eqn:Hz.
    { apply Z.eqb_eq in Hz. simpl. split; [unfold array_len; lia |]. eauto. }
    apply Z.eqb_neq in Hz.
    destruct (compare_func elt target <? 0) eqn:Hneg.
    { apply Z.ltb_lt in Hneg.
      assert (guint_add middle 1 = middle + 1) as ->
        by (unfold guint_add; apply guint_wrap_small; lia).
      apply IH; try lia; [| done].
      intros i x Hi Hx.
      apply (compare_below x elt target); [| done].
      apply (Hsorted i (Z.to_nat middle)); [lia | done | done]. }
    apply Z.ltb_ge in Hneg.
    assert (forall (i : nat) x, middle <= Z.of_nat i -> data !! i = Some x ->
                                0 < compare_func x target) as Habove.
    { intros i x Hi Hx.
      apply (compare_above elt x target); [| lia].
      apply (Hsorted (Z.to_nat middle) i); [lia | done | done]. }
    destruct (0 <? middle) eqn:Hpos.
    { apply Z.ltb_lt in Hpos.
      assert (guint_sub middle 1 = middle - 1) as ->
        by (unfold guint_sub; apply guint_wrap_small; lia).
      apply IH; try lia; [done |].
      intros i x Hi Hx. apply (Habove i x); [lia | done]. }
    apply Z.ltb_ge in Hpos. simpl.
    intros x [i Hi]%list_elem_of_lookup.
    assert (middle <= Z.of_nat i) as Hge by lia.
    specialize (Habove i x Hge Hi). lia.
Qed.

(** C10: on an array sorted ascending by the comparison function, the
    search terminates within its bound and reads only elements of the
    array (it never ends in [BadRead] or [LoopBudget]); it returns TRUE
    with the index of an element comparing equal to the target when there
    is one ([Match]), and FALSE exactly when no element compares equal
    ([NoMatch]). *)
Theorem g_array_binary_search_correct (data : list A) (target : A) :
  array_len data <= G_MAXUINT ->
  sorted_by compare_func data ->
  match g_array_binary_search compare_func data target with
  | Match middle =>
      0 <= middle < array_len data /\
      exists elt, data !! Z.to_nat middle = Some elt /\ compare_func elt target = 0
  | NoMatch => forall elt, elt ∈ data -> compare_func elt target <> 0
  | BadRead _ | LoopBudget => False
  end.
Proof.
  intros Hlen Hsorted. unfold g_array_binary_search.
  destruct (array_len data =? 0) eqn:Hzero.
  - apply Z.eqb_eq in Hzero. unfold array_len in Hzero.
    destruct data; [| simpl in Hzero; lia].
    intros elt Helt. by apply elem_of_nil in Helt.
  - apply Z.eqb_neq in Hzero.
    assert (0 <= array_len data) by (unfold array_len; lia).
    assert (guint_sub (array_len data) 1 = array_len data - 1) as ->
      by (unfold guint_sub; apply guint_wrap_small; lia).
    apply (search_loop_spec data target Hsorted Hlen); unfold array_len in *; try lia.
    intros i x Hi Hx. apply lookup_lt_Some in Hx. lia.
Qed.

End BinarySearchFacts.

(** ** The ODRS plugin *)

Section OdrsFacts.
Import GLib Gs Odrs.


(** C8: with the review server unset or empty, [gs_plugin_refresh] and
    the ratings refinement return success, leave the whole plugin state as
    it was (nothing produced, no call made), and submitting a review,
    voting and fetching the unvoted reviews fail with NOT_SUPPORTED,
    again without a call. *)
Theorem disabled_server_degrades (h : Host) (s : State) (cache_age : Z)
    (app : nat) (review : AsReview) (path : string) (app_list : list nat) :
  str_is_null_or_empty (review_server s) = true ->
  gs_plugin_refresh h cache_age s = (Ok tt, s) /\
  gs_plugin_odrs_refine_ratings h app s = (Ok tt, s) /\
  gs_plugin_review_submit h app review s
    = (Fail (Some (plugin_error GS_PLUGIN_ERROR_NOT_SUPPORTED)), s) /\
  gs_plugin_odrs_vote h review path s
    = (Fail (Some (plugin_error GS_PLUGIN_ERROR_NOT_SUPPORTED)), s) /\
  gs_plugin_add_unvoted_reviews h app_list s
    = (Fail (Some (plugin_error GS_PLUGIN_ERROR_NOT_SUPPORTED)), s).
Proof.
  intros Hoff.
  unfold gs_plugin_refresh, gs_plugin_odrs_refine_ratings,
    gs_plugin_review_submit, gs_plugin_odrs_vote, gs_plugin_add_unvoted_reviews.
  act_unfold. unfold server_disabled. rewrite Hoff. repeat split.
Qed.


Lemma with_apps_same (s : State) : with_apps (apps s) s = s.
Proof. by destruct s. Qed.

Lemma parse_reviews_state (h : Host) (data : option string) (s : State) :
  snd (gs_plugin_odrs_parse_reviews h data s) = s.
Proof.
  unfold gs_plugin_odrs_parse_reviews, no_data_error. act_unfold.
  destruct data as [text |]; simpl.
  - destruct (json_parser_load_from_data h text) as [[[] |] |]; simpl; try done.
    by destruct (parse_each_review _ _ _ _).
  - by destruct (negb _).
Qed.

Lemma parse_success_state (h : Host) (data : option string) (s : State) :
  snd (gs_plugin_odrs_parse_success h data s) = s.
Proof.
  unfold gs_plugin_odrs_parse_success, no_data_error. act_unfold.
  destruct data as [text |]; simpl.
  - destruct (json_parser_load_from_data h text) as [[[] |] |]; simpl; try done.
    by destruct (negb _).
  - by destruct (negb _).
Qed.

(** With the review server unset or empty, refining an app asks nothing
    of the outside world and changes nothing, whatever the flags. *)
Lemma disabled_server_refine_app (h : Host) (s : State) (app : nat) (flags : Z) :
  str_is_null_or_empty (review_server s) = true ->
  refine_app h app flags s = (Ok tt, s).
Proof.
  intros Hoff.
  assert (gs_plugin_odrs_refine_reviews h app s = (Ok tt, s)) as Hreviews.
  { unfold gs_plugin_odrs_refine_reviews, gs_plugin_odrs_fetch_for_app.
    act_unfold. unfold server_disabled. rewrite Hoff. cbn [refine_each_review].
    rewrite list_alter_id by done. by rewrite with_apps_same. }
  assert (refine_app_ratings h app flags s = (Ok tt, s)) as Hratings.
  { unfold refine_app_ratings, gs_plugin_odrs_refine_ratings. act_unfold.
    destruct (_ || _); [| done].
    destruct (app_review_ratings _); [done |].
    unfold server_disabled. by rewrite Hoff. }
  unfold refine_app. act_unfold.
  destruct (bool_decide _); [done |]. destruct (bool_decide _); [done |].
  destruct (has_flag flags GS_PLUGIN_REFINE_FLAGS_REQUIRE_REVIEWS); [| done].
  destruct (0 <? _); [done |].
  unfold mbind, act_bind in Hreviews. by rewrite Hreviews.
Qed.


(** C2, what the code does: once the app has reviews, a request carrying
    REQUIRE_REVIEWS returns from [refine_app] at once, so a REQUIRE_RATING
    in the same request is not looked at: the state is unchanged and the
    review ratings stay unset. *)
Theorem refine_app_reviews_return_skips_ratings (h : Host) (s : State)
    (app : nat) (flags : Z) :
  has_flag flags GS_PLUGIN_REFINE_FLAGS_REQUIRE_REVIEWS = true ->
  has_flag flags GS_PLUGIN_REFINE_FLAGS_REQUIRE_RATING = true ->
  app_reviews (app_at app s) <> [] ->
  app_review_ratings (app_at app s) = None ->
  refine_app h app flags s = (Ok tt, s) /\
  app_review_ratings (app_at app (snd (refine_app h app flags s))) = None.
Proof.
  intros Hreviews _ Hne Hunset.
  assert (refine_app h app flags s = (Ok tt, s)) as Heq.
  { unfold refine_app. act_unfold.
    destruct (bool_decide (app_kind (app_at app s) = AS_COMPONENT_KIND_ADDON)); [done |].
    destruct (bool_decide (app_id (app_at app s) = None)); [done |].
    rewrite Hreviews.
    destruct (app_reviews (app_at app s)); [done |]. reflexivity. }
  by rewrite Heq.
Qed.

(** C4, what the code does: the per-app review cache is reused exactly
    while the file is younger than [ODRS_REVIEW_CACHE_AGE_MAX], which is
    237000 seconds; from that age on the reviews are requested from the
    server. *)
Theorem fetch_for_app_cache_age (h : Host) (s : State) (app : nat) (cachefn : string) :
  server_disabled s = false ->
  let basename := cache_basename (app_id (app_at app s)) in
  let asked := calls s ++ [GetCacheFilename "odrs" basename] in
  let age := gs_utils_get_file_age h asked cachefn in
  let s' := snd (gs_plugin_odrs_fetch_for_app h app s) in
  gs_utils_get_cache_filename h (calls s) "odrs" basename = Ok cachefn ->
  (age < 237000 ->
   calls s' = asked ++ [GetFileAge cachefn; MapFile cachefn]) /\
  (237000 <= age ->
   exists rest,
     calls s' = asked ++ [GetFileAge cachefn;
                          SoupSend "POST" (server_uri s "/fetch")] ++ rest).
Proof.
  intros Hon basename asked age s' Hfn.
  subst s'. unfold gs_plugin_odrs_fetch_for_app. act_unfold.
  rewrite Hon. fold basename. rewrite Hfn.
  cbn [fst snd Odrs.calls Odrs.with_calls]. fold asked. fold age.
  unfold ODRS_REVIEW_CACHE_AGE_MAX. split; intros Hage.
  - apply Z.ltb_lt in Hage. rewrite Hage.
    destruct (g_mapped_file_new h _ cachefn) as [contents |] eqn:Hmap.
    + match goal with
      | |- context [gs_plugin_odrs_parse_reviews ?h ?d ?st] =>
          pose proof (parse_reviews_state h d st) as Hst;
          destruct (gs_plugin_odrs_parse_reviews h d st) as [r st']
      end.
      cbn [snd] in *. subst st'. cbn [Odrs.calls Odrs.with_calls].
      by rewrite <- app_assoc.
    + cbn [snd Odrs.calls Odrs.with_calls]. by rewrite <- app_assoc.
  - apply Z.ltb_ge in Hage. rewrite Hage.
    match goal with
    | |- context [soup_session_send_message ?h ?cs ?m ?u] =>
        set (reply := soup_session_send_message h cs m u)
    end.
    destruct (negb (status_code reply =? SOUP_STATUS_OK)).
    + match goal with
      | |- context [gs_plugin_odrs_parse_success ?h ?d ?st] =>
          pose proof (parse_success_state h d st) as Hst;
          destruct (gs_plugin_odrs_parse_success h d st) as [r st']
      end.
      cbn [snd] in *. subst st'. exists [].
      destruct r; cbn [snd Odrs.calls Odrs.with_calls]; by rewrite <- app_assoc.
    + match goal with
      | |- context [gs_plugin_odrs_parse_reviews ?h ?d ?st] =>
          pose proof (parse_reviews_state h d st) as Hst;
          destruct (gs_plugin_odrs_parse_reviews h d st) as [r st']
      end.
      cbn [snd] in *. subst st'.
      destruct r.
      * exists [SetFileContents cachefn].
        destruct (g_file_set_contents h _ cachefn);
          cbn [snd Odrs.calls Odrs.with_calls]; by rewrite <- !app_assoc.
      * exists []. cbn [snd Odrs.calls Odrs.with_calls]. by rewrite <- app_assoc.
Qed.


Lemma refine_list_entry_unfold (h : Host) (flags : Z) (app : nat) (s : State) :
  refine_list_entry h flags app s =
  match refine_app h app flags s with
  | (Ok _, s') => (Ok tt, s')
  | (Fail e, s') =>
      if g_error_matches e GS_PLUGIN_ERROR (PluginCode GS_PLUGIN_ERROR_NO_NETWORK)
      then (Ok tt, s') else (Fail e, s')
  end.
Proof.
  unfold refine_list_entry. act_unfold.
  destruct (refine_app h app flags s) as [[[] | e] s']; [done |].
  by destruct (g_error_matches _ _ _).
Qed.

Lemma act_iter_cons {A} (body : A -> M unit) (x : A) (xs : list A) (s : State) :
  act_iter body (x :: xs) s =
  match body x s with
  | (Ok _, s') => act_iter body xs s'
  | (Fail e, s') => (Fail e, s')
  end.
Proof. reflexivity. Qed.

(** When every failure of [refine_app] along the list is a NO_NETWORK
    failure, the loop of [gs_plugin_refine] refines every app in turn and
    succeeds. *)
Lemma refine_loop_survives_no_network (h : Host) (flags : Z) (app_list : list nat) :
  forall s : State,
  (forall pre app post e, app_list = pre ++ app :: post ->
     fst (refine_app h app flags
            (snd (act_iter (refine_list_entry h flags) pre s))) = Fail e ->
     g_error_matches e GS_PLUGIN_ERROR (PluginCode GS_PLUGIN_ERROR_NO_NETWORK) = true) ->
  act_iter (refine_list_entry h flags) app_list s
  = (Ok tt, foldl (fun st app => snd (refine_app h app flags st)) s app_list).
Proof.
  induction app_list as [| app rest IH]; intros s Hfail; [done |].
  rewrite act_iter_cons, refine_list_entry_unfold.
  pose proof (Hfail [] app rest) as Hhead. simpl in Hhead.
  assert (match refine_app h app flags s with
          | (Ok _, s') => (Ok tt, s')
          | (Fail e, s') =>
              if g_error_matches e GS_PLUGIN_ERROR
                   (PluginCode GS_PLUGIN_ERROR_NO_NETWORK)
              then (Ok tt, s') else (Fail e, s')
          end = (Ok tt, snd (refine_app h app flags s))) as Hstep.
  { destruct (refine_app h app flags s) as [[[] | e] s']; [done |].
    simpl in *. by rewrite (Hhead e eq_refl eq_refl). }
  rewrite Hstep. simpl. apply IH.
  intros pre app' post e Heq Hres.
  apply (Hfail (app :: pre) app' post e); [by rewrite Heq |].
  rewrite act_iter_cons, refine_list_entry_unfold, Hstep. exact Hres.
Qed.

(** A refresh that gets as far as the download and sees it fail reports
    one event and succeeds. *)
Lemma refresh_download_failure (h : Host) (cache_age : Z) (s : State)
    (cache_filename : string) (e : option GError) :
  server_disabled s = false ->
  let asked := calls s ++ [GetCacheFilename "odrs" "ratings.json"] in
  let asked' := if 0 <? cache_age then asked ++ [GetFileAge cache_filename]
                else asked in
  let uri := server_uri s "/ratings" in
  gs_utils_get_cache_filename h (calls s) "odrs" "ratings.json" = Ok cache_filename ->
  cache_age <= 0 \/ cache_age <= gs_utils_get_file_age h asked cache_filename ->
  gs_plugin_download_file h asked' uri cache_filename = Fail e ->
  gs_plugin_refresh h cache_age s =
  (Ok tt,
   with_events
     (events s ++
      [mkGsPluginEvent e GS_PLUGIN_ACTION_DOWNLOAD (cached_origin s)
         [if gs_plugin_is_interactive h then GS_PLUGIN_EVENT_FLAG_INTERACTIVE
          else GS_PLUGIN_EVENT_FLAG_WARNING]])
     (with_calls (asked' ++ [DownloadFile uri cache_filename]) s)).
Proof.
  intros Hon asked asked' uri Hfn Hstale Hdl.
  unfold gs_plugin_refresh, report_download_failure. act_unfold.
  rewrite Hon, Hfn. fold asked. fold uri.
  destruct (0 <? cache_age) eqn:Hpos;
    cbv beta iota zeta; cbn [Odrs.calls Odrs.with_calls].
  - apply Z.ltb_lt in Hpos.
    assert ((gs_utils_get_file_age h asked cache_filename <? cache_age) = false) as ->
      by (apply Z.ltb_ge; lia).
    cbv beta iota zeta. cbn [Odrs.calls Odrs.with_calls].
    subst asked'. rewrite Hdl. by destruct s.
  - subst asked'. rewrite Hdl. by destruct s.
Qed.

(** C3, amended: a NO_NETWORK failure while refining an app does not fail
    [gs_plugin_refine]: when the failures along the list are NO_NETWORK
    failures the call succeeds and every app of the list has been refined
    in turn.  A failed ratings download during [gs_plugin_refresh] is
    reported as one event, flagged WARNING when the plugin does not run
    interactively and INTERACTIVE when it does, and the refresh succeeds. *)
Theorem enrichment_failures_do_not_fail_the_job (h : Host) (flags : Z)
    (app_list : list nat) (s : State) (cache_age : Z) (cache_filename : string)
    (e : option GError) :
  ((forall pre app post e', app_list = pre ++ app :: post ->
      fst (refine_app h app flags
             (snd (act_iter (refine_list_entry h flags) pre s))) = Fail e' ->
      g_error_matches e' GS_PLUGIN_ERROR (PluginCode GS_PLUGIN_ERROR_NO_NETWORK) = true) ->
   fst (gs_plugin_refine h app_list flags s) = Ok tt /\
   (Z.land flags (Z.lor GS_PLUGIN_REFINE_FLAGS_REQUIRE_REVIEWS
                    (Z.lor GS_PLUGIN_REFINE_FLAGS_REQUIRE_REVIEW_RATINGS
                           GS_PLUGIN_REFINE_FLAGS_REQUIRE_RATING)) <> 0 ->
    snd (gs_plugin_refine h app_list flags s)
    = foldl (fun st app => snd (refine_app h app flags st)) s app_list)) /\
  (server_disabled s = false ->
   let asked := calls s ++ [GetCacheFilename "odrs" "ratings.json"] in
   let asked' := if 0 <? cache_age then asked ++ [GetFileAge cache_filename]
                 else asked in
   let uri := server_uri s "/ratings" in
   gs_utils_get_cache_filename h (calls s) "odrs" "ratings.json" = Ok cache_filename ->
   cache_age <= 0 \/ cache_age <= gs_utils_get_file_age h asked cache_filename ->
   gs_plugin_download_file h asked' uri cache_filename = Fail e ->
   fst (gs_plugin_refresh h cache_age s) = Ok tt /\
   events (snd (gs_plugin_refresh h cache_age s)) =
   events s ++
   [mkGsPluginEvent e GS_PLUGIN_ACTION_DOWNLOAD (cached_origin s)
      [if gs_plugin_is_interactive h then GS_PLUGIN_EVENT_FLAG_INTERACTIVE
       else GS_PLUGIN_EVENT_FLAG_WARNING]]).
Proof.
  split.
  - intros Hfail. unfold gs_plugin_refine.
    destruct (Z.land flags _ =? 0) eqn:Hnone.
    + split; [done |]. apply Z.eqb_eq in Hnone. congruence.
    + rewrite (refine_loop_survives_no_network h flags app_list s Hfail).
      by split.
  - intros Hon asked asked' uri Hfn Hstale Hdl.
    rewrite (refresh_download_failure h cache_age s cache_filename e Hon Hfn Hstale Hdl).
    by split.
Qed.

End OdrsFacts.

(** *** The ODRS plugin on concrete inputs *)

Section OdrsRuns.
Import GLib Gs Odrs Examples.

Lemma disabled_server_degrades_witness :
  let h := odrs_host false true 0 in
  let s := odrs_state (Some ""%string) [example_app [] None] in
  gs_plugin_refresh h 0 s = (Ok tt, s) /\
  gs_plugin_odrs_refine_ratings h 0 s = (Ok tt, s) /\
  gs_plugin_review_submit h 0 example_review s
    = (Fail (Some (plugin_error GS_PLUGIN_ERROR_NOT_SUPPORTED)), s) /\
  gs_plugin_odrs_vote h example_review "upvote" s
    = (Fail (Some (plugin_error GS_PLUGIN_ERROR_NOT_SUPPORTED)), s) /\
  gs_plugin_add_unvoted_reviews h [] s
    = (Fail (Some (plugin_error GS_PLUGIN_ERROR_NOT_SUPPORTED)), s).
Proof.
  intros h s.
  apply (disabled_server_degrades h s 0 0%nat example_review "upvote" []).
  reflexivity.
Defined.



Lemma refine_app_reviews_return_skips_ratings_witness :
  let h := odrs_host false true G_MAXUINT in
  let s := odrs_state example_server [example_app [example_review] None] in
  refine_app h 0 review_and_rating_flags s = (Ok tt, s) /\
  app_review_ratings (app_at 0 (snd (refine_app h 0 review_and_rating_flags s)))
    = None.
Proof.
  intros h s.
  apply (refine_app_reviews_return_skips_ratings h s 0 review_and_rating_flags).
  - reflexivity.
  - reflexivity.
  - discriminate.
  - reflexivity.
Defined.

(** The same app asked for REQUIRE_RATING alone does get its ratings. *)
Example refine_app_rating_alone_sets_ratings :
  let h := odrs_host false true G_MAXUINT in
  let s := odrs_state example_server [example_app [example_review] None] in
  let s' := snd (refine_app h 0 GS_PLUGIN_REFINE_FLAGS_REQUIRE_RATING s) in
  app_review_ratings (app_at 0 s') = Some [0; 1; 2; 3; 4; 5] /\
  app_rating (app_at 0 s') = 80.
Proof. vm_compute. split; reflexivity. Qed.

Lemma fetch_for_app_cache_age_witness :
  let h := odrs_host false true 300000 in
  let s := odrs_state example_server [example_app [] None] in
  let s' := snd (gs_plugin_odrs_fetch_for_app h 0 s) in
  (300000 < 237000 ->
   calls s' = [GetCacheFilename "odrs" "org.example.App.json";
               GetFileAge "/cache/org.example.App.json";
               MapFile "/cache/org.example.App.json"]) /\
  (237000 <= 300000 ->
   exists rest,
     calls s' = [GetCacheFilename "odrs" "org.example.App.json";
                 GetFileAge "/cache/org.example.App.json";
                 SoupSend "POST" "https://odrs.example/1.0/reviews/api/fetch"]
                ++ rest).
Proof.
  intros h s.
  apply (fetch_for_app_cache_age h s 0 "/cache/org.example.App.json").
  - reflexivity.
  - reflexivity.
Defined.

(** A cache file of 300000 seconds, younger than a week (604800 seconds),
    is not reused: the reviews are requested from the server. *)
Example fetch_for_app_at_300000_seconds :
  300000 < 604800 /\
  calls (snd (gs_plugin_odrs_fetch_for_app (odrs_host false true 300000) 0
                (odrs_state example_server [example_app [] None])))
  = [GetCacheFilename "odrs" "org.example.App.json";
     GetFileAge "/cache/org.example.App.json";
     SoupSend "POST" "https://odrs.example/1.0/reviews/api/fetch"].
Proof. split; [lia | vm_compute; reflexivity]. Qed.

(** C3 as stated fails: when the plugin runs interactively, the event for
    a failed ratings download is flagged INTERACTIVE and carries no
    WARNING flag. *)
Lemma refresh_failure_event_counterexample :
  let h := odrs_host true true 0 in
  let s := odrs_state example_server [] in
  gs_plugin_download_file h [GetCacheFilename "odrs" "ratings.json"]
    "https://odrs.example/1.0/reviews/api/ratings" "/cache/ratings.json"
    = Fail (Some (plugin_error GS_PLUGIN_ERROR_DOWNLOAD_FAILED)) /\
  fst (gs_plugin_refresh h 0 s) = Ok tt /\
  events (snd (gs_plugin_refresh h 0 s))
    = [mkGsPluginEvent (Some (plugin_error GS_PLUGIN_ERROR_DOWNLOAD_FAILED))
         GS_PLUGIN_ACTION_DOWNLOAD (Some "odrs"%string)
         [GS_PLUGIN_EVENT_FLAG_INTERACTIVE]] /\
  forall ev, ev ∈ events (snd (gs_plugin_refresh h 0 s)) ->
             GS_PLUGIN_EVENT_FLAG_WARNING ∉ event_flags ev.
Proof.
  vm_compute. repeat split.
  intros ev Hev Hflag.
  apply list_elem_of_In in Hev. destruct Hev as [<- | []].
  apply list_elem_of_In in Hflag. destruct Hflag as [Heq | []]. discriminate.
Qed.

Lemma enrichment_failures_do_not_fail_the_job_witness :
  let h := odrs_host false false G_MAXUINT in
  let s := odrs_state example_server [example_app [] None] in
  let flags := GS_PLUGIN_REFINE_FLAGS_REQUIRE_REVIEWS in
  (fst (gs_plugin_refine h [0%nat] flags s) = Ok tt /\
   snd (gs_plugin_refine h [0%nat] flags s)
   = foldl (fun st app => snd (refine_app h app flags st)) s [0%nat]) /\
  (fst (gs_plugin_refresh h 0 s) = Ok tt /\
   events (snd (gs_plugin_refresh h 0 s)) =
   [mkGsPluginEvent (Some (plugin_error GS_PLUGIN_ERROR_DOWNLOAD_FAILED))
      GS_PLUGIN_ACTION_DOWNLOAD (Some "odrs"%string)
      [GS_PLUGIN_EVENT_FLAG_WARNING]]).
Proof.
  intros h s flags.
  destruct (enrichment_failures_do_not_fail_the_job h flags [0%nat] s 0
              "/cache/ratings.json"
              (Some (plugin_error GS_PLUGIN_ERROR_DOWNLOAD_FAILED)))
    as [Hrefine Hrefresh].
  split.
  - destruct Hrefine as [Hok Hall].
    + intros pre app post e' Heq Hres.
      destruct pre as [| x pre].
      * simpl in Heq. injection Heq as <- <-.
        vm_compute in Hres. injection Hres as <-. reflexivity.
      * simpl in Heq. injection Heq as _ Heq. by destruct pre.
    + split; [exact Hok |]. apply Hall. vm_compute. discriminate.
  - apply Hrefresh.
    + reflexivity.
    + reflexivity.
    + left. lia.
    + reflexivity.
Defined.

End OdrsRuns.

(** *** Unvoted reviews *)

Section UnvotedFacts.
Import GLib Gs Odrs.

Variable h : Host.

Lemma add_unvoted_review_unfold (review : AsReview) (app_list : list nat)
    (hash : gmap string nat) (s : State) :
  add_unvoted_review h review (app_list, hash) s =
  match review_app_id review with
  | None => (Fail None, s)
  | Some id =>
      match hash !! id with
      | Some p =>
          (Ok (app_list, hash),
           with_apps (alter (gs_app_add_review review) p (apps s)) s)
      | None =>
          let p := length (apps s) in
          let store := apps s ++ [gs_plugin_create_app_dummy h id] in
          (Ok (gs_app_list_add store app_list p, <[id := p]> hash),
           with_apps (alter (gs_app_add_review review) p store) s)
      end
  end.
Proof.
  unfold add_unvoted_review, review_app_id.
  destruct (as_review_get_metadata_item review "app_id") as [id |]; [| done].
  unfold mbind, mret, act_bind, act_ret, act_get, act_modify, Odrs.modify_app.
  destruct (hash !! id) as [p |]; cbv beta iota zeta; [done |].
  by destruct s.
Qed.


Lemma dummy_app_reviews (id : string) : app_reviews (gs_plugin_create_app_dummy h id) = [].
Proof. reflexivity. Qed.

Lemma add_review_app_id (review : AsReview) (a : GsApp) :
  app_id (gs_app_add_review review a) = app_id a.
Proof. reflexivity. Qed.

Lemma add_review_app_reviews (review : AsReview) (a : GsApp) :
  app_reviews (gs_app_add_review review a) = app_reviews a ++ [review].
Proof. reflexivity. Qed.




Lemma add_unvoted_each_cons (review : AsReview) (rest : list AsReview)
    (acc : list nat * gmap string nat) (s : State) :
  add_unvoted_each h (review :: rest) acc s =
  match add_unvoted_review h review acc s with
  | (Ok acc', s1) => add_unvoted_each h rest acc' s1
  | (Fail e, s1) => (Fail e, s1)
  end.
Proof. reflexivity. Qed.


Section Step.

Variables (store0 : list GsApp) (list0 : list nat).
Hypothesis list0_valid : forall q, q ∈ list0 -> (q < length store0)%nat.




End Step.

(** The loop completes when every review names its app. *)
Lemma add_unvoted_each_completes (reviews : list AsReview) :
  forall (acc : list nat * gmap string nat) (s : State),
  (forall review, review ∈ reviews -> review_app_id review <> None) ->
  is_ok (fst (add_unvoted_each h reviews acc s)) = true.
Proof.
  induction reviews as [| review rest IH]; intros [app_list hash] s Hids; [done |].
  rewrite add_unvoted_each_cons, add_unvoted_review_unfold.
  destruct (review_app_id review) as [id |] eqn:Hid.
  2:{ exfalso. apply (Hids review); [left | done]. }
  destruct (hash !! id); cbv zeta; apply IH; intros r Hr; apply Hids; by right.
Qed.




End UnvotedFacts.

(** ** The fwupd plugin *)

Ltac fw_unfold :=
  unfold Fwupd.converting, Fwupd.ask, Fwupd.ask_result, Fwupd.get_app,
    Fwupd.modify_app, Gs.fail_with;
  unfold mbind, mret, Gs.act_bind, Gs.act_ret, Gs.act_get, Gs.act_gets,
    Gs.act_modify, Gs.act_fail, Gs.act_try;
  cbv beta iota zeta.

Section FwupdFacts.
Import GLib Gs Fwupd.

Lemma g_strcmp0_eq (a b : option string) : g_strcmp0 a b = 0 <-> a = b.
Proof.
  unfold g_strcmp0. destruct a as [x |], b as [y |]; try (split; done).
  pose proof (String_as_OT.cmp_eq x y) as Heq. unfold String_as_OT.cmp in Heq.
  destruct (String.compare x y); split; intros H; try done.
  - f_equal. by apply Heq.
  - injection H as H. by apply Heq in H.
  - injection H as H. by apply Heq in H.
Qed.

Lemma not_managed_here_true (h : Host) (a : GsApp) :
  app_management_plugin a <> Some (gs_plugin_get_name h) ->
  not_managed_here h a = true.
Proof.
  intros Hne. unfold not_managed_here. apply negb_true_iff, Z.eqb_neq.
  by rewrite g_strcmp0_eq.
Qed.

Lemma not_managed_here_false (h : Host) (a : GsApp) :
  app_management_plugin a = Some (gs_plugin_get_name h) ->
  not_managed_here h a = false.
Proof.
  intros Heq. unfold not_managed_here. apply negb_false_iff, Z.eqb_eq.
  by rewrite g_strcmp0_eq.
Qed.

(** A failed change of a remote is the failure of
    [gs_plugin_fwupd_modify_source]. *)
Lemma modify_source_failure (h : Host) (s : State) (app : nat) (enabled : bool)
    (remote_id : string) (e : option GError) :
  gs_app_get_metadata_item (app_at app s) "fwupd::remote-id" = Some remote_id ->
  fwupd_client_modify_remote h (calls s) remote_id "Enabled"
    (if enabled then "true" else "false")%string = Fail e ->
  fst (gs_plugin_fwupd_modify_source h app enabled s) = Fail e.
Proof.
  intros Hid Hfail. unfold gs_plugin_fwupd_modify_source. fw_unfold.
  rewrite Hid. cbn [Fwupd.calls Fwupd.with_calls Fwupd.with_apps].
  by rewrite Hfail.
Qed.

(** A failed install on a firmware file that is in the cache is the
    failure of [gs_plugin_fwupd_install], with the error converted. *)
Lemma install_failure (h : Host) (s : State) (app : nat) (filename : string)
    (e : option GError) :
  let a := app_at app s in
  let device_id := default FWUPD_DEVICE_ID_ANY (gs_fwupd_app_get_device_id a) in
  let offline := bool_decide (gs_app_get_metadata_item a "fwupd::OnlyOffline" <> None) in
  app_local_file a = Some filename ->
  g_file_query_exists h (calls s) filename = true ->
  fwupd_client_install h (calls s ++ [QueryFileExists filename]) device_id
    filename offline = Fail e ->
  fst (gs_plugin_fwupd_install h app s) = Fail (gs_plugin_fwupd_error_convert h e).
Proof.
  intros a device_id offline Hfile Hpresent Hfail.
  unfold gs_plugin_fwupd_install. fw_unfold. fold a.
  rewrite Hfile, Hpresent. cbn [negb].
  cbn [Fwupd.calls Fwupd.with_calls Fwupd.with_apps Fwupd.with_app_current].
  fold device_id. fold offline. by rewrite Hfail.
Qed.

(** A failed download of a firmware file that is not in the cache is the
    failure of [gs_plugin_fwupd_install]. *)
Lemma install_download_failure (h : Host) (s : State) (app : nat)
    (filename : string) (e : option GError) :
  let a := app_at app s in
  let uri := gs_fwupd_app_get_update_uri a in
  let asked := calls s ++ [QueryFileExists filename] in
  app_local_file a = Some filename ->
  g_file_query_exists h (calls s) filename = false ->
  (if fwupd_check_version_1_5_2 h
   then fwupd_client_download_file h asked uri filename
   else gs_plugin_download_file h asked uri filename) = Fail e ->
  gs_plugin_fwupd_install h app s =
  (Fail (if fwupd_check_version_1_5_2 h
         then gs_plugin_fwupd_error_convert h e else e),
   with_calls (asked ++ [if fwupd_check_version_1_5_2 h
                         then ClientDownloadFile uri filename
                         else PluginDownloadFile uri filename])
     (with_apps (alter (gs_app_set_state GS_APP_STATE_INSTALLING) app (apps s)) s)).
Proof.
  intros a uri asked Hfile Hmissing Hfail.
  unfold gs_plugin_fwupd_install, install_download. fw_unfold. fold a.
  rewrite Hfile, Hmissing. cbn [negb].
  cbn [Fwupd.calls Fwupd.with_calls Fwupd.with_apps Fwupd.apps].
  fold asked.
  assert (app_at app (with_calls asked s) = a) as -> by done.
  fold uri.
  destruct (fwupd_check_version_1_5_2 h);
    cbv beta iota zeta;
    cbn [Fwupd.calls Fwupd.with_calls Fwupd.with_apps Fwupd.apps];
    rewrite Hfail; by destruct s.
Qed.

(** C6: an app that the fwupd plugin does not manage is left alone by
    install and remove: success, the same state, no call.  For an app it
    manages, the failure of the daemon call is the failure of the
    operation, with that error (converted, for a firmware install): the
    change of the remote for a source, the install for firmware in the
    cache, the download for firmware that is not. *)
Theorem install_remove_single_owner (h : Host) (s : State) (app : nat) :
  gs_plugin_get_name h = "fwupd"%string ->
  let a := app_at app s in
  (app_management_plugin a <> Some "fwupd"%string ->
   gs_plugin_app_install h app s = (Ok tt, s) /\
   gs_plugin_app_remove h app s = (Ok tt, s)) /\
  (app_management_plugin a = Some "fwupd"%string ->
   (forall remote_id e,
      gs_app_get_metadata_item a "fwupd::remote-id" = Some remote_id ->
      fwupd_client_modify_remote h (calls s) remote_id "Enabled" "false" = Fail e ->
      fst (gs_plugin_app_remove h app s) = Fail e) /\
   (forall remote_id e,
      app_kind a = AS_COMPONENT_KIND_REPOSITORY ->
      gs_app_get_metadata_item a "fwupd::remote-id" = Some remote_id ->
      fwupd_client_modify_remote h (calls s) remote_id "Enabled" "true" = Fail e ->
      fst (gs_plugin_app_install h app s) = Fail e) /\
   (forall filename e,
      app_kind a <> AS_COMPONENT_KIND_REPOSITORY ->
      app_local_file a = Some filename ->
      g_file_query_exists h (calls s) filename = true ->
      fwupd_client_install h (calls s ++ [QueryFileExists filename])
        (default FWUPD_DEVICE_ID_ANY (gs_fwupd_app_get_device_id a)) filename
        (bool_decide (gs_app_get_metadata_item a "fwupd::OnlyOffline" <> None))
        = Fail e ->
      fst (gs_plugin_app_install h app s)
        = Fail (gs_plugin_fwupd_error_convert h e)) /\
   (forall filename e,
      app_kind a <> AS_COMPONENT_KIND_REPOSITORY ->
      app_local_file a = Some filename ->
      g_file_query_exists h (calls s) filename = false ->
      (if fwupd_check_version_1_5_2 h
       then fwupd_client_download_file h (calls s ++ [QueryFileExists filename])
              (gs_fwupd_app_get_update_uri a) filename
       else gs_plugin_download_file h (calls s ++ [QueryFileExists filename])
              (gs_fwupd_app_get_update_uri a) filename) = Fail e ->
      fst (gs_plugin_app_install h app s)
        = Fail (if fwupd_check_version_1_5_2 h
                then gs_plugin_fwupd_error_convert h e else e))).
Proof.
  intros Hname a. split.
  - intros Hother.
    unfold gs_plugin_app_install, gs_plugin_app_remove. fw_unfold. fold a.
    rewrite not_managed_here_true by (by rewrite Hname). done.
  - intros Hmine.
    assert (not_managed_here h a = false) as Hhere
      by (apply not_managed_here_false; by rewrite Hname).
    repeat split.
    + intros remote_id e Hid Hfail.
      unfold gs_plugin_app_remove. fw_unfold. fold a. rewrite Hhere.
      by apply (modify_source_failure h s app false remote_id e).
    + intros remote_id e Hkind Hid Hfail.
      unfold gs_plugin_app_install. fw_unfold. fold a. rewrite Hhere, Hkind.
      rewrite bool_decide_eq_true_2 by done.
      by apply (modify_source_failure h s app true remote_id e).
    + intros filename e Hkind Hfile Hpresent Hfail.
      unfold gs_plugin_app_install. fw_unfold. fold a. rewrite Hhere.
      rewrite bool_decide_eq_false_2 by done.
      by apply (install_failure h s app filename e).
    + intros filename e Hkind Hfile Hmissing Hfail.
      unfold gs_plugin_app_install. fw_unfold. fold a. rewrite Hhere.
      rewrite bool_decide_eq_false_2 by done.
      by rewrite (install_download_failure h s app filename e Hfile Hmissing Hfail).
Qed.

End FwupdFacts.

Section FwupdClassification.
Import GLib Gs Fwupd.

Variable h : Host.





End FwupdClassification.

Section FwupdState.
Import GLib Gs Fwupd.

Variable h : Host.

(** C9, what the code does: when the firmware file is not in the cache and
    its download fails, [gs_plugin_fwupd_install] returns the failure with
    the app in state INSTALLING: the state it had before is not brought
    back. *)
Theorem install_download_failure_leaves_installing (s : State) (app : nat)
    (a : GsApp) (filename : string) (e : option GError) :
  apps s !! app = Some a ->
  app_state a <> GS_APP_STATE_INSTALLING ->
  app_local_file a = Some filename ->
  g_file_query_exists h (calls s) filename = false ->
  (if fwupd_check_version_1_5_2 h
   then fwupd_client_download_file h (calls s ++ [QueryFileExists filename])
          (gs_fwupd_app_get_update_uri a) filename
   else gs_plugin_download_file h (calls s ++ [QueryFileExists filename])
          (gs_fwupd_app_get_update_uri a) filename) = Fail e ->
  is_ok (fst (gs_plugin_fwupd_install h app s)) = false /\
  app_state (app_at app (snd (gs_plugin_fwupd_install h app s)))
    = GS_APP_STATE_INSTALLING /\
  app_state (app_at app (snd (gs_plugin_fwupd_install h app s))) <> app_state a.
Proof.
  intros Happ Hstate Hfile Hmissing Hfail.
  assert (app_at app s = a) as Hat by (unfold app_at; by rewrite Happ).
  rewrite <- Hat in Hfile, Hfail.
  rewrite (install_download_failure h s app filename e Hfile Hmissing Hfail).
  cbn [fst snd]. split; [done |].
  assert (app_state (app_at app
            (with_calls
               ((calls s ++ [QueryFileExists filename]) ++
                [if fwupd_check_version_1_5_2 h
                 then ClientDownloadFile (gs_fwupd_app_get_update_uri (app_at app s)) filename
                 else PluginDownloadFile (gs_fwupd_app_get_update_uri (app_at app s)) filename])
               (with_apps (alter (gs_app_set_state GS_APP_STATE_INSTALLING) app (apps s)) s)))
          = GS_APP_STATE_INSTALLING) as Hnow.
  { unfold app_at. cbn [Fwupd.apps Fwupd.with_calls Fwupd.with_apps].
    by rewrite list_lookup_alter_eq, Happ. }
  split; [exact Hnow |]. rewrite Hnow. congruence.
Qed.

(** The path next to it: when the install itself fails, the state is
    recovered. *)
Lemma install_failure_recovers_state (s : State) (app : nat) (a : GsApp)
    (filename : string) (e : option GError) :
  apps s !! app = Some a ->
  app_state_recover a = app_state a ->
  app_state a <> GS_APP_STATE_UNKNOWN ->
  app_local_file a = Some filename ->
  g_file_query_exists h (calls s) filename = true ->
  fwupd_client_install h (calls s ++ [QueryFileExists filename])
    (default FWUPD_DEVICE_ID_ANY (gs_fwupd_app_get_device_id a)) filename
    (bool_decide (gs_app_get_metadata_item a "fwupd::OnlyOffline" <> None))
    = Fail e ->
  is_ok (fst (gs_plugin_fwupd_install h app s)) = false /\
  app_state (app_at app (snd (gs_plugin_fwupd_install h app s))) = app_state a.
Proof.
  intros Happ Hsettled Hknown Hfile Hpresent Hfail.
  assert (app_at app s = a) as Hat by (unfold app_at; by rewrite Happ).
  unfold gs_plugin_fwupd_install. fw_unfold. rewrite Hat, Hfile, Hpresent.
  cbn [negb].
  cbn [Fwupd.calls Fwupd.with_calls Fwupd.with_apps Fwupd.with_app_current
       Fwupd.apps].
  rewrite Hfail. cbn [fst snd]. split; [done |].
  unfold app_at. cbn [Fwupd.apps Fwupd.with_calls Fwupd.with_apps].
  rewrite !list_lookup_alter_eq, Happ. simpl.
  unfold gs_app_set_state_recover, gs_app_set_state. simpl.
  rewrite Hsettled. by rewrite bool_decide_eq_false_2.
Qed.

(** And when the change of a remote fails, the state is recovered. *)
Lemma modify_source_failure_recovers_state (s : State) (app : nat) (a : GsApp)
    (enabled : bool) (remote_id : string) (e : option GError) :
  apps s !! app = Some a ->
  app_state_recover a = app_state a ->
  app_state a <> GS_APP_STATE_UNKNOWN ->
  gs_app_get_metadata_item a "fwupd::remote-id" = Some remote_id ->
  fwupd_client_modify_remote h (calls s) remote_id "Enabled"
    (if enabled then "true" else "false")%string = Fail e ->
  fst (gs_plugin_fwupd_modify_source h app enabled s) = Fail e /\
  app_state (app_at app (snd (gs_plugin_fwupd_modify_source h app enabled s)))
    = app_state a.
Proof.
  intros Happ Hsettled Hknown Hid Hfail.
  assert (app_at app s = a) as Hat by (unfold app_at; by rewrite Happ).
  unfold gs_plugin_fwupd_modify_source. fw_unfold. rewrite Hat, Hid.
  cbn [Fwupd.calls Fwupd.with_calls Fwupd.with_apps Fwupd.apps].
  rewrite Hfail. cbn [fst snd]. split; [done |].
  unfold app_at. cbn [Fwupd.apps Fwupd.with_calls Fwupd.with_apps].
  rewrite !list_lookup_alter_eq, Happ. simpl.
  unfold gs_app_set_state_recover, gs_app_set_state.
  destruct enabled; simpl; rewrite Hsettled; by rewrite bool_decide_eq_false_2.
Qed.

End FwupdState.

(** ** The ratings array and its search *)

Section RatingFacts.
Import GLib Gs Odrs BinarySearch.

Lemma g_strcmp0_flip (a b : option string) : g_strcmp0 a b < 0 <-> 0 < g_strcmp0 b a.
Proof.
  unfold g_strcmp0. destruct a as [x |], b as [y |]; try lia.
  pose proof (String_as_OT.cmp_antisym x y) as Hanti.
  unfold String_as_OT.cmp in Hanti. rewrite Hanti.
  destruct (String.compare y x); simpl; lia.
Qed.

Lemma g_strcmp0_le (x y : string) :
  g_strcmp0 (Some x) (Some y) <= 0 <-> x = y \/ String_as_OT.lt x y.
Proof.
  unfold g_strcmp0.
  pose proof (String_as_OT.cmp_eq x y) as Heq.
  pose proof (String_as_OT.cmp_lt x y) as Hlt.
  unfold String_as_OT.cmp in *.
  destruct (String.compare x y); split; intros H; try lia.
  - left. by apply Heq.
  - right. by apply Hlt.
  - destruct H as [H | H]; [by apply Heq in H | by apply Hlt in H].
Qed.

Lemma g_strcmp0_trans (a b c : option string) :
  g_strcmp0 a b <= 0 -> g_strcmp0 b c <= 0 -> g_strcmp0 a c <= 0.
Proof.
  destruct a as [x |], b as [y |], c as [z |]; try (simpl; lia).
  rewrite !g_strcmp0_le. intros [-> | Hxy] [-> | Hyz]; auto.
  right. by apply (String_as_OT.lt_trans x y z).
Qed.

(** [rating_compare] is a comparison function in the sense the search
    needs. *)
Lemma rating_compare_order : GCompareOrder rating_compare.
Proof.
  split; unfold rating_compare.
  - intros a b. apply g_strcmp0_flip.
  - intros a b c. apply g_strcmp0_trans.
Qed.

Global Instance rating_le_transitive : Transitive rating_le.
Proof. intros a b c. apply g_strcmp0_trans. Qed.

Global Instance rating_le_total : Total rating_le.
Proof.
  intros a b. unfold rating_le, rating_compare.
  pose proof (g_strcmp0_flip (rating_app_id a) (rating_app_id b)).
  destruct (Z_le_gt_dec (g_strcmp0 (rating_app_id a) (rating_app_id b)) 0);
    [by left | right; lia].
Qed.

Lemma rating_le_refl (a : GsOdrsRating) : rating_le a a.
Proof.
  unfold rating_le, rating_compare.
  pose proof (g_strcmp0_flip (rating_app_id a) (rating_app_id a)). lia.
Qed.

Lemma strongly_sorted_by (l : list GsOdrsRating) :
  StronglySorted rating_le l -> sorted_by rating_compare l.
Proof.
  induction 1 as [| a l Hl IH Hall]; intros i j x y Hij Hi Hj.
  - by rewrite lookup_nil in Hi.
  - destruct i as [| i], j as [| j]; simpl in *; try lia.
    + injection Hi as <-. injection Hj as <-. apply rating_le_refl.
    + injection Hi as <-. rewrite Forall_forall in Hall.
      apply Hall, list_elem_of_lookup. by exists j.
    + apply (IH i j x y); [lia | done | done].
Qed.

(** The array that [gs_plugin_odrs_load_ratings] leaves in [priv->ratings]
    is in the order the search relies on. *)
Lemma loaded_ratings_sorted (l : list GsOdrsRating) :
  sorted_by rating_compare (g_array_sort_ratings l).
Proof. apply strongly_sorted_by, StronglySorted_merge_sort; apply _. Qed.

End RatingFacts.

(** ** The plugins on concrete inputs *)

Section Runs.
Import GLib Gs BinarySearch Examples.

Lemma g_array_binary_search_correct_witness :
  let data := [Odrs.mkGsOdrsRating (Some "b.desktop"%string) [0; 1; 2; 3; 4; 5];
               Odrs.mkGsOdrsRating (Some "d.desktop"%string) [5; 4; 3; 2; 1; 0]] in
  let target := Odrs.mkGsOdrsRating (Some "a.desktop"%string) [0; 0; 0; 0; 0; 0] in
  g_array_binary_search Odrs.rating_compare data target = NoMatch /\
  forall elt, elt ∈ data -> Odrs.rating_compare elt target <> 0.
Proof.
  intros data target.
  split; [vm_compute; reflexivity |].
  pose proof (g_array_binary_search_correct Odrs.rating_compare
                rating_compare_order data target) as Hsearch.
  assert (g_array_binary_search Odrs.rating_compare data target = NoMatch) as Hrun
    by (vm_compute; reflexivity).
  rewrite Hrun in Hsearch. apply Hsearch.
  - vm_compute. discriminate.
  - intros i j x y Hij Hi Hj.
    destruct i as [| [| i]], j as [| [| j]]; simpl in Hi, Hj;
      try lia; try discriminate;
      injection Hi as <-; injection Hj as <-; vm_compute; discriminate.
Defined.

(** Below every element, in the middle and at an element. *)
Example g_array_binary_search_runs :
  g_array_binary_search compare_int [10; 20; 30; 40] 5 = NoMatch /\
  g_array_binary_search compare_int [10; 20; 30; 40] 25 = NoMatch /\
  g_array_binary_search compare_int [10; 20; 30; 40] 40 = Match 3 /\
  g_array_binary_search compare_int [10; 20; 30; 40] 10 = Match 0 /\
  g_array_binary_search compare_int [] 10 = NoMatch.
Proof. vm_compute. repeat split. Qed.


(** The run itself: two entries for three reviews, the first holding the
    two reviews of its app. *)
Example add_unvoted_reviews_run :
  let s := odrs_state example_server [] in
  let r := Odrs.gs_plugin_add_unvoted_reviews moderation_host [] s in
  fst r = Ok [0; 1]%nat /\
  map app_id (Odrs.apps (snd r))
    = [Some "a.desktop"%string; Some "b.desktop"%string] /\
  map (fun a => map review_reviewer_id (app_reviews a)) (Odrs.apps (snd r))
    = [[Some "u1"%string; Some "u3"%string]; [Some "u2"%string]].
Proof. vm_compute. repeat split. Qed.

Lemma install_remove_single_owner_witness :
  let h := fwupd_host true true write_error in
  let s := fwupd_state [package_app; remote_app; firmware_app] in
  (Fwupd.gs_plugin_app_install h 0 s = (Ok tt, s) /\
   Fwupd.gs_plugin_app_remove h 0 s = (Ok tt, s)) /\
  fst (Fwupd.gs_plugin_app_remove h 1 s) = Fail (Some write_error) /\
  fst (Fwupd.gs_plugin_app_install h 2 s)
    = Fail (Fwupd.gs_plugin_fwupd_error_convert h (Some write_error)).
Proof.
  intros h s.
  destruct (install_remove_single_owner h s 0 eq_refl) as [Hother _].
  destruct (install_remove_single_owner h s 1 eq_refl) as [_ Hremote].
  destruct (install_remove_single_owner h s 2 eq_refl) as [_ Hfirmware].
  split; [| split].
  - apply Hother. discriminate.
  - destruct (Hremote eq_refl) as (Hremove & _).
    apply (Hremove "lvfs"%string); reflexivity.
  - destruct (Hfirmware eq_refl) as (_ & _ & Hinstall & _).
    apply (Hinstall "/cache/fwupd/firmware.cab"%string);
      [discriminate | reflexivity | reflexivity | reflexivity].
Defined.



(** The same device when it is updatable: rejected as unsafe. *)
Example unsigned_updatable_device_rejected :
  fst (Fwupd.gs_plugin_fwupd_new_app (fwupd_host true true write_error)
         (unsigned_device [Fwupd.FWUPD_DEVICE_FLAG_UPDATABLE]) (fwupd_state []))
  = Fail (Some (plugin_error GS_PLUGIN_ERROR_NO_SECURITY)).
Proof. vm_compute. reflexivity. Qed.

Lemma install_download_failure_leaves_installing_witness :
  let h := fwupd_host true false write_error in
  let s := fwupd_state [firmware_app] in
  is_ok (fst (Fwupd.gs_plugin_fwupd_install h 0 s)) = false /\
  app_state (Fwupd.app_at 0 (snd (Fwupd.gs_plugin_fwupd_install h 0 s)))
    = GS_APP_STATE_INSTALLING /\
  app_state (Fwupd.app_at 0 (snd (Fwupd.gs_plugin_fwupd_install h 0 s)))
    <> app_state firmware_app.
Proof.
  intros h s.
  apply (install_download_failure_leaves_installing h s 0 firmware_app
           "/cache/fwupd/firmware.cab" (Some write_error)).
  - reflexivity.
  - discriminate.
  - reflexivity.
  - reflexivity.
  - reflexivity.
Defined.

(** The same run next to the one where the install itself fails: the
    app was UPDATABLE_LIVE; after the failed download it is INSTALLING,
    after the failed install it is UPDATABLE_LIVE again. *)
Example install_failures_compared :
  app_state firmware_app = GS_APP_STATE_UPDATABLE_LIVE /\
  app_state (Fwupd.app_at 0
    (snd (Fwupd.gs_plugin_fwupd_install (fwupd_host true false write_error) 0
            (fwupd_state [firmware_app])))) = GS_APP_STATE_INSTALLING /\
  app_state (Fwupd.app_at 0
    (snd (Fwupd.gs_plugin_fwupd_install (fwupd_host false false write_error) 0
            (fwupd_state [firmware_app])))) = GS_APP_STATE_INSTALLING /\
  app_state (Fwupd.app_at 0
    (snd (Fwupd.gs_plugin_fwupd_install (fwupd_host true true write_error) 0
            (fwupd_state [firmware_app])))) = GS_APP_STATE_UPDATABLE_LIVE.
Proof. vm_compute. repeat split. Qed.

End Runs.

(** * Further properties of the plugins *)

(** ** Parsing the reviews of a reply *)

Section ParseReviews.
Import GLib Gs Odrs.

Variable h : Host.

Lemma parse_each_review_spec (json : list JsonNode) :
  forall (ids : gset string) (acc out : list AsReview),
  (forall u, u ∈ ids <-> Some u ∈ review_reviewer_id <$> acc) ->
  NoDup (review_reviewer_id <$> acc) ->
  parse_each_review h json ids acc = Some out ->
  NoDup (review_reviewer_id <$> out) /\
  (forall r, r ∈ out ->
     r ∈ acc \/
     exists item u, JsonObject item ∈ json /\
       r = gs_plugin_odrs_parse_review_object h item /\
       review_reviewer_id r = Some u) /\
  (forall r, r ∈ acc -> r ∈ out) /\
  (forall item u, JsonObject item ∈ json ->
     review_reviewer_id (gs_plugin_odrs_parse_review_object h item) = Some u ->
     Some u ∈ review_reviewer_id <$> out).
Proof.
  induction json as [| node rest IH]; intros ids acc out Hids Hnodup.
  - intros [= <-]. repeat split; try done.
    + by left.
    + by intros item u ?%elem_of_nil.
  - destruct node as [| b | n | t | elements | item]; try done.
    cbn [parse_each_review].
    set (review := gs_plugin_odrs_parse_review_object h item).
    destruct (review_reviewer_id review) as [u |] eqn:Hu.
    + destruct (bool_decide (u ∈ ids)) eqn:Hseen.
      * apply bool_decide_eq_true in Hseen. intros Hrest.
        destruct (IH ids acc out Hids Hnodup Hrest) as (Hnd & Hsound & Hkeep & Hall).
        split; [done |]. split; [| split; [done |]].
        -- intros r Hr. destruct (Hsound r Hr) as [? | (item' & u' & Hin & ? & ?)];
             [by left | right]. exists item', u'. split; [by right | done].
        -- intros item' u' [[= <-] | Hin]%elem_of_cons Hid.
           ++ fold review in Hid. rewrite Hu in Hid. injection Hid as <-.
              apply Hids in Hseen. apply list_elem_of_fmap in Hseen as (r & Hr & Hin).
              apply list_elem_of_fmap. exists r. split; [done |]. by apply Hkeep.
           ++ by apply (Hall item' u').
      * apply bool_decide_eq_false in Hseen. intros Hrest.
        assert (Some u ∉ review_reviewer_id <$> acc) as Hnew.
        { intros Hin. by apply Hseen, Hids. }
        destruct (IH ({[u]} ∪ ids) (acc ++ [review]) out) as (Hnd & Hsound & Hkeep & Hall).
        { intros u'. rewrite fmap_app, elem_of_app, elem_of_union, elem_of_singleton.
          simpl. rewrite list_elem_of_singleton, Hu, Hids. split.
          - intros [-> | ?]; [by right | by left].
          - intros [? | [= ->]]; [by right | by left]. }
        { rewrite fmap_app. apply NoDup_app. split; [done |]. split.
          - intros x Hx. simpl. rewrite list_elem_of_singleton, Hu. by intros ->.
          - apply NoDup_singleton. }
        { done. }
        split; [done |]. split; [| split].
        -- intros r Hr.
           destruct (Hsound r Hr) as [[? | ->%list_elem_of_singleton]%elem_of_app
                                     | (item' & u' & Hin & ? & ?)].
           ++ by left.
           ++ right. exists item, u. split; [by left | done].
           ++ right. exists item', u'. split; [by right | done].
        -- intros r Hr. apply Hkeep, elem_of_app. by left.
        -- intros item' u' [[= <-] | Hin]%elem_of_cons Hid.
           ++ fold review in Hid. apply list_elem_of_fmap. exists review.
              split; [done |]. apply Hkeep, elem_of_app. right.
              by apply list_elem_of_singleton.
           ++ by apply (Hall item' u').
    + intros Hrest.
      destruct (IH ids acc out Hids Hnodup Hrest) as (Hnd & Hsound & Hkeep & Hall).
      split; [done |]. split; [| split; [done |]].
      * intros r Hr. destruct (Hsound r Hr) as [? | (item' & u' & Hin & ? & ?)];
          [by left | right]. exists item', u'. split; [by right | done].
      * intros item' u' [[= <-] | Hin]%elem_of_cons Hid.
        -- fold review in Hid. congruence.
        -- by apply (Hall item' u').
Qed.

(** X1: the reviews that [gs_plugin_odrs_parse_reviews] hands back come
    from a reply that parsed to an array; no two of them have the same
    reviewer id, each is the review of an object of the array that names
    its reviewer, and every reviewer named in the array is represented. *)
Theorem parse_reviews_one_per_reviewer (data : option string) (s : State)
    (reviews : list AsReview) :
  fst (gs_plugin_odrs_parse_reviews h data s) = Ok reviews ->
  exists text json,
    data = Some text /\
    json_parser_load_from_data h text = Ok (Some (JsonArray json)) /\
    NoDup (review_reviewer_id <$> reviews) /\
    (forall r, r ∈ reviews ->
       exists item u, JsonObject item ∈ json /\
         r = gs_plugin_odrs_parse_review_object h item /\
         review_reviewer_id r = Some u) /\
    (forall item u, JsonObject item ∈ json ->
       review_reviewer_id (gs_plugin_odrs_parse_review_object h item) = Some u ->
       exists r, r ∈ reviews /\ review_reviewer_id r = Some u).
Proof.
  unfold gs_plugin_odrs_parse_reviews, no_data_error. act_unfold.
  destruct data as [text |].
  2:{ by destruct (negb _). }
  destruct (json_parser_load_from_data h text) as [[[| | | | json |] |] |] eqn:Hload;
    try done.
  destruct (parse_each_review h json ∅ []) as [out |] eqn:Hloop; [| done].
  intros [= <-].
  destruct (parse_each_review_spec json ∅ [] out) as (Hnd & Hsound & _ & Hall).
  { intros u. split; [by intros ?%elem_of_empty | by intros ?%elem_of_nil]. }
  { apply NoDup_nil_2. }
  { done. }
  exists text, json. split; [done |]. split; [done |]. split; [done |]. split.
  - intros r Hr. destruct (Hsound r Hr) as [?%elem_of_nil | ?]; done.
  - intros item u Hin Hid.
    pose proof (Hall item u Hin Hid) as Hfound.
    apply list_elem_of_fmap in Hfound as (r & ? & ?). by exists r.
Qed.

Lemma parse_each_review_none (json : list JsonNode) :
  forall (ids : gset string) (acc : list AsReview),
  parse_each_review h json ids acc = None <->
  exists node, node ∈ json /\ forall item, node <> JsonObject item.
Proof.
  induction json as [| node rest IH]; intros ids acc.
  - split; [done | by intros (? & ?%elem_of_nil & _)].
  - assert ((exists n, n ∈ rest /\ forall item, n <> JsonObject item) ->
            exists n, n ∈ node :: rest /\ forall item, n <> JsonObject item) as Hlift.
    { intros (n & ? & ?). exists n. split; [by right | done]. }
    destruct node as [| b | n | t | elements | item];
      try (split; [intros _; eexists; split; [by left | done] | done]).
    cbn [parse_each_review].
    assert ((exists n, n ∈ JsonObject item :: rest /\ forall i, n <> JsonObject i) ->
            exists n, n ∈ rest /\ forall i, n <> JsonObject i) as Hdrop.
    { intros (n & [-> | ?]%elem_of_cons & Hn); [by destruct (Hn item) | by exists n]. }
    destruct (review_reviewer_id _) as [u |]; [destruct (bool_decide _) |];
      rewrite IH; split; auto.
Qed.

(** X2: a reply that parses to an array is accepted exactly when every
    element of the array is an object; one element that is not, wherever
    it stands, rejects the whole reply as INVALID_FORMAT.  The state is
    never touched. *)
Theorem parse_reviews_all_or_nothing (text : string) (json : list JsonNode)
    (s : State) :
  json_parser_load_from_data h text = Ok (Some (JsonArray json)) ->
  ((forall node, node ∈ json -> exists item, node = JsonObject item) ->
   is_ok (fst (gs_plugin_odrs_parse_reviews h (Some text) s)) = true) /\
  ((exists node, node ∈ json /\ forall item, node <> JsonObject item) ->
   gs_plugin_odrs_parse_reviews h (Some text) s
   = (Fail (Some (plugin_error GS_PLUGIN_ERROR_INVALID_FORMAT)), s)).
Proof.
  intros Hload. unfold gs_plugin_odrs_parse_reviews. rewrite Hload.
  split.
  - intros Hobjects.
    destruct (parse_each_review h json ∅ []) as [out |] eqn:Hloop; [done |].
    apply parse_each_review_none in Hloop as (node & Hin & Hnot).
    destruct (Hobjects node Hin) as [item ->]. by destruct (Hnot item).
  - intros Hbad. apply (parse_each_review_none json ∅ []) in Hbad. by rewrite Hbad.
Qed.

End ParseReviews.

(** ** Ratings: loading, looking up, refining *)

Section RatingLookup.
Import GLib Gs Odrs BinarySearch Notions.

Lemma ratings_search_post (all : list GsOdrsRating) (target : GsOdrsRating) :
  array_len all <= G_MAXUINT ->
  sorted_by rating_compare all ->
  search_post rating_compare all target
    (g_array_binary_search rating_compare all target).
Proof.
  intros Hlen Hsorted. unfold g_array_binary_search.
  destruct (array_len all =? 0) eqn:Hzero.
  - apply Z.eqb_eq in Hzero. unfold array_len in Hzero.
    destruct all; [| simpl in Hzero; lia].
    intros elt Helt. by apply elem_of_nil in Helt.
  - apply Z.eqb_neq in Hzero.
    assert (0 <= array_len all) by (unfold array_len; lia).
    assert (guint_sub (array_len all) 1 = array_len all - 1) as ->
      by (unfold guint_sub; apply guint_wrap_small; lia).
    apply (search_loop_spec rating_compare rating_compare_order all target
             Hsorted Hlen); unfold array_len in *; try lia.
    intros i x Hi Hx. apply lookup_lt_Some in Hx. lia.
Qed.

Lemma parse_each_app_elem (members : JsonMembers) (r : GsOdrsRating) :
  r ∈ parse_each_app members <->
  exists id obj counts, (id, JsonObject obj) ∈ members /\
    load_star_ratings obj star_names = Some counts /\
    r = mkGsOdrsRating (Some id) counts.
Proof.
  induction members as [| [k v] rest IH].
  - split; [by intros ?%elem_of_nil | by intros (? & ? & ? & ?%elem_of_nil & _)].
  - split.
    + intros Hr.
      assert (r ∈ parse_each_app rest ->
              exists id obj counts, (id, JsonObject obj) ∈ (k, v) :: rest /\
                load_star_ratings obj star_names = Some counts /\
                r = mkGsOdrsRating (Some id) counts) as Hrest.
      { intros (id & obj & counts & Hin & ? & ?)%IH.
        exists id, obj, counts. split; [by right | done]. }
      destruct v as [| b | n | t | elements | obj]; cbn [parse_each_app] in Hr; auto.
      unfold gs_plugin_odrs_load_ratings_for_app in Hr.
      destruct (load_star_ratings obj star_names) as [counts |] eqn:Hload; auto.
      apply elem_of_cons in Hr as [-> | Hr]; auto.
      exists k, obj, counts. split; [by left | done].
    + intros (id & obj & counts & [[= <- <-] | Hin]%elem_of_cons & Hload & ->).
      * cbn [parse_each_app]. unfold gs_plugin_odrs_load_ratings_for_app.
        rewrite Hload. by left.
      * assert (mkGsOdrsRating (Some id) counts ∈ parse_each_app rest) as Hrest.
        { apply IH. by exists id, obj, counts. }
        destruct v as [| b | n | t | elements | obj']; cbn [parse_each_app]; auto.
        destruct (gs_plugin_odrs_load_ratings_for_app obj' k); [by right | done].
Qed.

Lemma parse_each_app_length (members : JsonMembers) :
  (length (parse_each_app members) <= length members)%nat.
Proof.
  induction members as [| [k v] rest IH]; [done |].
  destruct v as [| b | n | t | elements | obj]; cbn [parse_each_app length]; try lia.
  destruct (gs_plugin_odrs_load_ratings_for_app obj k); cbn [length]; lia.
Qed.

(** X3: loading a ratings file whose top level is an object succeeds and
    leaves in [priv->ratings] a reordering of the entries that carry all
    six star counts; the search that [gs_plugin_odrs_refine_ratings] then
    runs for an app id finds an entry of that id with the counts of the
    file when the file has a complete entry for the id, and reports no
    match exactly when every entry of that id lacks a star count.  It
    never reads outside the array and never exhausts its iterations. *)
Theorem loaded_ratings_lookup (h : Host) (fn : string) (s : State)
    (members : JsonMembers) :
  json_parser_load_from_file h (calls s) fn = Ok (Some (JsonObject members)) ->
  Z.of_nat (length members) <= G_MAXUINT ->
  exists all,
    gs_plugin_odrs_load_ratings h fn s
    = (Ok tt, with_ratings (Some all) (with_calls (calls s ++ [ParseJsonFile fn]) s)) /\
    all ≡ₚ parse_each_app members /\
    forall id,
      match g_array_binary_search rating_compare all
              (mkGsOdrsRating (Some id) zero_ratings) with
      | Match i =>
          exists obj counts, (id, JsonObject obj) ∈ members /\
            load_star_ratings obj star_names = Some counts /\
            all !! Z.to_nat i = Some (mkGsOdrsRating (Some id) counts)
      | NoMatch =>
          forall obj, (id, JsonObject obj) ∈ members ->
                      load_star_ratings obj star_names = None
      | BadRead _ | LoopBudget => False
      end.
Proof.
  intros Hfile Hlen.
  exists (g_array_sort_ratings (parse_each_app members)).
  assert (g_array_sort_ratings (parse_each_app members) ≡ₚ parse_each_app members)
    as Hperm by apply merge_sort_Permutation.
  split; [| split; [done |]].
  - unfold gs_plugin_odrs_load_ratings, ask_result. by rewrite Hfile.
  - intros id.
    set (all := g_array_sort_ratings (parse_each_app members)) in *.
    set (target := mkGsOdrsRating (Some id) zero_ratings).
    assert (array_len all <= G_MAXUINT) as Hall.
    { unfold array_len. rewrite Hperm.
      pose proof (parse_each_app_length members). lia. }
    pose proof (ratings_search_post all target Hall
                  (loaded_ratings_sorted (parse_each_app members))) as Hpost.
    destruct (g_array_binary_search rating_compare all target) as [i | | i |];
      cbn [search_post] in Hpost; try done.
    + destruct Hpost as (_ & elt & Hi & Hcmp).
      apply g_strcmp0_eq in Hcmp. cbn [rating_app_id target] in Hcmp.
      assert (elt ∈ parse_each_app members) as Helt.
      { rewrite <- Hperm. apply list_elem_of_lookup. by exists (Z.to_nat i). }
      apply parse_each_app_elem in Helt as (id' & obj & counts & Hin & Hload & ->).
      injection Hcmp as ->. by exists obj, counts.
    + intros obj Hin.
      destruct (load_star_ratings obj star_names) as [counts |] eqn:Hload; [| done].
      assert (mkGsOdrsRating (Some id) counts ∈ all) as Helt.
      { rewrite Hperm. apply parse_each_app_elem. by exists id, obj, counts. }
      destruct (Hpost _ Helt). by apply g_strcmp0_eq.
Qed.

Lemma accumulate_no_match (all : list GsOdrsRating) (ids : list (option string)) :
  array_len all <= G_MAXUINT ->
  sorted_by rating_compare all ->
  (forall id r, id ∈ ids -> r ∈ all -> rating_app_id r <> id) ->
  forall raw cnt, accumulate_ratings all ids raw cnt = (raw, cnt).
Proof.
  intros Hlen Hsorted. induction ids as [| id rest IH]; intros Hnone raw cnt; [done |].
  cbn [accumulate_ratings].
  assert (forall id' r, id' ∈ rest -> r ∈ all -> rating_app_id r <> id') as Hrest.
  { intros id' r ? ?. apply Hnone; [by right | done]. }
  pose proof (ratings_search_post all (mkGsOdrsRating id zero_ratings) Hlen Hsorted)
    as Hpost.
  destruct (g_array_binary_search rating_compare all _) as [i | | i |];
    cbn [search_post] in Hpost; auto.
  destruct Hpost as (_ & elt & Hi & Hcmp). apply g_strcmp0_eq in Hcmp.
  destruct (Hnone id elt); [by left | | done].
  apply list_elem_of_lookup. by exists (Z.to_nat i).
Qed.

(** X4: with the ratings loaded and in order, refining the ratings of an
    app none of whose reviewable ids (its own id and the ids it provides)
    has an entry leaves the app and the whole plugin state as they were:
    no star counts, no rating, no call. *)
Theorem unrated_app_untouched (h : Host) (app : nat) (s : State)
    (all : list GsOdrsRating) :
  server_disabled s = false ->
  ratings s = Some all ->
  array_len all <= G_MAXUINT ->
  sorted_by rating_compare all ->
  (forall id r, id ∈ _gs_app_get_reviewable_ids (app_at app s) -> r ∈ all ->
                rating_app_id r <> id) ->
  gs_plugin_odrs_refine_ratings h app s = (Ok tt, s).
Proof.
  intros Hon Hratings Hlen Hsorted Hnone.
  unfold gs_plugin_odrs_refine_ratings, apply_ratings. act_unfold.
  rewrite Hon, Hratings. cbv beta iota zeta.
  by rewrite (accumulate_no_match all _ Hlen Hsorted Hnone).
Qed.

Lemma app_at_alter (f : GsApp -> GsApp) (app : nat) (s : State) :
  (app < length (apps s))%nat ->
  app_at app (with_apps (alter f app (apps s)) s) = f (app_at app s).
Proof.
  intros Hlt. unfold app_at. cbn [apps with_apps].
  rewrite list_lookup_alter, decide_True by done.
  destruct (lookup_lt_is_Some_2 (apps s) app Hlt) as [a Ha]. by rewrite Ha.
Qed.

(** X5: with the ratings loaded and in order, refining the ratings of an
    app that provides no further ids and whose id has an entry succeeds
    without a call, stores the six star counts of an entry of that id as
    the review ratings of the app, and sets the rating to the Wilson score
    of the counts when that score is positive, leaving it alone
    otherwise. *)
Theorem rated_app_gets_counts (h : Host) (app : nat) (s : State)
    (all : list GsOdrsRating) (id : string) :
  server_disabled s = false ->
  ratings s = Some all ->
  array_len all <= G_MAXUINT ->
  sorted_by rating_compare all ->
  (app < length (apps s))%nat ->
  app_id (app_at app s) = Some id ->
  app_provided (app_at app s) = [] ->
  (exists r, r ∈ all /\ rating_app_id r = Some id) ->
  exists r s',
    r ∈ all /\ rating_app_id r = Some id /\
    gs_plugin_odrs_refine_ratings h app s = (Ok tt, s') /\
    calls s' = calls s /\
    let counts := add_star_ratings zero_ratings (n_star_ratings r) in
    let wilson := gs_utils_get_wilson_rating h
                    (nth_rating counts 1) (nth_rating counts 2)
                    (nth_rating counts 3) (nth_rating counts 4)
                    (nth_rating counts 5) in
    length counts = 6%nat /\
    app_review_ratings (app_at app s') = Some counts /\
    app_rating (app_at app s')
    = if 0 <? wilson then wilson else app_rating (app_at app s).
Proof.
  intros Hon Hratings Hlen Hsorted Hptr Hid Hprov (r0 & Hr0 & Hr0id).
  unfold gs_plugin_odrs_refine_ratings, apply_ratings. act_unfold.
  rewrite Hon, Hratings. cbv beta iota zeta.
  unfold _gs_app_get_reviewable_ids. rewrite Hid, Hprov.
  cbn [provided_id_items map concat accumulate_ratings].
  pose proof (ratings_search_post all (mkGsOdrsRating (Some id) zero_ratings)
                Hlen Hsorted) as Hpost.
  destruct (g_array_binary_search rating_compare all _) as [i | | i |];
    cbn [search_post] in Hpost; try done.
  2:{ destruct (Hpost r0 Hr0). apply g_strcmp0_eq. by rewrite Hr0id. }
  destruct Hpost as (_ & elt & Hi & Hcmp). apply g_strcmp0_eq in Hcmp.
  cbn [rating_app_id] in Hcmp. rewrite Hi.
  change (default (mkGsOdrsRating (Some id) zero_ratings) (Some elt)) with elt.
  set (counts := add_star_ratings zero_ratings (n_star_ratings elt)).
  assert (length counts = 6%nat) as Hsix.
  { unfold counts, add_star_ratings, zero_ratings.
    rewrite length_zip_with, length_take, length_app.
    change (length [0; 0; 0; 0; 0; 0]) with 6%nat. lia. }
  assert (elt ∈ all) as Helt by (apply list_elem_of_lookup; by exists (Z.to_nat i)).
  set (wilson := gs_utils_get_wilson_rating h _ _ _ _ _).
  change (guint_add 0 1 =? 0) with false. cbv beta iota zeta.
  destruct (0 <? wilson) eqn:Hw.
  - eexists elt, _. split; [done |]. split; [done |]. split; [reflexivity |].
    split; [done |]. cbv zeta. fold counts. fold wilson. rewrite Hw.
    split; [done |].
    rewrite app_at_alter by (cbn [apps with_apps]; by rewrite length_alter).
    rewrite app_at_alter by done. done.
  - eexists elt, _. split; [done |]. split; [done |]. split; [reflexivity |].
    split; [done |]. cbv zeta. fold counts. fold wilson. rewrite Hw.
    split; [done |].
    rewrite app_at_alter by done. done.
Qed.

Lemma apply_ratings_quiet (h : Host) (app : nat) (all : list GsOdrsRating)
    (s : State) :
  fst (apply_ratings h app all s) = Ok tt /\
  calls (snd (apply_ratings h app all s)) = calls s.
Proof.
  unfold apply_ratings. act_unfold.
  destruct (accumulate_ratings all _ zero_ratings 0) as [review_ratings cnt].
  destruct (cnt =? 0); [done |]. by destruct (0 <? _).
Qed.

Lemma load_ratings_calls (h : Host) (fn : string) (s : State) :
  calls (snd (gs_plugin_odrs_load_ratings h fn s)) = calls s ++ [ParseJsonFile fn].
Proof.
  unfold gs_plugin_odrs_load_ratings, ask_result, fail_with, act_fail.
  by destruct (json_parser_load_from_file h (calls s) fn)
    as [[[| | | | |] |] |].
Qed.

Lemma refine_ratings_quiet (h : Host) (app : nat) (s : State) :
  fst (gs_plugin_odrs_refine_ratings h app s) = Ok tt /\
  exists made, calls (snd (gs_plugin_odrs_refine_ratings h app s)) = calls s ++ made /\
               forallb (fun c => negb (is_network_call c)) made = true.
Proof.
  unfold gs_plugin_odrs_refine_ratings. act_unfold.
  destruct (server_disabled s).
  { split; [done |]. exists []. by rewrite app_nil_r. }
  destruct (ratings s) as [all |].
  { destruct (apply_ratings_quiet h app all s) as [Hok Hcalls].
    split; [done |]. exists []. by rewrite app_nil_r. }
  destruct (gs_utils_get_cache_filename h (calls s) "odrs" "ratings.json")
    as [cache_filename |]; cbn [fst snd].
  2:{ split; [done |]. by exists [GetCacheFilename "odrs" "ratings.json"]. }
  pose proof (load_ratings_calls h cache_filename
                (with_calls (calls s ++ [GetCacheFilename "odrs" "ratings.json"]) s))
    as Hload.
  destruct (gs_plugin_odrs_load_ratings h cache_filename _) as [[[] | e] s1];
    cbn [fst snd calls with_calls] in *.
  2:{ split; [done |].
      exists [GetCacheFilename "odrs" "ratings.json"; ParseJsonFile cache_filename].
      by rewrite Hload, <- app_assoc. }
  destruct (ratings s1) as [all |].
  2:{ split; [done |]. cbn [snd].
      exists [GetCacheFilename "odrs" "ratings.json"; ParseJsonFile cache_filename].
      by rewrite Hload, <- app_assoc. }
  destruct (apply_ratings_quiet h app all s1) as [Hok Hcalls].
  split; [done |].
  exists [GetCacheFilename "odrs" "ratings.json"; ParseJsonFile cache_filename].
  by rewrite Hcalls, Hload, <- app_assoc.
Qed.

Lemma refine_app_ratings_only (h : Host) (app : nat) (flags : Z) (s : State) :
  has_flag flags GS_PLUGIN_REFINE_FLAGS_REQUIRE_REVIEWS = false ->
  fst (refine_app h app flags s) = Ok tt /\
  exists made, calls (snd (refine_app h app flags s)) = calls s ++ made /\
               forallb (fun c => negb (is_network_call c)) made = true.
Proof.
  intros Hflag.
  assert (fst (@pair (Result unit) State (Ok tt) s) = Ok tt /\
          exists made, calls (snd (@pair (Result unit) State (Ok tt) s))
                       = calls s ++ made /\
                       forallb (fun c => negb (is_network_call c)) made = true)
    as Hskip.
  { split; [done |]. exists []. by rewrite app_nil_r. }
  unfold refine_app, refine_app_ratings. act_unfold. rewrite Hflag.
  destruct (bool_decide (app_kind _ = _)); [done |].
  destruct (bool_decide (app_id _ = _)); [done |].
  destruct (_ || _); [| done].
  destruct (app_review_ratings _); [done |].
  apply refine_ratings_quiet.
Qed.

(** X6: a refine job that does not ask for reviews never fails and never
    goes to the network, whatever the cache holds and whatever apps it is
    given: ratings are looked up in the local ratings file only. *)
Theorem refine_without_reviews_is_local (h : Host) (app_list : list nat)
    (flags : Z) (s : State) :
  has_flag flags GS_PLUGIN_REFINE_FLAGS_REQUIRE_REVIEWS = false ->
  fst (gs_plugin_refine h app_list flags s) = Ok tt /\
  forallb (fun c => negb (is_network_call c))
          (calls_since s (snd (gs_plugin_refine h app_list flags s))) = true.
Proof.
  intros Hflag.
  assert (forall st : State,
            fst (act_iter (refine_list_entry h flags) app_list st) = Ok tt /\
            exists made,
              calls (snd (act_iter (refine_list_entry h flags) app_list st))
              = calls st ++ made /\
              forallb (fun c => negb (is_network_call c)) made = true) as Hloop.
  { induction app_list as [| app rest IH]; intros st.
    - split; [done |]. exists []. by rewrite app_nil_r.
    - rewrite act_iter_cons, refine_list_entry_unfold.
      destruct (refine_app_ratings_only h app flags st Hflag) as (Hok & made & Hmade & Hq).
      destruct (refine_app h app flags st) as [[[] | e] st']; [| done].
      cbn [fst snd] in *.
      destruct (IH st') as (Hok' & made' & Hmade' & Hq').
      split; [done |]. exists (made ++ made').
      rewrite Hmade', Hmade, <- app_assoc. split; [done |].
      by rewrite forallb_app, Hq, Hq'. }
  unfold gs_plugin_refine, calls_since.
  destruct (Z.land flags _ =? 0).
  - split; [done |]. cbn [snd mret act_ret]. unfold mret, act_ret. cbn [snd].
    by rewrite drop_all.
  - destruct (Hloop s) as (Hok & made & Hmade & Hq).
    split; [done |]. by rewrite Hmade, drop_app_length.
Qed.

End RatingLookup.

(** ** Fetching and refining reviews *)

Section FetchReviews.
Import GLib Gs Odrs Notions.

Variable h : Host.

Lemma with_calls_nil (s : State) : with_calls (calls s ++ []) s = s.
Proof. destruct s. unfold with_calls. cbn. by rewrite app_nil_r. Qed.

Lemma with_calls_twice (made made' : list Call) (s : State) :
  with_calls made (with_calls made' s) = with_calls made s.
Proof. done. Qed.

(** The two ways [gs_plugin_odrs_fetch_for_app] ends: without writing the
    cache, or with the write as its last step after a reply of status 200
    whose body parsed as reviews. *)
Lemma fetch_for_app_cases (app : nat) (s : State) :
  let r := gs_plugin_odrs_fetch_for_app h app s in
  (exists made, snd r = with_calls (calls s ++ made) s /\
                existsb is_cache_write made = false) \/
  (exists cachefn reviews,
     let basename := cache_basename (app_id (app_at app s)) in
     let uri := server_uri s "/fetch" in
     let asked := calls s ++ [GetCacheFilename "odrs" basename; GetFileAge cachefn] in
     let reply := soup_session_send_message h asked "POST" uri in
     let sent := asked ++ [SoupSend "POST" uri] in
     status_code reply = SOUP_STATUS_OK /\
     fst (gs_plugin_odrs_parse_reviews h (response_body reply) (with_calls sent s))
       = Ok reviews /\
     snd r = with_calls (sent ++ [SetFileContents cachefn]) s /\
     fst r = match g_file_set_contents h sent cachefn with
             | Ok _ => Ok reviews
             | Fail e => Fail e
             end).
Proof.
  cbv zeta.
  remember (gs_plugin_odrs_fetch_for_app h app s) as r eqn:Hr.
  unfold gs_plugin_odrs_fetch_for_app in Hr.
  unfold ask, ask_result, get_app, fail_with in Hr.
  unfold mbind, mret, act_bind, act_ret, act_get, act_gets, act_fail in Hr.
  cbv beta iota zeta in Hr.
  destruct (server_disabled s).
  { left. exists []. subst r. by rewrite with_calls_nil. }
  set (basename := cache_basename (app_id (app_at app s))) in *.
  destruct (gs_utils_get_cache_filename h (calls s) "odrs" basename)
    as [cachefn |]; cbn [fst snd calls with_calls] in Hr.
  2:{ left. exists [GetCacheFilename "odrs" basename]. by subst r. }
  assert (((calls s ++ [GetCacheFilename "odrs" basename]) ++ [GetFileAge cachefn])
          = calls s ++ [GetCacheFilename "odrs" basename; GetFileAge cachefn])
    as Hasked by (by rewrite <- app_assoc).
  destruct (gs_utils_get_file_age h _ cachefn <? ODRS_REVIEW_CACHE_AGE_MAX).
  - left. exists [GetCacheFilename "odrs" basename; GetFileAge cachefn; MapFile cachefn].
    split; [| done].
    assert (calls s ++ [GetCacheFilename "odrs" basename; GetFileAge cachefn;
                        MapFile cachefn]
            = ((calls s ++ [GetCacheFilename "odrs" basename])
               ++ [GetFileAge cachefn]) ++ [MapFile cachefn]) as ->
      by (by rewrite <- !app_assoc).
    destruct (g_mapped_file_new h _ cachefn) as [contents |];
      cbn [fst snd calls with_calls] in Hr; [| by subst r].
    match type of Hr with
    | context [gs_plugin_odrs_parse_reviews ?h ?d ?st] =>
        pose proof (parse_reviews_state h d st) as Hst;
        destruct (gs_plugin_odrs_parse_reviews h d st) as [r' st']
    end.
    cbn [snd] in Hst. subst st'. destruct r'; by subst r.
  - set (uri := server_uri s "/fetch") in *.
    cbn [fst snd calls with_calls] in Hr.
    rewrite !with_calls_twice, !Hasked in Hr.
    set (asked := calls s ++ [GetCacheFilename "odrs" basename; GetFileAge cachefn])
      in *.
    set (reply := soup_session_send_message h asked "POST" uri) in *.
    destruct (status_code reply =? SOUP_STATUS_OK) eqn:Hstatus;
      cbn [negb] in Hr; cbv beta iota in Hr.
    + apply Z.eqb_eq in Hstatus.
      match type of Hr with
      | context [gs_plugin_odrs_parse_reviews ?h ?d ?st] =>
          pose proof (parse_reviews_state h d st) as Hst;
          destruct (gs_plugin_odrs_parse_reviews h d st) as [r' st'] eqn:Hparse
      end.
      cbn [snd] in Hst. subst st'.
      destruct r' as [reviews | e].
      * right. exists cachefn, reviews. fold basename. fold uri.
        fold asked. fold reply.
        split; [done |]. split.
        { by rewrite Hparse. }
        cbn [fst snd calls with_calls] in Hr.
        destruct (g_file_set_contents h _ cachefn); by subst r.
      * left. exists [GetCacheFilename "odrs" basename; GetFileAge cachefn;
                      SoupSend "POST" uri].
        split; [| done]. subst r. cbn [snd].
        assert (calls s ++ [GetCacheFilename "odrs" basename; GetFileAge cachefn;
                            SoupSend "POST" uri]
                = asked ++ [SoupSend "POST" uri]) as ->
          by (subst asked; by rewrite <- !app_assoc).
        done.
    + match type of Hr with
      | context [gs_plugin_odrs_parse_success ?h ?d ?st] =>
          pose proof (parse_success_state h d st) as Hst;
          destruct (gs_plugin_odrs_parse_success h d st) as [r' st']
      end.
      cbn [snd] in Hst. subst st'. left.
      exists [GetCacheFilename "odrs" basename; GetFileAge cachefn;
              SoupSend "POST" uri].
      split; [| done].
      assert (calls s ++ [GetCacheFilename "odrs" basename; GetFileAge cachefn;
                          SoupSend "POST" uri]
              = asked ++ [SoupSend "POST" uri]) as ->
        by (subst asked; by rewrite <- !app_assoc).
      destruct r' as [[] | e]; by subst r.
Qed.

(** X7: the review cache of an app is written only as the last step of a
    fetch, after the server answered with status 200 and a body that
    parsed as reviews; the fetch then hands back these reviews, or the
    failure of the write.  A reply that was refused or could not be parsed
    never reaches the cache. *)
Theorem fetch_caches_only_parsed_replies (app : nat) (s : State) :
  let r := gs_plugin_odrs_fetch_for_app h app s in
  existsb is_cache_write (calls_since s (snd r)) = true ->
  exists cachefn reviews,
    let basename := cache_basename (app_id (app_at app s)) in
    let uri := server_uri s "/fetch" in
    let asked := calls s ++ [GetCacheFilename "odrs" basename; GetFileAge cachefn] in
    let reply := soup_session_send_message h asked "POST" uri in
    let sent := asked ++ [SoupSend "POST" uri] in
    status_code reply = SOUP_STATUS_OK /\
    fst (gs_plugin_odrs_parse_reviews h (response_body reply) (with_calls sent s))
      = Ok reviews /\
    calls (snd r) = sent ++ [SetFileContents cachefn] /\
    fst r = match g_file_set_contents h sent cachefn with
            | Ok _ => Ok reviews
            | Fail e => Fail e
            end.
Proof.
  intros r Hwrite.
  destruct (fetch_for_app_cases app s) as [(made & Hsnd & Hnone) | Hgood].
  - exfalso. subst r. unfold calls_since in Hwrite. rewrite Hsnd in Hwrite.
    cbn [calls with_calls] in Hwrite. rewrite drop_app_length in Hwrite. congruence.
  - destruct Hgood as (cachefn & reviews & Hstatus & Hparse & Hsnd & Hfst).
    exists cachefn, reviews. subst r. split; [done |]. split; [done |].
    split; [by rewrite Hsnd | done].
Qed.

Lemma set_metadata_reviews (key : string) (value : option string) (a : GsApp) :
  app_reviews (gs_app_set_metadata key value a) = app_reviews a.
Proof.
  unfold gs_app_set_metadata. destruct value; [| done].
  by destruct (app_metadata a !! key).
Qed.

Lemma refine_each_review_reviews (uh : option string) (reviews : list AsReview) :
  forall (i : nat) (a : GsApp),
  app_reviews (refine_each_review uh i reviews a)
  = app_reviews a ++
    map (fun review => if bool_decide (review_reviewer_id review = uh)
                       then as_review_set_flags AS_REVIEW_FLAG_SELF review
                       else review)
        (filter (fun review => review_rating review <> 0) reviews).
Proof.
  induction reviews as [| review rest IH]; intros i a.
  - cbn. by rewrite app_nil_r.
  - cbn [refine_each_review]. rewrite IH. unfold refine_one_review.
    assert (forall a0, app_reviews
              (if bool_decide (i = 0%nat)
               then gs_app_set_metadata "ODRS::user_skey"
                      (as_review_get_metadata_item review "user_skey") a0
               else a0) = app_reviews a0) as Hkey.
    { intros a0. destruct (bool_decide (i = 0%nat)); [| done].
      apply set_metadata_reviews. }
    destruct (review_rating review =? 0) eqn:Hzero.
    + apply Z.eqb_eq in Hzero. rewrite Hkey.
      by rewrite filter_cons_False by (intros Hne; by apply Hne).
    + apply Z.eqb_neq in Hzero. rewrite filter_cons_True by done.
      unfold gs_app_add_review. cbn [app_reviews with_app_reviews map].
      rewrite Hkey, <- app_assoc. f_equal. cbn [app]. f_equal.
      destruct (g_strcmp0 (review_reviewer_id review) uh =? 0) eqn:Hself.
      * apply Z.eqb_eq, g_strcmp0_eq in Hself. by rewrite bool_decide_eq_true_2.
      * apply Z.eqb_neq in Hself. rewrite bool_decide_eq_false_2; [done |].
        intros Heq. by apply Hself, g_strcmp0_eq.
Qed.

(** X8: when the reviews of an app were fetched, refining them succeeds
    and appends to the reviews of the app, in the order fetched, exactly
    the fetched reviews whose rating is not 0; a review by this machine's
    user hash is appended with its flags replaced by SELF, every other one
    as fetched.  No other app changes. *)
Theorem refine_reviews_keeps_rated_reviews (app : nat) (s : State)
    (reviews : list AsReview) :
  fst (gs_plugin_odrs_fetch_for_app h app s) = Ok reviews ->
  (app < length (apps s))%nat ->
  exists s',
    gs_plugin_odrs_refine_reviews h app s = (Ok tt, s') /\
    app_reviews (app_at app s')
    = app_reviews (app_at app s) ++
      map (fun review => if bool_decide (review_reviewer_id review = user_hash s)
                         then as_review_set_flags AS_REVIEW_FLAG_SELF review
                         else review)
          (filter (fun review => review_rating review <> 0) reviews) /\
    forall other, other <> app -> apps s' !! other = apps s !! other.
Proof.
  intros Hfetch Hptr.
  assert (exists made, snd (gs_plugin_odrs_fetch_for_app h app s)
                       = with_calls made s) as [made Hsnd].
  { destruct (fetch_for_app_cases app s) as [(made & Hsnd & _) | Hgood].
    - by exists (calls s ++ made).
    - destruct Hgood as (cachefn & rs & _ & _ & Hsnd & _). eauto. }
  unfold gs_plugin_odrs_refine_reviews. act_unfold.
  destruct (gs_plugin_odrs_fetch_for_app h app s) as [r s1].
  cbn [fst snd] in *. subst r s1.
  eexists. split; [reflexivity |]. split.
  - change (user_hash (with_calls made s)) with (user_hash s).
    change (apps (with_calls made s)) with (apps s).
    pose proof (app_at_alter (refine_each_review (user_hash s) 0 reviews) app s Hptr)
      as Halter.
    unfold app_at in *. cbn [apps with_apps with_calls] in *.
    rewrite Halter. apply refine_each_review_reviews.
  - intros other Hother. cbn [apps with_apps with_calls].
    by rewrite list_lookup_alter_ne.
Qed.

Lemma act_iter_app {A} (body : A -> M unit) (xs ys : list A) (s : State) :
  act_iter body (xs ++ ys) s =
  match act_iter body xs s with
  | (Ok _, s') => act_iter body ys s'
  | (Fail e, s') => (Fail e, s')
  end.
Proof.
  revert s. induction xs as [| x xs IH]; intros s; [done |].
  cbn [app]. rewrite !act_iter_cons.
  destruct (body x s) as [[[] | e] s']; [apply IH | done].
Qed.

(** X9: the loop of [gs_plugin_refine] ends at the first app whose
    refining fails for another reason than an absent network: the job
    fails with that error, in the state that app left, and the apps after
    it in the list are not refined. *)
Theorem refine_stops_at_first_hard_failure (pre post : list nat) (app : nat)
    (flags : Z) (s s2 : State) (e : option GError) :
  has_flag flags (Z.lor GS_PLUGIN_REFINE_FLAGS_REQUIRE_REVIEWS
                    (Z.lor GS_PLUGIN_REFINE_FLAGS_REQUIRE_REVIEW_RATINGS
                           GS_PLUGIN_REFINE_FLAGS_REQUIRE_RATING)) = true ->
  (forall p a q e', pre = p ++ a :: q ->
     fst (refine_app h a flags
            (snd (act_iter (refine_list_entry h flags) p s))) = Fail e' ->
     g_error_matches e' GS_PLUGIN_ERROR (PluginCode GS_PLUGIN_ERROR_NO_NETWORK) = true) ->
  refine_app h app flags
    (foldl (fun st a => snd (refine_app h a flags st)) s pre) = (Fail e, s2) ->
  g_error_matches e GS_PLUGIN_ERROR (PluginCode GS_PLUGIN_ERROR_NO_NETWORK) = false ->
  gs_plugin_refine h (pre ++ app :: post) flags s = (Fail e, s2).
Proof.
  intros Hflags Hpre Happ Hhard.
  unfold gs_plugin_refine. unfold has_flag in Hflags.
  apply negb_true_iff in Hflags. rewrite Hflags.
  rewrite act_iter_app, (refine_loop_survives_no_network h flags pre s Hpre).
  by rewrite act_iter_cons, refine_list_entry_unfold, Happ, Hhard.
Qed.

End FetchReviews.

(** ** Submitting and voting *)

Section Voting.
Import GLib Gs Odrs Notions.

Variable h : Host.

(** A POST that succeeds was answered with status 200 and an object whose
    member "success" is true. *)
Lemma json_post_acknowledged (uri : string) (s : State) :
  let reply := soup_session_send_message h (calls s) "POST" uri in
  snd (gs_plugin_odrs_json_post h uri s) = with_calls (calls s ++ [SoupSend "POST" uri]) s /\
  (fst (gs_plugin_odrs_json_post h uri s) = Ok tt ->
   status_code reply = SOUP_STATUS_OK /\
   exists text json_item,
     response_body reply = Some text /\
     json_parser_load_from_data h text = Ok (Some (JsonObject json_item)) /\
     json_object_get_boolean_member json_item "success" = true).
Proof.
  cbv zeta. unfold gs_plugin_odrs_json_post. act_unfold.
  set (reply := soup_session_send_message h (calls s) "POST" uri).
  destruct (status_code reply =? SOUP_STATUS_OK) eqn:Hstatus; cbn [negb].
  2:{ split; [done | by intros [=]]. }
  apply Z.eqb_eq in Hstatus.
  match goal with
  | |- context [gs_plugin_odrs_parse_success ?h ?d ?st] =>
      pose proof (parse_success_state h d st) as Hst
  end.
  split; [done |]. intros Hok. split; [done |].
  unfold gs_plugin_odrs_parse_success, no_data_error in Hok.
  unfold fail_with, mbind, mret, act_bind, act_ret, act_get, act_fail in Hok.
  cbv beta iota zeta in Hok.
  destruct (response_body reply) as [text |] eqn:Hbody.
  2:{ by destruct (negb _). }
  destruct (json_parser_load_from_data h text) as [[[| | | | | json_item] |] |]
    eqn:Hload; try done.
  destruct (json_object_get_boolean_member json_item "success") eqn:Hsuccess;
    [| done].
  by exists text, json_item.
Qed.

(** What [gs_plugin_odrs_invalidate_cache] asks stays on the machine. *)
Lemma invalidate_cache_local (review : AsReview) (s : State) :
  exists made,
    snd (gs_plugin_odrs_invalidate_cache h review s) = with_calls (calls s ++ made) s /\
    forallb (fun c => negb (is_network_call c)) made = true.
Proof.
  unfold gs_plugin_odrs_invalidate_cache. act_unfold.
  set (basename := cache_basename (as_review_get_metadata_item review "app_id")).
  destruct (gs_utils_get_cache_filename h (calls s) "odrs" basename) as [cachefn |];
    cbn [fst snd calls with_calls].
  2:{ by exists [GetCacheFilename "odrs" basename]. }
  destruct (g_file_query_exists h _ cachefn); cbn [negb].
  - exists [GetCacheFilename "odrs" basename; QueryFileExists cachefn;
            DeleteFile cachefn].
    split; [| done].
    destruct (g_file_delete h _ cachefn); cbn [snd calls with_calls];
      rewrite !with_calls_twice; by rewrite <- !app_assoc.
  - exists [GetCacheFilename "odrs" basename; QueryFileExists cachefn].
    split; [| done]. cbn [snd]. rewrite !with_calls_twice. by rewrite <- !app_assoc.
Qed.

(** X10: voting on a review (report, upvote, downvote, dismiss, remove)
    clears the review cache of the app before it talks to the server.
    When clearing the cache fails, the vote fails with that error and
    nothing is sent.  A vote that succeeds marks the review as VOTED, and
    it succeeds only when the server answered the POST, the last call
    made, with status 200 and an object whose "success" member is
    true. *)
Theorem vote_clears_cache_then_posts (review : AsReview) (path : string) (s : State) :
  server_disabled s = false ->
  let uri := server_uri s (String.append "/" path) in
  let cleared := gs_plugin_odrs_invalidate_cache h review s in
  let voted := gs_plugin_odrs_vote h review path s in
  (forall e, fst cleared = Fail e ->
     voted = (Fail e, snd cleared) /\
     forallb (fun c => negb (is_network_call c)) (calls_since s (snd voted)) = true) /\
  (forall review', fst voted = Ok review' ->
     review' = as_review_add_flags AS_REVIEW_FLAG_VOTED review /\
     let reply := soup_session_send_message h (calls (snd cleared)) "POST" uri in
     calls (snd voted) = calls (snd cleared) ++ [SoupSend "POST" uri] /\
     status_code reply = SOUP_STATUS_OK /\
     exists text json_item,
       response_body reply = Some text /\
       json_parser_load_from_data h text = Ok (Some (JsonObject json_item)) /\
       json_object_get_boolean_member json_item "success" = true).
Proof.
  intros Hon uri cleared voted. subst voted.
  unfold gs_plugin_odrs_vote. act_unfold. rewrite Hon. fold uri. fold cleared.
  destruct (invalidate_cache_local review s) as (made & Hmade & Hlocal).
  fold cleared in Hmade.
  destruct cleared as [[[] | e0] s1]; cbn [fst snd] in *.
  - split; [by intros e [=] |].
    destruct (json_post_acknowledged uri s1) as [Hsnd Hack].
    destruct (gs_plugin_odrs_json_post h uri s1) as [[[] | e1] s2];
      cbn [fst snd] in *; [| by intros review' [=]].
    intros review' [= <-]. split; [done |]. split; [by rewrite Hsnd |].
    by apply Hack.
  - split; [| by intros review' [=]].
    intros e [= <-]. split; [done |]. unfold calls_since. rewrite Hmade.
    cbn [calls with_calls]. by rewrite drop_app_length.
Qed.

(** X11: submitting a review clears the review cache of the app before
    it talks to the server, and nothing is sent when that fails.  The
    review handed back on success is the one given with the SELF flag
    added, the real name of the user as reviewer name, and the id and the
    "ODRS::user_skey" of the app in its metadata; it is handed back only
    when the server answered the POST to /submit with status 200 and an
    object whose "success" member is true. *)
Theorem submit_clears_cache_then_posts (app : nat) (review : AsReview) (s : State) :
  server_disabled s = false ->
  let a := app_at app s in
  let sent_review :=
    as_review_add_metadata "user_skey" (gs_app_get_metadata_item a "ODRS::user_skey")
      (as_review_add_metadata "app_id" (app_id a)
         (as_review_set_reviewer_name (Some (g_get_real_name h))
            (as_review_add_flags AS_REVIEW_FLAG_SELF review))) in
  let uri := server_uri s "/submit" in
  let cleared := gs_plugin_odrs_invalidate_cache h sent_review s in
  let submitted := gs_plugin_review_submit h app review s in
  (forall e, fst cleared = Fail e ->
     submitted = (Fail e, snd cleared) /\
     forallb (fun c => negb (is_network_call c)) (calls_since s (snd submitted)) = true) /\
  (forall review', fst submitted = Ok review' ->
     review' = sent_review /\
     let reply := soup_session_send_message h (calls (snd cleared)) "POST" uri in
     calls (snd submitted) = calls (snd cleared) ++ [SoupSend "POST" uri] /\
     status_code reply = SOUP_STATUS_OK /\
     exists text json_item,
       response_body reply = Some text /\
       json_parser_load_from_data h text = Ok (Some (JsonObject json_item)) /\
       json_object_get_boolean_member json_item "success" = true).
Proof.
  intros Hon a sent_review uri cleared submitted. subst submitted.
  unfold gs_plugin_review_submit. act_unfold. rewrite Hon.
  fold a. fold sent_review. fold uri. fold cleared.
  destruct (invalidate_cache_local sent_review s) as (made & Hmade & Hlocal).
  fold cleared in Hmade.
  destruct cleared as [[[] | e0] s1]; cbn [fst snd] in *.
  - split; [by intros e [=] |].
    destruct (json_post_acknowledged uri s1) as [Hsnd Hack].
    destruct (gs_plugin_odrs_json_post h uri s1) as [[[] | e1] s2];
      cbn [fst snd] in *; [| by intros review' [=]].
    intros review' [= <-]. split; [done |]. split; [by rewrite Hsnd |].
    by apply Hack.
  - split; [| by intros review' [=]].
    intros e [= <-]. split; [done |]. unfold calls_since. rewrite Hmade.
    cbn [calls with_calls]. by rewrite drop_app_length.
Qed.

End Voting.

(** ** The ODRS plugin on further concrete inputs *)

Section OdrsScenarios.
Import GLib Gs Odrs BinarySearch Notions Examples Scenarios.

Lemma parse_reviews_one_per_reviewer_witness :
  let h := review_server 0 200 fetched_reply false true in
  let s := rated_state [] in
  exists reviews,
    fst (gs_plugin_odrs_parse_reviews h (Some "reply"%string) s) = Ok reviews /\
    length reviews = 3%nat /\
    NoDup (review_reviewer_id <$> reviews).
Proof.
  intros h s.
  destruct (gs_plugin_odrs_parse_reviews h (Some "reply"%string) s)
    as [[reviews | e] s'] eqn:Hrun; [| vm_compute in Hrun; discriminate].
  exists reviews. split; [done |]. split.
  - vm_compute in Hrun. by injection Hrun as <- _.
  - destruct (parse_reviews_one_per_reviewer h (Some "reply"%string) s reviews)
      as (text & json & _ & _ & Hnodup & _); [by rewrite Hrun | done].
Defined.

Lemma parse_reviews_all_or_nothing_witness :
  let document := JsonArray [JsonObject [("user_hash", JsonString "u1")]%string;
                             JsonInt 3] in
  let h := review_server 0 200 document false true in
  let s := rated_state [] in
  gs_plugin_odrs_parse_reviews h (Some "reply"%string) s
  = (Fail (Some (plugin_error GS_PLUGIN_ERROR_INVALID_FORMAT)), s).
Proof.
  intros document h s.
  apply (parse_reviews_all_or_nothing h "reply"
           [JsonObject [("user_hash", JsonString "u1")]%string; JsonInt 3] s eq_refl).
  exists (JsonInt 3). split; [by right; left | done].
Defined.

Lemma loaded_ratings_lookup_witness :
  let h := review_server 0 200 fetched_reply false true in
  let s := odrs_state example_server [] in
  exists all,
    gs_plugin_odrs_load_ratings h "/cache/ratings.json" s
    = (Ok tt, with_ratings (Some all)
                (with_calls (calls s ++ [ParseJsonFile "/cache/ratings.json"]) s)) /\
    all ≡ₚ parse_each_app ratings_file /\
    forall id,
      match g_array_binary_search rating_compare all
              (mkGsOdrsRating (Some id) zero_ratings) with
      | Match i =>
          exists obj counts, (id, JsonObject obj) ∈ ratings_file /\
            load_star_ratings obj star_names = Some counts /\
            all !! Z.to_nat i = Some (mkGsOdrsRating (Some id) counts)
      | NoMatch =>
          forall obj, (id, JsonObject obj) ∈ ratings_file ->
                      load_star_ratings obj star_names = None
      | BadRead _ | LoopBudget => False
      end.
Proof.
  intros h s.
  apply (loaded_ratings_lookup h "/cache/ratings.json" s ratings_file).
  - reflexivity.
  - vm_compute. discriminate.
Defined.

(** The ratings of the file as they stand in [priv->ratings], and the
    three outcomes of looking an id up. *)
Example loaded_ratings_run :
  sorted_ratings
  = [mkGsOdrsRating (Some "org.example.App"%string) [1; 0; 0; 2; 10; 30];
     mkGsOdrsRating (Some "org.example.Editor"%string) [0; 1; 2; 3; 4; 50]] /\
  g_array_binary_search rating_compare sorted_ratings
    (mkGsOdrsRating (Some "org.example.Editor"%string) zero_ratings) = Match 1 /\
  g_array_binary_search rating_compare sorted_ratings
    (mkGsOdrsRating (Some "org.example.Broken"%string) zero_ratings) = NoMatch /\
  g_array_binary_search rating_compare sorted_ratings
    (mkGsOdrsRating None zero_ratings) = NoMatch.
Proof. vm_compute. repeat split. Qed.

Lemma sorted_ratings_elem (r : GsOdrsRating) :
  r ∈ sorted_ratings ->
  rating_app_id r = Some "org.example.App"%string \/
  rating_app_id r = Some "org.example.Editor"%string.
Proof.
  intros Hr.
  assert (sorted_ratings
          = [mkGsOdrsRating (Some "org.example.App"%string) [1; 0; 0; 2; 10; 30];
             mkGsOdrsRating (Some "org.example.Editor"%string) [0; 1; 2; 3; 4; 50]])
    as Heq by (vm_compute; reflexivity).
  rewrite Heq in Hr.
  apply elem_of_cons in Hr as [-> | Hr]; [by left |].
  apply elem_of_cons in Hr as [-> | Hr]; [by right |].
  by apply elem_of_nil in Hr.
Qed.

Lemma unrated_app_untouched_witness :
  let h := review_server 0 200 fetched_reply false true in
  let s := rated_state [unrated_app] in
  gs_plugin_odrs_refine_ratings h 0 s = (Ok tt, s).
Proof.
  intros h s.
  apply (unrated_app_untouched h 0 s sorted_ratings).
  - reflexivity.
  - reflexivity.
  - vm_compute. discriminate.
  - apply loaded_ratings_sorted.
  - intros id r Hid Hr.
    apply elem_of_cons in Hid as [-> | Hid]; [| by apply elem_of_nil in Hid].
    destruct (sorted_ratings_elem r Hr) as [-> | ->]; discriminate.
Defined.

Lemma rated_app_gets_counts_witness :
  let h := review_server 0 200 fetched_reply false true in
  let s := rated_state [example_app [] None] in
  exists r s',
    r ∈ sorted_ratings /\ rating_app_id r = Some "org.example.App"%string /\
    gs_plugin_odrs_refine_ratings h 0 s = (Ok tt, s') /\
    calls s' = calls s /\
    let counts := add_star_ratings zero_ratings (n_star_ratings r) in
    let wilson := gs_utils_get_wilson_rating h
                    (nth_rating counts 1) (nth_rating counts 2)
                    (nth_rating counts 3) (nth_rating counts 4)
                    (nth_rating counts 5) in
    length counts = 6%nat /\
    app_review_ratings (app_at 0 s') = Some counts /\
    app_rating (app_at 0 s')
    = if 0 <? wilson then wilson else app_rating (app_at 0 s).
Proof.
  intros h s.
  apply (rated_app_gets_counts h 0 s sorted_ratings "org.example.App").
  - reflexivity.
  - reflexivity.
  - vm_compute. discriminate.
  - apply loaded_ratings_sorted.
  - simpl. lia.
  - reflexivity.
  - reflexivity.
  - exists (mkGsOdrsRating (Some "org.example.App"%string) [1; 0; 0; 2; 10; 30]).
    split; [| reflexivity].
    assert (sorted_ratings
            = [mkGsOdrsRating (Some "org.example.App"%string) [1; 0; 0; 2; 10; 30];
               mkGsOdrsRating (Some "org.example.Editor"%string) [0; 1; 2; 3; 4; 50]])
      as -> by (vm_compute; reflexivity).
    by left.
Defined.

Lemma refine_without_reviews_is_local_witness :
  let h := odrs_host false false 0 in
  let s := odrs_state example_server [example_app [] None; unrated_app] in
  let flags := GS_PLUGIN_REFINE_FLAGS_REQUIRE_RATING in
  fst (gs_plugin_refine h [0; 1]%nat flags s) = Ok tt /\
  forallb (fun c => negb (is_network_call c))
          (calls_since s (snd (gs_plugin_refine h [0; 1]%nat flags s))) = true.
Proof.
  intros h s flags.
  apply (refine_without_reviews_is_local h [0; 1]%nat flags s).
  reflexivity.
Defined.

Lemma fetch_caches_only_parsed_replies_witness :
  let h := review_server 300000 200 fetched_reply false true in
  let s := rated_state [example_app [] None] in
  let r := gs_plugin_odrs_fetch_for_app h 0 s in
  exists cachefn reviews,
    calls (snd r)
    = (calls s ++ [GetCacheFilename "odrs" "org.example.App.json"; GetFileAge cachefn])
      ++ [SoupSend "POST" (server_uri s "/fetch")] ++ [SetFileContents cachefn] /\
    fst r = Ok reviews.
Proof.
  intros h s r.
  destruct (fetch_caches_only_parsed_replies h 0 s)
    as (cachefn & reviews & _ & _ & Hcalls & Hfst).
  - vm_compute. reflexivity.
  - exists cachefn, reviews. split.
    + subst r. rewrite Hcalls. by rewrite <- !app_assoc.
    + subst r. rewrite Hfst. reflexivity.
Defined.

(** A reply that the server refused reaches neither the caller nor the
    cache. *)
Example refused_reply_is_not_cached :
  let h := review_server 300000 500 fetched_reply false true in
  let s := rated_state [example_app [] None] in
  let r := gs_plugin_odrs_fetch_for_app h 0 s in
  is_ok (fst r) = false /\
  existsb is_cache_write (calls_since s (snd r)) = false.
Proof. vm_compute. by split. Qed.

Lemma refine_reviews_keeps_rated_reviews_witness :
  let h := review_server 300000 200 fetched_reply false true in
  let s := rated_state [example_app [] None] in
  exists s',
    gs_plugin_odrs_refine_reviews h 0 s = (Ok tt, s') /\
    (review_rating <$> app_reviews (app_at 0 s')) = [80; 100] /\
    (review_flags <$> app_reviews (app_at 0 s')) = [0; AS_REVIEW_FLAG_SELF].
Proof.
  intros h s.
  destruct (gs_plugin_odrs_fetch_for_app h 0 s) as [[reviews | e] s1] eqn:Hrun;
    [| vm_compute in Hrun; discriminate].
  destruct (refine_reviews_keeps_rated_reviews h 0 s reviews)
    as (s' & Hrefine & Hreviews & _).
  - by rewrite Hrun.
  - simpl. lia.
  - exists s'. split; [done |]. rewrite Hreviews.
    vm_compute in Hrun. injection Hrun as <- _. vm_compute. by split.
Defined.

Lemma refine_stops_at_first_hard_failure_witness :
  let h := odrs_host false true 300000 in
  let s := odrs_state example_server [example_app [] None; example_app [] None] in
  let flags := GS_PLUGIN_REFINE_FLAGS_REQUIRE_REVIEWS in
  gs_plugin_refine h ([] ++ 0%nat :: [1%nat]) flags s
  = (Fail (Some (plugin_error GS_PLUGIN_ERROR_INVALID_FORMAT)),
     snd (refine_app h 0 flags s)).
Proof.
  intros h s flags.
  apply (refine_stops_at_first_hard_failure h [] [1%nat] 0%nat flags s).
  - reflexivity.
  - intros p a q e' Heq. by destruct p.
  - vm_compute. reflexivity.
  - reflexivity.
Defined.

Lemma vote_clears_cache_then_posts_witness :
  let h := review_server 0 200 acknowledged true false in
  let s := rated_state [] in
  gs_plugin_odrs_vote h example_review "upvote" s
  = (Fail (Some (mkGError G_IO_ERROR (RawCode 14))),
     snd (gs_plugin_odrs_invalidate_cache h example_review s)) /\
  forallb (fun c => negb (is_network_call c))
          (calls_since s (snd (gs_plugin_odrs_vote h example_review "upvote" s))) = true.
Proof.
  intros h s.
  destruct (vote_clears_cache_then_posts h example_review "upvote" s) as [Hblocked _].
  - reflexivity.
  - apply Hblocked. vm_compute. reflexivity.
Defined.

(** A vote that the server acknowledged. *)
Example acknowledged_vote_run :
  let h := review_server 0 200 acknowledged true true in
  let s := rated_state [] in
  let r := gs_plugin_odrs_vote h example_review "upvote" s in
  fst r = Ok (as_review_add_flags AS_REVIEW_FLAG_VOTED example_review) /\
  calls (snd r)
  = [GetCacheFilename "odrs" "(null).json"; QueryFileExists "/cache/(null).json";
     DeleteFile "/cache/(null).json";
     SoupSend "POST" "https://odrs.example/1.0/reviews/api/upvote"].
Proof. vm_compute. by split. Qed.

Lemma submit_clears_cache_then_posts_witness :
  let h := review_server 0 200 acknowledged true true in
  let s := rated_state [example_app [] None] in
  exists review',
    fst (gs_plugin_review_submit h 0 example_review s) = Ok review' /\
    as_review_get_metadata_item review' "app_id" = Some "org.example.App"%string /\
    review_flags review' = AS_REVIEW_FLAG_SELF /\
    last (calls (snd (gs_plugin_review_submit h 0 example_review s)))
    = Some (SoupSend "POST" "https://odrs.example/1.0/reviews/api/submit").
Proof.
  intros h s.
  destruct (gs_plugin_review_submit h 0 example_review s) as [[review' | e] s1] eqn:Hrun;
    [| vm_compute in Hrun; discriminate].
  destruct (submit_clears_cache_then_posts h 0 example_review s) as [_ Hsent].
  - reflexivity.
  - destruct (Hsent review') as (Hreview & Hcalls & _); [by rewrite Hrun |].
    exists review'. rewrite Hrun in Hcalls. cbn [fst snd] in *.
    split; [done |]. rewrite Hcalls, last_snoc, Hreview.
    vm_compute. by repeat split.
Defined.

End OdrsScenarios.

(** ** What goes into a request *)

Section CompatIds.
Import GLib Gs Odrs OdrsRequest.




End CompatIds.

Section SanitizeVersion.
Import Stdlib.Strings.Ascii.
Import GLib Gs Odrs GStrings OdrsRequest.

Lemma has_char_c_str (c : Ascii.ascii) (buf : string) :
  has_char c buf = false -> has_char c (c_str buf) = false.
Proof.
  induction buf as [| c' rest IH]; [done |].
  cbn [has_char c_str]. intros [Hc Hrest]%orb_false_iff.
  destruct (Ascii.eqb c' NUL); [done |]. cbn [has_char]. by rewrite Hc, IH.
Qed.

Lemma c_str_no_nul (buf : string) : has_char NUL (c_str buf) = false.
Proof.
  induction buf as [| c rest IH]; [done |]. cbn [c_str].
  destruct (Ascii.eqb c NUL) eqn:Hc; [done |]. cbn [has_char]. by rewrite Hc.
Qed.

Lemma c_str_id (s : string) : has_char NUL s = false -> c_str s = s.
Proof.
  induction s as [| c rest IH]; [done |].
  cbn [has_char c_str]. intros [Hc Hrest]%orb_false_iff. by rewrite Hc, IH.
Qed.

Lemma strdelimit_removes (s : string) :
  has_char "-"%char (g_strdelimit s "-" NUL) = false.
Proof.
  induction s as [| c rest IH]; [done |]. cbn [g_strdelimit has_char orb].
  rewrite IH, !orb_false_r.
  destruct (Ascii.eqb "-" c) eqn:Hc; [done | by rewrite Ascii.eqb_sym].
Qed.

Lemma strdelimit_keeps_out (c : Ascii.ascii) (s : string) :
  c <> NUL -> has_char c s = false -> has_char c (g_strdelimit s "-" NUL) = false.
Proof.
  intros Hnul. induction s as [| c' rest IH]; [done |].
  cbn [g_strdelimit has_char orb]. intros [Hc Hrest]%orb_false_iff.
  rewrite (IH Hrest), !orb_false_r.
  destruct (Ascii.eqb "-" c'); [| done].
  apply Ascii.eqb_neq. intros Heq. by apply Hnul.
Qed.

Lemma strdelimit_id (s : string) :
  has_char "-"%char s = false -> g_strdelimit s "-" NUL = s.
Proof.
  induction s as [| c rest IH]; [done |].
  cbn [g_strdelimit has_char orb]. intros [Hc Hrest]%orb_false_iff.
  rewrite orb_false_r, Ascii.eqb_sym, Hc. by rewrite IH.
Qed.

Lemma prefix_colon (c : Ascii.ascii) (rest : string) :
  g_str_has_prefix (String c rest) ":" = Ascii.eqb ":"%char c.
Proof. cbn [g_str_has_prefix]. apply andb_true_r. Qed.

Lemma strrstr_none (s : string) :
  g_strrstr s ":" = None <-> has_char ":"%char s = false.
Proof.
  induction s as [| c rest IH]; [done |].
  cbn [g_strrstr has_char]. rewrite prefix_colon, (Ascii.eqb_sym c).
  destruct (g_strrstr rest ":") as [i |].
  - split; [done |]. intros [_ Hrest]%orb_false_iff. by apply IH in Hrest.
  - destruct (Ascii.eqb ":"%char c); [done |]. cbn [orb]. split; [| done].
    intros _. by apply IH.
Qed.

Lemma strrstr_some (s : string) (i : nat) :
  g_strrstr s ":" = Some i -> has_char ":"%char (str_offset (S i) s) = false.
Proof.
  revert i. induction s as [| c rest IH]; intros i; [done |].
  cbn [g_strrstr]. rewrite prefix_colon.
  destruct (g_strrstr rest ":") as [j |] eqn:Hrest.
  - intros [= <-]. cbn [str_offset]. by apply IH.
  - destruct (Ascii.eqb ":"%char c); [| done]. intros [= <-]. cbn [str_offset].
    by apply strrstr_none.
Qed.

Lemma has_char_str_offset (c : Ascii.ascii) (n : nat) (s : string) :
  has_char c s = false -> has_char c (str_offset n s) = false.
Proof.
  revert s. induction n as [| n IH]; intros s; [done |].
  destruct s as [| c' rest]; [done |]. cbn [has_char str_offset].
  intros [_ Hrest]%orb_false_iff. by apply IH.
Qed.

(** Cutting a buffer short keeps out what was not in it. *)
Lemma has_char_poke (c : Ascii.ascii) (n : nat) (buf : string) :
  has_char c (c_str buf) = false -> has_char c (c_str (poke n NUL buf)) = false.
Proof.
  revert n. induction buf as [| c' rest IH]; intros n; [done |].
  destruct n as [| n]; [done |]. cbn [poke c_str].
  destruct (Ascii.eqb c' NUL); [done |]. cbn [has_char].
  intros [Hc Hrest]%orb_false_iff. by rewrite Hc, IH.
Qed.

Lemma has_prefix_cons (b a : Ascii.ascii) (str prefix : string) :
  g_str_has_prefix (String b str) (String a prefix)
  = Ascii.eqb a b && g_str_has_prefix str prefix.
Proof. done. Qed.

Lemma prefix_poke (needle : string) :
  forall (n : nat) (buf : string),
  g_str_has_prefix (c_str (poke n NUL buf)) needle = true ->
  g_str_has_prefix (c_str buf) needle = true.
Proof.
  induction needle as [| a needle IH]; intros n buf; [done |].
  destruct buf as [| c rest]; [done |].
  destruct n as [| n]; [done |]. cbn [poke c_str].
  destruct (Ascii.eqb c NUL); [done |]. cbn [g_str_has_prefix].
  intros [Ha Hrest]%andb_true_iff. rewrite Ha. by apply (IH n rest).
Qed.

(** The part of a buffer before the first occurrence of "+dfsg" holds no
    occurrence. *)
Lemma strstr_poke (buf : string) :
  forall i : nat,
  g_strstr (c_str buf) "+dfsg" = Some i ->
  g_strstr (c_str (poke i NUL buf)) "+dfsg" = None.
Proof.
  induction buf as [| c rest IH]; intros i; [done |].
  cbn [c_str]. destruct (Ascii.eqb c NUL) eqn:Hc; [done |].
  destruct i as [| i]; [done |].
  cbn [poke c_str]. rewrite Hc.
  cbn [g_strstr].
  destruct (g_str_has_prefix (String c (c_str rest)) "+dfsg") eqn:Hhere; [done |].
  destruct (g_strstr (c_str rest) "+dfsg") as [j |] eqn:Hrest; [| done].
  intros [= ->].
  destruct (g_str_has_prefix (String c (c_str (poke i NUL rest))) "+dfsg") eqn:Hcut.
  - exfalso.
    rewrite (has_prefix_cons c "+" _ "dfsg") in Hhere.
    rewrite (has_prefix_cons c "+" _ "dfsg") in Hcut.
    apply andb_true_iff in Hcut as [Hplus Hcut]. rewrite Hplus in Hhere.
    apply (prefix_poke "dfsg" i rest) in Hcut. cbn [andb] in Hhere. congruence.
  - by rewrite (IH i eq_refl).
Qed.

(** X13: a sanitized version holds no ':', no '-' and no "+dfsg"; a
    version that holds none of them is handed back as it is; so sanitizing
    twice gives what sanitizing once gives.  Without a version the answer
    is "unknown". *)
Theorem sanitize_version_is_idempotent (version : string) :
  let sanitized := gs_plugin_odrs_sanitize_version (Some version) in
  (has_char ":"%char sanitized = false /\
   has_char "-"%char sanitized = false /\
   g_strstr sanitized "+dfsg" = None) /\
  (has_char NUL version = false -> has_char ":"%char version = false ->
   has_char "-"%char version = false -> g_strstr version "+dfsg" = None ->
   sanitized = version) /\
  gs_plugin_odrs_sanitize_version (Some sanitized) = sanitized /\
  gs_plugin_odrs_sanitize_version None = "unknown"%string.
Proof.
  assert (forall v, has_char NUL v = false -> has_char ":"%char v = false ->
            has_char "-"%char v = false -> g_strstr v "+dfsg" = None ->
            gs_plugin_odrs_sanitize_version (Some v) = v) as Hclean.
  { intros v Hnul Hcolon Hdash Hdfsg. unfold gs_plugin_odrs_sanitize_version.
    apply strrstr_none in Hcolon. rewrite Hcolon.
    rewrite (strdelimit_id v Hdash), (c_str_id v Hnul), Hdfsg.
    by apply c_str_id. }
  assert (has_char NUL (gs_plugin_odrs_sanitize_version (Some version)) = false /\
          has_char ":"%char (gs_plugin_odrs_sanitize_version (Some version)) = false /\
          has_char "-"%char (gs_plugin_odrs_sanitize_version (Some version)) = false /\
          g_strstr (gs_plugin_odrs_sanitize_version (Some version)) "+dfsg" = None)
    as (Hnul & Hcolon & Hdash & Hdfsg).
  { unfold gs_plugin_odrs_sanitize_version.
    set (without_epoch := match g_strrstr version ":" with
                          | Some i => str_offset (S i) version
                          | None => version
                          end).
    assert (has_char ":"%char without_epoch = false) as Hepoch.
    { subst without_epoch.
      destruct (g_strrstr version ":") as [i |] eqn:Hlast;
        [by apply strrstr_some | by apply strrstr_none]. }
    set (tmp := g_strdelimit without_epoch "-" NUL).
    assert (has_char ":"%char (c_str tmp) = false) as Hcolon
      by (by apply has_char_c_str, strdelimit_keeps_out).
    assert (has_char "-"%char (c_str tmp) = false) as Hdash
      by apply has_char_c_str, strdelimit_removes.
    destruct (g_strstr (c_str tmp) "+dfsg") as [i |] eqn:Hfound.
    - split; [apply c_str_no_nul |].
      split; [by apply has_char_poke |]. split; [by apply has_char_poke |].
      by apply strstr_poke.
    - split; [apply c_str_no_nul | done]. }
  cbv zeta. split; [done |]. split; [apply Hclean |].
  split; [by apply Hclean | done].
Qed.

End SanitizeVersion.

(** ** The order of the ratings array *)

Section RatingsInvariant.
Import GLib Gs Odrs BinarySearch Notions.

Variable h : Host.

Lemma ratings_reloaded_refl (s : State) : ratings_reloaded s s.
Proof. by left. Qed.

Lemma ratings_reloaded_trans (s1 s2 s3 : State) :
  ratings_reloaded s1 s2 -> ratings_reloaded s2 s3 -> ratings_reloaded s1 s3.
Proof.
  intros [H12 | H12] [H23 | H23]; unfold ratings_reloaded.
  - left. congruence.
  - by right.
  - right. destruct H12 as [l Hl]. exists l. congruence.
  - by right.
Qed.

Lemma ratings_reloaded_in_order (s s' : State) :
  ratings_in_order s -> ratings_reloaded s s' -> ratings_in_order s'.
Proof.
  unfold ratings_in_order. intros Hs [Heq | [l Hl]].
  - by rewrite Heq.
  - rewrite Hl. apply loaded_ratings_sorted.
Qed.

Lemma load_ratings_reloaded (fn : string) (s : State) :
  ratings_reloaded s (snd (gs_plugin_odrs_load_ratings h fn s)).
Proof.
  unfold gs_plugin_odrs_load_ratings, ask_result, fail_with, act_fail.
  destruct (json_parser_load_from_file h (calls s) fn)
    as [[[| | | | | json_item] |] |]; try (by left).
  right. by eexists.
Qed.

Lemma refresh_reloaded (cache_age : Z) (s : State) :
  ratings_reloaded s (snd (gs_plugin_refresh h cache_age s)).
Proof.
  unfold gs_plugin_refresh, report_download_failure. act_unfold.
  destruct (server_disabled s); [by left |].
  destruct (gs_utils_get_cache_filename h (calls s) "odrs" "ratings.json")
    as [cache_filename |]; cbn [fst snd calls with_calls]; [| by left].
  destruct (0 <? cache_age); cbv beta iota zeta; cbn [fst snd calls with_calls].
  - destruct (gs_utils_get_file_age h _ cache_filename <? cache_age).
    + eapply ratings_reloaded_trans; [| apply load_ratings_reloaded]. by left.
    + match goal with
      | |- context [gs_plugin_download_file h ?cs _ _] =>
          destruct (gs_plugin_download_file h cs (server_uri s "/ratings")
                      cache_filename)
      end; cbn [fst snd].
      * eapply ratings_reloaded_trans; [| apply load_ratings_reloaded]. by left.
      * by left.
  - match goal with
    | |- context [gs_plugin_download_file h ?cs _ _] =>
        destruct (gs_plugin_download_file h cs (server_uri s "/ratings")
                    cache_filename)
    end; cbn [fst snd].
    + eapply ratings_reloaded_trans; [| apply load_ratings_reloaded]. by left.
    + by left.
Qed.

Lemma apply_ratings_keeps (app : nat) (all : list GsOdrsRating) (s : State) :
  ratings (snd (apply_ratings h app all s)) = ratings s.
Proof.
  unfold apply_ratings. act_unfold.
  destruct (accumulate_ratings all _ zero_ratings 0) as [review_ratings cnt].
  destruct (cnt =? 0); [done |]. by destruct (0 <? _).
Qed.

Lemma refine_ratings_reloaded (app : nat) (s : State) :
  ratings_reloaded s (snd (gs_plugin_odrs_refine_ratings h app s)).
Proof.
  unfold gs_plugin_odrs_refine_ratings. act_unfold.
  destruct (server_disabled s); [by left |].
  destruct (ratings s) as [all |] eqn:Hratings.
  { left. by rewrite apply_ratings_keeps. }
  destruct (gs_utils_get_cache_filename h (calls s) "odrs" "ratings.json")
    as [cache_filename |]; cbn [fst snd]; [| by left].
  pose proof (load_ratings_reloaded cache_filename
                (with_calls (calls s ++ [GetCacheFilename "odrs" "ratings.json"]) s))
    as Hload.
  destruct (gs_plugin_odrs_load_ratings h cache_filename _) as [[[] | e] s1];
    cbn [fst snd] in *; [| done].
  destruct (ratings s1) as [all |] eqn:Hloaded; [| done].
  eapply ratings_reloaded_trans; [exact Hload |].
  left. by rewrite apply_ratings_keeps.
Qed.

Lemma refine_app_reloaded (app : nat) (flags : Z) (s : State) :
  ratings_reloaded s (snd (refine_app h app flags s)).
Proof.
  assert (forall st, ratings_reloaded st (snd (refine_app_ratings h app flags st)))
    as Hratings.
  { intros st. unfold refine_app_ratings. act_unfold.
    destruct (_ || _); [| by left].
    destruct (app_review_ratings _); [by left |]. apply refine_ratings_reloaded. }
  unfold refine_app. act_unfold.
  destruct (bool_decide (app_kind _ = _)); [by left |].
  destruct (bool_decide (app_id _ = _)); [by left |].
  destruct (has_flag flags GS_PLUGIN_REFINE_FLAGS_REQUIRE_REVIEWS); [| apply Hratings].
  destruct (0 <? _); [by left |].
  assert (ratings (snd (gs_plugin_odrs_refine_reviews h app s)) = ratings s) as Hreviews.
  { unfold gs_plugin_odrs_refine_reviews. act_unfold.
    assert (exists made, snd (gs_plugin_odrs_fetch_for_app h app s)
                         = with_calls made s) as [made Hsnd].
    { destruct (fetch_for_app_cases h app s) as [(made & Hsnd & _) | Hgood].
      - by exists (calls s ++ made).
      - destruct Hgood as (cachefn & rs & _ & _ & Hsnd & _). eauto. }
    destruct (gs_plugin_odrs_fetch_for_app h app s) as [[reviews | e] s1];
      cbn [fst snd] in *; by subst s1. }
  destruct (gs_plugin_odrs_refine_reviews h app s) as [[[] | e] s1];
    cbn [fst snd] in *; [| by left].
  eapply ratings_reloaded_trans; [by left | apply Hratings].
Qed.

Lemma refine_reloaded (app_list : list nat) (flags : Z) (s : State) :
  ratings_reloaded s (snd (gs_plugin_refine h app_list flags s)).
Proof.
  unfold gs_plugin_refine. destruct (Z.land flags _ =? 0); [by left |].
  revert s. induction app_list as [| app rest IH]; intros s; [by left |].
  rewrite act_iter_cons, refine_list_entry_unfold.
  pose proof (refine_app_reloaded app flags s) as Happ.
  destruct (refine_app h app flags s) as [[[] | e] s1]; cbn [fst snd] in *.
  - eapply ratings_reloaded_trans; [exact Happ | apply IH].
  - destruct (g_error_matches _ _ _); [| done].
    eapply ratings_reloaded_trans; [exact Happ | apply IH].
Qed.

Lemma vote_keeps (review : AsReview) (path : string) (s : State) :
  ratings (snd (gs_plugin_odrs_vote h review path s)) = ratings s.
Proof.
  unfold gs_plugin_odrs_vote. act_unfold.
  destruct (server_disabled s); [done |].
  destruct (invalidate_cache_local h review s) as (made & Hmade & _).
  destruct (gs_plugin_odrs_invalidate_cache h review s) as [[[] | e] s1];
    cbn [fst snd] in *; subst s1; [| done].
  destruct (json_post_acknowledged h (server_uri s (String.append "/" path))
              (with_calls (calls s ++ made) s)) as [Hsnd _].
  destruct (gs_plugin_odrs_json_post h _ _) as [[[] | e] s2];
    cbn [fst snd] in *; by subst s2.
Qed.

Lemma submit_keeps (app : nat) (review : AsReview) (s : State) :
  ratings (snd (gs_plugin_review_submit h app review s)) = ratings s.
Proof.
  unfold gs_plugin_review_submit. act_unfold.
  destruct (server_disabled s); [done |].
  match goal with
  | |- context [gs_plugin_odrs_invalidate_cache h ?r s] =>
      destruct (invalidate_cache_local h r s) as (made & Hmade & _);
      destruct (gs_plugin_odrs_invalidate_cache h r s) as [[[] | e] s1]
  end; cbn [fst snd] in *; subst s1; [| done].
  destruct (json_post_acknowledged h (server_uri s "/submit")
              (with_calls (calls s ++ made) s)) as [Hsnd _].
  destruct (gs_plugin_odrs_json_post h _ _) as [[[] | e] s2];
    cbn [fst snd] in *; by subst s2.
Qed.

Lemma add_unvoted_each_keeps (reviews : list AsReview) :
  forall (acc : list nat * gmap string nat) (s : State),
  ratings (snd (add_unvoted_each h reviews acc s)) = ratings s.
Proof.
  induction reviews as [| review rest IH]; intros [app_list hash] s; [done |].
  rewrite add_unvoted_each_cons, add_unvoted_review_unfold.
  destruct (review_app_id review) as [id |]; [| done].
  destruct (hash !! id) as [p |]; cbv beta iota zeta; by rewrite IH.
Qed.

Lemma add_unvoted_keeps (app_list : list nat) (s : State) :
  ratings (snd (gs_plugin_add_unvoted_reviews h app_list s)) = ratings s.
Proof.
  unfold gs_plugin_add_unvoted_reviews. act_unfold.
  destruct (server_disabled s); [done |].
  destruct (negb _).
  - match goal with
    | |- context [gs_plugin_odrs_parse_success ?h ?d ?st] =>
        pose proof (parse_success_state h d st) as Hst;
        destruct (gs_plugin_odrs_parse_success h d st) as [[[] | e] st']
    end; cbn [snd] in *; by subst st'.
  - match goal with
    | |- context [gs_plugin_odrs_parse_reviews ?h ?d ?st] =>
        pose proof (parse_reviews_state h d st) as Hst;
        destruct (gs_plugin_odrs_parse_reviews h d st) as [[reviews | e] st']
    end; cbn [snd] in *; subst st'; [| done].
    match goal with
    | |- context [add_unvoted_each h reviews ?acc ?st] =>
        pose proof (add_unvoted_each_keeps reviews acc st) as Heach;
        destruct (add_unvoted_each h reviews acc st) as [[[l hash] | e] st']
    end; cbn [snd] in *; by rewrite Heach.
Qed.

(** X14: [priv->ratings], once in the order that the binary search of
    the ratings refinement relies on, stays in that order through every
    entry point of the plugin: refresh, refine, review submit, the votes
    and the unvoted reviews either leave the array alone or replace it by
    a freshly sorted one. *)
Theorem ratings_stay_in_order (s : State) :
  ratings_in_order s ->
  (forall cache_age, ratings_in_order (snd (gs_plugin_refresh h cache_age s))) /\
  (forall app_list flags,
     ratings_in_order (snd (gs_plugin_refine h app_list flags s))) /\
  (forall app review,
     ratings_in_order (snd (gs_plugin_review_submit h app review s))) /\
  (forall review path,
     ratings_in_order (snd (gs_plugin_odrs_vote h review path s))) /\
  (forall app_list,
     ratings_in_order (snd (gs_plugin_add_unvoted_reviews h app_list s))).
Proof.
  intros Hs. repeat split; intros.
  - apply (ratings_reloaded_in_order s); [done | apply refresh_reloaded].
  - apply (ratings_reloaded_in_order s); [done | apply refine_reloaded].
  - apply (ratings_reloaded_in_order s); [done | left; apply submit_keeps].
  - apply (ratings_reloaded_in_order s); [done | left; apply vote_keeps].
  - apply (ratings_reloaded_in_order s); [done | left; apply add_unvoted_keeps].
Qed.

End RatingsInvariant.

(** ** Installing firmware and switching remotes *)

Section FwupdOutcomes.
Import GLib Gs Fwupd.

Variable h : Host.

Lemma error_convert_lands_in_plugin_domain (e : GError) :
  (forall e0 e', gs_utils_error_convert_gio h e0 = Some e' ->
                 domain e' = GS_PLUGIN_ERROR) ->
  (forall e0 e', gs_utils_error_convert_gdbus h e0 = Some e' ->
                 domain e' = GS_PLUGIN_ERROR) ->
  exists e', gs_plugin_fwupd_error_convert h (Some e) = Some e' /\
             domain e' = GS_PLUGIN_ERROR.
Proof.
  intros Hgio Hgdbus. unfold gs_plugin_fwupd_error_convert.
  destruct (bool_decide (domain e = GS_PLUGIN_ERROR)) eqn:Hplugin.
  { exists e. split; [done |]. by apply bool_decide_eq_true in Hplugin. }
  destruct (gs_utils_error_convert_gio h e) as [e1 |] eqn:H1.
  { exists e1. split; [done |]. by apply (Hgio e). }
  destruct (gs_utils_error_convert_gdbus h e) as [e2 |] eqn:H2.
  { exists e2. split; [done |]. by apply (Hgdbus e). }
  destruct (bool_decide (domain e = FWUPD_ERROR)); [| by eexists].
  destruct (code e) as [c | [] | n]; try (by eexists).
  destruct (fwupd_check_version_1_2_10 h); by eexists.
Qed.

(** X15: converting an error twice gives what converting it once gives,
    given that the gio and gdbus converters of the core leave their
    errors in the plugin domain; and the conversion neither clears an
    error nor sets one where there was none. *)
Theorem error_convert_idempotent :
  (forall e e', gs_utils_error_convert_gio h e = Some e' ->
                domain e' = GS_PLUGIN_ERROR) ->
  (forall e e', gs_utils_error_convert_gdbus h e = Some e' ->
                domain e' = GS_PLUGIN_ERROR) ->
  forall perror,
    gs_plugin_fwupd_error_convert h (gs_plugin_fwupd_error_convert h perror)
    = gs_plugin_fwupd_error_convert h perror /\
    (gs_plugin_fwupd_error_convert h perror = None <-> perror = None).
Proof.
  intros Hgio Hgdbus [e |]; [| done].
  destruct (error_convert_lands_in_plugin_domain e Hgio Hgdbus) as (e' & Heq & Hdom).
  rewrite Heq. split; [| done].
  unfold gs_plugin_fwupd_error_convert. by rewrite bool_decide_eq_true_2.
Qed.

(** X16: firmware whose file is in the cache is installed from there:
    nothing is downloaded and nothing is deleted.  The app becomes the
    current app of the plugin; when the daemon installs the file the call
    succeeds with the app INSTALLED, whatever asking for the device's
    update message gives, and when the daemon refuses the call fails with
    the converted error. *)
Theorem install_from_cache (s : State) (app : nat) (a : GsApp) (filename : string) :
  apps s !! app = Some a ->
  app_local_file a = Some filename ->
  g_file_query_exists h (calls s) filename = true ->
  let device_id := default FWUPD_DEVICE_ID_ANY (gs_fwupd_app_get_device_id a) in
  let offline := bool_decide (gs_app_get_metadata_item a "fwupd::OnlyOffline" <> None) in
  let asked := calls s ++ [QueryFileExists filename] in
  let r := gs_plugin_fwupd_install h app s in
  app_current (snd r) = Some app /\
  match fwupd_client_install h asked device_id filename offline with
  | Ok _ =>
      fst r = Ok tt /\
      calls (snd r) = asked ++ [ClientInstall device_id filename offline;
                                ClientGetDeviceById device_id] /\
      app_state (app_at app (snd r)) = GS_APP_STATE_INSTALLED
  | Fail e =>
      fst r = Fail (gs_plugin_fwupd_error_convert h e) /\
      calls (snd r) = asked ++ [ClientInstall device_id filename offline]
  end.
Proof.
  intros Happ Hfile Hpresent device_id offline asked r. subst r.
  assert (app_at app s = a) as Hat by (unfold app_at; by rewrite Happ).
  unfold gs_plugin_fwupd_install, install_update_message. fw_unfold.
  rewrite Hat, Hfile, Hpresent. cbn [negb].
  cbn [Fwupd.calls Fwupd.with_calls Fwupd.with_apps Fwupd.with_app_current
       Fwupd.apps Fwupd.app_current].
  fold device_id. fold offline. fold asked.
  destruct (fwupd_client_install h asked device_id filename offline) as [[] | e].
  2:{ cbn [fst snd Fwupd.calls Fwupd.with_calls Fwupd.with_apps
           Fwupd.with_app_current Fwupd.apps Fwupd.app_current]. done. }
  cbn [fst snd Fwupd.calls Fwupd.with_calls Fwupd.with_apps
       Fwupd.with_app_current Fwupd.apps Fwupd.app_current].
  assert (forall f, app_state
            (default (gs_app_new None)
               (alter f app
                  (alter (gs_app_set_state GS_APP_STATE_INSTALLED) app
                     (alter (gs_app_set_state GS_APP_STATE_INSTALLING) app (apps s)))
                !! app)) = app_state (f (gs_app_set_state GS_APP_STATE_INSTALLED
                                           (gs_app_set_state GS_APP_STATE_INSTALLING a))))
    as Hstate.
  { intros f. by rewrite !list_lookup_alter_eq, Happ. }
  destruct (fwupd_client_get_device_by_id h _ device_id) as [dev |];
    cbn [fst snd Fwupd.calls Fwupd.with_calls Fwupd.with_apps
         Fwupd.with_app_current Fwupd.apps Fwupd.app_current].
  - destruct (device_update_message dev) as [message |];
      cbn [fst snd Fwupd.calls Fwupd.with_calls Fwupd.with_apps
           Fwupd.with_app_current Fwupd.apps Fwupd.app_current];
      (split; [done |]); (split; [done |]);
      (split; [by rewrite <- app_assoc |]); unfold app_at;
      cbn [Fwupd.calls Fwupd.with_calls Fwupd.with_apps
           Fwupd.with_app_current Fwupd.apps Fwupd.app_current].
    + rewrite Hstate. unfold gs_app_add_quirk.
      by destruct (bool_decide (GS_APP_QUIRK_NEEDS_USER_ACTION ∈ _)).
    + by rewrite !list_lookup_alter_eq, Happ.
  - split; [done |]. split; [done |]. split; [by rewrite <- app_assoc |].
    unfold app_at.
    cbn [Fwupd.calls Fwupd.with_calls Fwupd.with_apps
         Fwupd.with_app_current Fwupd.apps Fwupd.app_current].
    by rewrite !list_lookup_alter_eq, Happ.
Qed.

(** X17: firmware whose file is not in the cache is downloaded, installed
    and then deleted from the cache again.  When the download and the
    install succeed the app is INSTALLED; the call then succeeds when the
    file could be deleted, and when it could not the call fails with the
    error of the deletion as it came, the firmware being installed. *)
Theorem install_deletes_what_it_downloaded (s : State) (app : nat) (a : GsApp)
    (filename : string) :
  apps s !! app = Some a ->
  app_local_file a = Some filename ->
  g_file_query_exists h (calls s) filename = false ->
  let uri := gs_fwupd_app_get_update_uri a in
  let device_id := default FWUPD_DEVICE_ID_ANY (gs_fwupd_app_get_device_id a) in
  let offline := bool_decide (gs_app_get_metadata_item a "fwupd::OnlyOffline" <> None) in
  let asked := calls s ++ [QueryFileExists filename] in
  let fetched := asked ++ [if fwupd_check_version_1_5_2 h
                           then ClientDownloadFile uri filename
                           else PluginDownloadFile uri filename] in
  let installed := fetched ++ [ClientInstall device_id filename offline] in
  (if fwupd_check_version_1_5_2 h
   then fwupd_client_download_file h asked uri filename
   else gs_plugin_download_file h asked uri filename) = Ok tt ->
  fwupd_client_install h fetched device_id filename offline = Ok tt ->
  let r := gs_plugin_fwupd_install h app s in
  app_state (app_at app (snd r)) = GS_APP_STATE_INSTALLED /\
  match g_file_delete h installed filename with
  | Ok _ =>
      fst r = Ok tt /\
      calls (snd r) = installed ++ [DeleteFile filename; ClientGetDeviceById device_id]
  | Fail e =>
      fst r = Fail e /\ calls (snd r) = installed ++ [DeleteFile filename]
  end.
Proof.
  intros Happ Hfile Hmissing uri device_id offline asked fetched installed
    Hdownload Hinstall r. subst r.
  assert (app_at app s = a) as Hat by (unfold app_at; by rewrite Happ).
  unfold gs_plugin_fwupd_install, install_download, install_update_message.
  fw_unfold. rewrite Hat, Hfile, Hmissing. cbn [negb].
  cbn [Fwupd.calls Fwupd.with_calls Fwupd.with_apps Fwupd.with_app_current
       Fwupd.apps Fwupd.app_current].
  fold asked.
  assert (app_at app (with_calls asked s) = a) as -> by done.
  fold uri.
  assert (forall f g, app_state
            (default (gs_app_new None)
               (alter f app
                  (alter (gs_app_set_state GS_APP_STATE_INSTALLED) app
                     (alter g app
                        (alter (gs_app_set_state GS_APP_STATE_INSTALLING) app (apps s))))
                !! app))
          = app_state (f (gs_app_set_state GS_APP_STATE_INSTALLED
                            (g (gs_app_set_state GS_APP_STATE_INSTALLING a)))))
    as Hstate.
  { intros f g. by rewrite !list_lookup_alter_eq, Happ. }
  assert (forall g, app_state
            (default (gs_app_new None)
               (alter (gs_app_set_state GS_APP_STATE_INSTALLED) app
                  (alter g app
                     (alter (gs_app_set_state GS_APP_STATE_INSTALLING) app (apps s)))
                !! app)) = GS_APP_STATE_INSTALLED) as Hstate'.
  { intros g. by rewrite !list_lookup_alter_eq, Happ. }
  destruct (fwupd_check_version_1_5_2 h);
    cbv beta iota zeta;
    cbn [Fwupd.calls Fwupd.with_calls Fwupd.with_apps Fwupd.with_app_current
         Fwupd.apps Fwupd.app_current];
    rewrite Hdownload;
    cbn [fst snd Fwupd.calls Fwupd.with_calls Fwupd.with_apps
         Fwupd.with_app_current Fwupd.apps Fwupd.app_current];
    fold device_id; fold offline; fold fetched; rewrite Hinstall;
    cbn [fst snd Fwupd.calls Fwupd.with_calls Fwupd.with_apps
         Fwupd.with_app_current Fwupd.apps Fwupd.app_current];
    fold installed;
    (destruct (g_file_delete h installed filename) as [[] | e];
     cbn [fst snd Fwupd.calls Fwupd.with_calls Fwupd.with_apps
          Fwupd.with_app_current Fwupd.apps Fwupd.app_current];
     [| split; [unfold app_at;
                cbn [Fwupd.calls Fwupd.with_calls Fwupd.with_apps
                     Fwupd.with_app_current Fwupd.apps Fwupd.app_current];
                apply Hstate'
               | done]]);
    (destruct (fwupd_client_get_device_by_id h _ device_id) as [dev |];
     [destruct (device_update_message dev) as [message |] |]);
    cbn [fst snd Fwupd.calls Fwupd.with_calls Fwupd.with_apps
         Fwupd.with_app_current Fwupd.apps Fwupd.app_current];
    (split; [unfold app_at;
             cbn [Fwupd.calls Fwupd.with_calls Fwupd.with_apps
                  Fwupd.with_app_current Fwupd.apps Fwupd.app_current];
             try apply Hstate';
             try (rewrite Hstate; unfold gs_app_add_quirk;
                  by destruct (bool_decide (GS_APP_QUIRK_NEEDS_USER_ACTION ∈ _)))
            | split; [done | by rewrite <- app_assoc]]).
Qed.

(** What enabling or disabling a remote does. *)
Lemma modify_source_run (s : State) (app : nat) (a : GsApp)
    (enabled : bool) (remote_id : string) :
  apps s !! app = Some a ->
  gs_app_get_metadata_item a "fwupd::remote-id" = Some remote_id ->
  let value := (if enabled then "true" else "false")%string in
  let r := gs_plugin_fwupd_modify_source h app enabled s in
  calls (snd r) = calls s ++ [ClientModifyRemote remote_id "Enabled" value] /\
  (forall other, other <> app -> apps (snd r) !! other = apps s !! other) /\
  match fwupd_client_modify_remote h (calls s) remote_id "Enabled" value with
  | Ok _ =>
      fst r = Ok tt /\
      app_state (app_at app (snd r))
      = (if enabled then GS_APP_STATE_INSTALLED else GS_APP_STATE_AVAILABLE)
  | Fail e =>
      fst r = Fail e /\
      (app_state_recover a = app_state a -> app_state a <> GS_APP_STATE_UNKNOWN ->
       app_state (app_at app (snd r)) = app_state a)
  end.
Proof.
  intros Happ Hid value r. subst r.
  assert (app_at app s = a) as Hat by (unfold app_at; by rewrite Happ).
  destruct (fwupd_client_modify_remote h (calls s) remote_id "Enabled" value)
    as [[] | e] eqn:Hanswer.
  - unfold gs_plugin_fwupd_modify_source. fw_unfold. rewrite Hat, Hid.
    cbn [Fwupd.calls Fwupd.with_calls Fwupd.with_apps Fwupd.apps].
    fold value. rewrite Hanswer.
    cbn [fst snd Fwupd.calls Fwupd.with_calls Fwupd.with_apps Fwupd.apps].
    split; [done |]. split.
    { intros other Hother. by rewrite !list_lookup_alter_ne. }
    split; [done |]. unfold app_at.
    cbn [Fwupd.calls Fwupd.with_calls Fwupd.with_apps Fwupd.apps].
    rewrite !list_lookup_alter_eq, Happ. by destruct enabled.
  - assert (calls (snd (gs_plugin_fwupd_modify_source h app enabled s))
            = calls s ++ [ClientModifyRemote remote_id "Enabled" value] /\
            forall other, other <> app ->
              apps (snd (gs_plugin_fwupd_modify_source h app enabled s)) !! other
              = apps s !! other) as [Hcalls Hframe].
    { unfold gs_plugin_fwupd_modify_source. fw_unfold. rewrite Hat, Hid.
      cbn [Fwupd.calls Fwupd.with_calls Fwupd.with_apps Fwupd.apps].
      fold value. rewrite Hanswer.
      cbn [fst snd Fwupd.calls Fwupd.with_calls Fwupd.with_apps Fwupd.apps].
      split; [done |]. intros other Hother. by rewrite !list_lookup_alter_ne. }
    split; [done |]. split; [done |].
    pose proof (modify_source_failure h s app enabled remote_id e) as Hfst.
    cbv zeta in Hfst. rewrite Hat in Hfst. split; [by apply Hfst |].
    intros Hsettled Hknown.
    by apply (modify_source_failure_recovers_state h s app a enabled remote_id e).
Qed.

(** X18: enabling or disabling a remote asks the daemon once, for that
    remote, and touches no other app.  When the daemon agrees, the source
    ends up INSTALLED after enabling and AVAILABLE after disabling,
    whatever its state was; when it refuses, the call fails with the
    daemon's error as it came and a source that was in a settled state is
    back in it. *)
Theorem modify_source_outcomes (s : State) (app : nat) (a : GsApp)
    (enabled : bool) (remote_id : string) :
  apps s !! app = Some a ->
  gs_app_get_metadata_item a "fwupd::remote-id" = Some remote_id ->
  let value := (if enabled then "true" else "false")%string in
  let r := gs_plugin_fwupd_modify_source h app enabled s in
  calls (snd r) = calls s ++ [ClientModifyRemote remote_id "Enabled" value] /\
  (forall other, other <> app -> apps (snd r) !! other = apps s !! other) /\
  match fwupd_client_modify_remote h (calls s) remote_id "Enabled" value with
  | Ok _ =>
      fst r = Ok tt /\
      app_state (app_at app (snd r))
      = (if enabled then GS_APP_STATE_INSTALLED else GS_APP_STATE_AVAILABLE)
  | Fail e =>
      fst r = Fail e /\
      (app_state_recover a = app_state a -> app_state a <> GS_APP_STATE_UNKNOWN ->
       app_state (app_at app (snd r)) = app_state a)
  end.
Proof. apply modify_source_run. Qed.

End FwupdOutcomes.

(** ** The installed page *)

Section InstalledPageFacts.
Import Stdlib.Strings.Ascii.
Import GLib Gs InstalledPage BinarySearch Notions.

Variable gs_utils_sort_key : string -> string.

(** The three leading fields of a sort key. *)
Lemma sort_key_fields (app : InstalledApp) :
  exists (s k q : Ascii.ascii) (tail : string),
    gs_installed_page_get_app_sort_key gs_utils_sort_key app
    = String s (String ":" (String k (String ":" (String q (String ":" tail))))) /\
    s = match gs_app_get_state app with
        | GS_APP_STATE_INSTALLING => "1"
        | GS_APP_STATE_QUEUED_FOR_INSTALL => "2"
        | GS_APP_STATE_REMOVING => "3"
        | _ => "4"
        end%char /\
    k = match gs_app_get_kind app with
        | AS_COMPONENT_KIND_DESKTOP_APP => "2"
        | AS_COMPONENT_KIND_WEB_APP => "3"
        | AS_COMPONENT_KIND_RUNTIME => "4"
        | AS_COMPONENT_KIND_ADDON => "5"
        | AS_COMPONENT_KIND_CODEC => "6"
        | AS_COMPONENT_KIND_FONT => "6"
        | AS_COMPONENT_KIND_INPUT_METHOD => "7"
        | _ =>
            if bool_decide (gs_app_get_special_kind app = GS_APP_SPECIAL_KIND_OS_UPDATE)
            then "1" else "8"
        end%char /\
    q = (if gs_app_is_compulsory app then "2" else "1")%char.
Proof.
  unfold gs_installed_page_get_app_sort_key.
  destruct (gs_app_get_name app) as [name |];
    destruct (gs_app_get_state app), (gs_app_get_kind app),
      (bool_decide (gs_app_get_special_kind app = GS_APP_SPECIAL_KIND_OS_UPDATE)),
      (gs_app_is_compulsory app);
    cbn [negb String.append]; by repeat eexists.
Qed.

Lemma sort_key_shape (app : InstalledApp) :
  gs_installed_page_get_app_sort_key gs_utils_sort_key app
  = String (digit (state_group app))
      (String ":"
         (String (digit (kind_group app))
            (String ":"
               (String (digit (quirk_group app))
                  (String ":"
                     match gs_app_get_name app with
                     | Some name => gs_utils_sort_key name
                     | None => EmptyString
                     end))))).
Proof.
  unfold gs_installed_page_get_app_sort_key, state_group, kind_group, quirk_group.
  destruct (gs_app_get_name app) as [name |];
    destruct (gs_app_get_state app), (gs_app_get_kind app),
      (bool_decide (gs_app_get_special_kind app = GS_APP_SPECIAL_KIND_OS_UPDATE)),
      (gs_app_is_compulsory app);
    reflexivity.
Qed.

Lemma groups_are_digits (app : InstalledApp) :
  1 <= state_group app <= 4 /\ 1 <= kind_group app <= 8 /\ 1 <= quirk_group app <= 2.
Proof.
  unfold state_group, kind_group, quirk_group.
  destruct (gs_app_get_state app), (gs_app_get_kind app),
    (bool_decide (gs_app_get_special_kind app = GS_APP_SPECIAL_KIND_OS_UPDATE)),
    (gs_app_is_compulsory app); lia.
Qed.

Lemma compare_digit (m n : Z) :
  1 <= m <= 8 -> 1 <= n <= 8 ->
  Ascii.compare (digit m) (digit n) = Z.compare m n.
Proof.
  intros Hm Hn.
  assert (m = 1 \/ m = 2 \/ m = 3 \/ m = 4 \/ m = 5 \/ m = 6 \/ m = 7 \/ m = 8)
    as Hm' by lia.
  assert (n = 1 \/ n = 2 \/ n = 3 \/ n = 4 \/ n = 5 \/ n = 6 \/ n = 7 \/ n = 8)
    as Hn' by lia.
  clear Hm Hn.
  repeat (destruct Hm' as [-> | Hm']); try subst m;
    repeat (destruct Hn' as [-> | Hn']); try subst n; reflexivity.
Qed.

Lemma ascii_compare_refl (c : Ascii.ascii) : Ascii.compare c c = Eq.
Proof. unfold Ascii.compare. apply N.compare_refl. Qed.

Lemma sort_func_by_groups (a b : InstalledApp) :
  let name_key (app : InstalledApp) :=
    match gs_app_get_name app with
    | Some name => gs_utils_sort_key name
    | None => EmptyString
    end in
  (state_group a < state_group b ->
   gs_installed_page_sort_func gs_utils_sort_key a b < 0) /\
  (state_group a = state_group b -> kind_group a < kind_group b ->
   gs_installed_page_sort_func gs_utils_sort_key a b < 0) /\
  (state_group a = state_group b -> kind_group a = kind_group b ->
   quirk_group a < quirk_group b ->
   gs_installed_page_sort_func gs_utils_sort_key a b < 0) /\
  (state_group a = state_group b -> kind_group a = kind_group b ->
   quirk_group a = quirk_group b ->
   gs_installed_page_sort_func gs_utils_sort_key a b
   = g_strcmp0 (Some (name_key a)) (Some (name_key b))).
Proof.
  intros name_key.
  destruct (groups_are_digits a) as (Hsa & Hka & Hqa).
  destruct (groups_are_digits b) as (Hsb & Hkb & Hqb).
  unfold gs_installed_page_sort_func, g_strcmp0.
  rewrite !sort_key_shape. cbn [String.compare].
  rewrite !compare_digit by lia. rewrite !ascii_compare_refl.
  repeat split.
  - intros Hlt. apply Z.compare_lt_iff in Hlt. by rewrite Hlt.
  - intros Heq Hlt. apply Z.compare_eq_iff in Heq.
    apply Z.compare_lt_iff in Hlt. by rewrite Heq, Hlt.
  - intros Hs Hk Hlt. apply Z.compare_eq_iff in Hs, Hk.
    apply Z.compare_lt_iff in Hlt. by rewrite Hs, Hk, Hlt.
  - intros Hs Hk Hq. apply Z.compare_eq_iff in Hs, Hk, Hq.
    by rewrite Hs, Hk, Hq.
Qed.

(** X19: the order of the rows is a comparison in the sense that sorting
    needs (its sign is a total preorder), and it is the order of four
    fields one after the other: the state of the app (installing, queued,
    removing, anything else), then its kind (an OS update, desktop app,
    web app, runtime, addon, codec or font, input method, anything else),
    then whether it is compulsory, and only then the collation key of its
    name. *)
Theorem sort_func_orders_by_groups :
  GCompareOrder (gs_installed_page_sort_func gs_utils_sort_key) /\
  forall a b : InstalledApp,
    let name_key (app : InstalledApp) :=
      match gs_app_get_name app with
      | Some name => gs_utils_sort_key name
      | None => EmptyString
      end in
    (state_group a < state_group b ->
     gs_installed_page_sort_func gs_utils_sort_key a b < 0) /\
    (state_group a = state_group b -> kind_group a < kind_group b ->
     gs_installed_page_sort_func gs_utils_sort_key a b < 0) /\
    (state_group a = state_group b -> kind_group a = kind_group b ->
     quirk_group a < quirk_group b ->
     gs_installed_page_sort_func gs_utils_sort_key a b < 0) /\
    (state_group a = state_group b -> kind_group a = kind_group b ->
     quirk_group a = quirk_group b ->
     gs_installed_page_sort_func gs_utils_sort_key a b
     = g_strcmp0 (Some (name_key a)) (Some (name_key b))).
Proof.
  split.
  - split; unfold gs_installed_page_sort_func.
    + intros a b. apply g_strcmp0_flip.
    + intros a b c. apply g_strcmp0_trans.
  - intros a b. apply sort_func_by_groups.
Qed.


Lemma has_app_elem (rows : list nat) (app : nat) :
  gs_installed_page_has_app rows app = true <-> app ∈ rows.
Proof.
  unfold gs_installed_page_has_app. rewrite existsb_exists. split.
  - intros (x & Hx & ->%Nat.eqb_eq). by apply list_elem_of_In.
  - intros Hin. exists app. split; [by apply list_elem_of_In | apply Nat.eqb_refl].
Qed.

Lemma add_pending_apps_spec (kind_of : nat -> AsComponentKind) (pending : list nat) :
  forall (rows : list nat) (cnt : Z),
  NoDup rows ->
  0 <= cnt <= G_MAXUINT ->
  exists added,
    add_pending_apps kind_of pending rows cnt
    = (rows ++ added,
       guint_wrap (cnt + Z.of_nat (length
         (filter (fun app => kind_of app <> AS_COMPONENT_KIND_OPERATING_SYSTEM)
                 pending)))) /\
    NoDup (rows ++ added) /\
    (forall app, app ∈ added ->
       app ∈ pending /\ kind_of app <> AS_COMPONENT_KIND_OPERATING_SYSTEM) /\
    (forall app, app ∈ pending ->
       kind_of app <> AS_COMPONENT_KIND_OPERATING_SYSTEM -> app ∈ rows ++ added).
Proof.
  induction pending as [| app rest IH]; intros rows cnt Hnodup Hcnt.
  - exists []. rewrite app_nil_r. cbn [add_pending_apps filter list_filter length].
    rewrite Z.add_0_r, guint_wrap_small by done.
    split; [done |]. split; [done |].
    split; [by intros x ?%elem_of_nil | by intros x ?%elem_of_nil].
  - cbn [add_pending_apps].
    destruct (decide (kind_of app = AS_COMPONENT_KIND_OPERATING_SYSTEM)) as [Hos | Hos].
    + rewrite bool_decide_eq_true_2 by done.
      rewrite filter_cons_False by (intros Hne; by apply Hne).
      destruct (IH rows cnt Hnodup Hcnt) as (added & Hrun & Hnd & Hsound & Hall).
      exists added. split; [done |]. split; [done |]. split.
      * intros x Hx. destruct (Hsound x Hx). split; [by right | done].
      * intros x [-> | Hx]%elem_of_cons Hkind; [done | by apply Hall].
    + rewrite bool_decide_eq_false_2 by done.
      rewrite filter_cons_True by done. cbn [length].
      assert (0 <= guint_add cnt 1 <= G_MAXUINT) as Hcnt'.
      { unfold guint_add, guint_wrap, G_MAXUINT.
        pose proof (Z.mod_pos_bound (cnt + 1) (4294967295 + 1)). lia. }
      assert (forall n : nat,
                guint_wrap (guint_add cnt 1 + Z.of_nat n)
                = guint_wrap (cnt + Z.of_nat (S n))) as Hwrap.
      { intros n. unfold guint_add, guint_wrap.
        rewrite Z.add_mod_idemp_l by (unfold G_MAXUINT; lia). f_equal. lia. }
      destruct (gs_installed_page_has_app rows app) eqn:Hhas; cbn [negb].
      * apply has_app_elem in Hhas.
        destruct (IH rows (guint_add cnt 1) Hnodup Hcnt')
          as (added & Hrun & Hnd & Hsound & Hall).
        exists added. rewrite Hrun, Hwrap. split; [done |]. split; [done |]. split.
        -- intros x Hx. destruct (Hsound x Hx). split; [by right | done].
        -- intros x [-> | Hx]%elem_of_cons Hkind; [| by apply Hall].
           apply elem_of_app. by left.
      * assert (app ∉ rows) as Hnew.
        { intros Hin. apply has_app_elem in Hin. congruence. }
        destruct (IH (rows ++ [app]) (guint_add cnt 1))
          as (added & Hrun & Hnd & Hsound & Hall); [| done |].
        { apply NoDup_app. split; [done |]. split; [| apply NoDup_singleton].
          by intros x Hx ->%list_elem_of_singleton. }
        exists (app :: added). rewrite Hrun, Hwrap, <- app_assoc in *.
        cbn [Datatypes.app] in *.
        split; [done |]. split; [done |]. split.
        -- intros x [-> | Hx]%elem_of_cons; [split; [by left | done] |].
           destruct (Hsound x Hx). split; [by right | done].
        -- intros x [-> | Hx]%elem_of_cons Hkind; [| by apply Hall].
           apply elem_of_app. right. by left.
Qed.

(** X21: when the pending apps change, the page gets a row for every
    pending app that is not an operating system upgrade and has none yet,
    and no other row: rows that showed each app once still do, however
    often an app occurs among the pending ones.  The counter shows the
    number of pending apps that are not operating system upgrades, each
    occurrence counted, and is hidden when there is none. *)
Theorem pending_apps_get_one_row_each (kind_of : nat -> AsComponentKind)
    (pending rows : list nat) :
  NoDup rows ->
  Z.of_nat (length pending) <= G_MAXUINT ->
  let shown := filter (fun app => kind_of app <> AS_COMPONENT_KIND_OPERATING_SYSTEM)
                      pending in
  exists added,
    gs_installed_page_pending_apps_changed_cb kind_of pending rows
    = (rows ++ added,
       if bool_decide (shown = []) then None else Some (Z.of_nat (length shown))) /\
    NoDup (rows ++ added) /\
    (forall app, app ∈ added -> app ∈ shown) /\
    (forall app, app ∈ shown -> app ∈ rows ++ added).
Proof.
  intros Hnodup Hlen shown. subst shown.
  destruct (add_pending_apps_spec kind_of pending rows 0 Hnodup)
    as (added & Hrun & Hnd & Hsound & Hall); [unfold G_MAXUINT; lia |].
  pose proof (length_filter
    (fun app => kind_of app <> AS_COMPONENT_KIND_OPERATING_SYSTEM) pending) as Hshown.
  assert (forall app,
            app ∈ filter (fun app => kind_of app <> AS_COMPONENT_KIND_OPERATING_SYSTEM)
                         pending <->
            app ∈ pending /\ kind_of app <> AS_COMPONENT_KIND_OPERATING_SYSTEM)
    as Hfilter.
  { intros app. rewrite list_elem_of_filter. tauto. }
  remember (filter (fun app => kind_of app <> AS_COMPONENT_KIND_OPERATING_SYSTEM)
                   pending) as shown eqn:Hdef.
  clear Hdef.
  exists added. unfold gs_installed_page_pending_apps_changed_cb.
  rewrite Hrun, Z.add_0_l, guint_wrap_small by lia.
  split; [| split; [done | split]].
  - destruct shown as [| x rest]; [done |].
    rewrite bool_decide_eq_false_2 by done. cbn [length] in *.
    destruct (Z.of_nat (S (length rest)) =? 0) eqn:Hz; [| done].
    apply Z.eqb_eq in Hz. lia.
  - intros app Happ. apply Hfilter. by apply Hsound.
  - intros app Happ. apply Hfilter in Happ as [? ?]. by apply Hall.
Qed.

End InstalledPageFacts.

(** ** The jobs of the fwupd plugin *)

(** Unfolding one step of a job. *)
Ltac jobs_unfold :=
  unfold FwupdJobs.converting, FwupdJobs.ask_result, FwupdJobs.list_add,
    FwupdJobs.gs_fwupd_app_set_is_locked, FwupdJobs.gs_app_set_update_details,
    Gs.fail_with;
  unfold mbind, mret, Gs.act_bind, Gs.act_ret, Gs.act_get, Gs.act_gets,
    Gs.act_modify, Gs.act_fail, Gs.act_try;
  cbv beta iota zeta.

Section FwupdJobsFacts.
Import GLib Gs Fwupd FwupdJobs Notions.

Variable h : FwupdJobs.Host.

Lemma state_eta (s : FwupdJobs.State) :
  FwupdJobs.mkState (plugin s) (locked s) (update_details s) (FwupdJobs.calls s) = s.
Proof. by destruct s. Qed.

(** Running a function of [Fwupd] that made the calls [made]. *)
Lemma lift_calls {A} (m : Fwupd.M A) (s : FwupdJobs.State) (r : Result A)
    (p : Fwupd.State) (made : list Fwupd.Call) :
  m (plugin s) = (r, p) ->
  Fwupd.calls p = Fwupd.calls (plugin s) ++ made ->
  lift m s = (r, FwupdJobs.mkState p (locked s) (update_details s)
                   (FwupdJobs.calls s ++ (Plugin <$> made))).
Proof.
  intros Hrun Hcalls. unfold lift. rewrite Hrun, Hcalls.
  by rewrite drop_app_length.
Qed.

Lemma lift_get_app (app : nat) (s : FwupdJobs.State) :
  lift (Fwupd.get_app app) s = (Ok (app_at app (plugin s)), s).
Proof.
  rewrite (lift_calls (Fwupd.get_app app) s (Ok (app_at app (plugin s))) (plugin s) []);
    [| done | by rewrite app_nil_r].
  cbn [fmap list_fmap]. by rewrite app_nil_r, state_eta.
Qed.

Lemma lift_ask {A} (c : Fwupd.Call) (answer : list Fwupd.Call -> A)
    (s : FwupdJobs.State) :
  lift (Fwupd.ask c answer) s
  = (Ok (answer (Fwupd.calls (plugin s))),
     FwupdJobs.mkState (with_calls (Fwupd.calls (plugin s) ++ [c]) (plugin s))
       (locked s) (update_details s) (FwupdJobs.calls s ++ [Plugin c])).
Proof. by apply (lift_calls _ s _ _ [c]). Qed.

Lemma lift_ask_result {A} (c : Fwupd.Call) (answer : list Fwupd.Call -> Result A)
    (s : FwupdJobs.State) :
  lift (Fwupd.ask_result c answer) s
  = (answer (Fwupd.calls (plugin s)),
     FwupdJobs.mkState (with_calls (Fwupd.calls (plugin s) ++ [c]) (plugin s))
       (locked s) (update_details s) (FwupdJobs.calls s ++ [Plugin c])).
Proof. by apply (lift_calls _ s _ _ [c]). Qed.

Lemma lift_converting_ask_result {A} (c : Fwupd.Call)
    (answer : list Fwupd.Call -> Result A) (s : FwupdJobs.State) :
  lift (Fwupd.converting (plugin_host h) (Fwupd.ask_result c answer)) s
  = (match answer (Fwupd.calls (plugin s)) with
     | Ok a => Ok a
     | Fail e => Fail (gs_plugin_fwupd_error_convert (plugin_host h) e)
     end,
     FwupdJobs.mkState (with_calls (Fwupd.calls (plugin s) ++ [c]) (plugin s))
       (locked s) (update_details s) (FwupdJobs.calls s ++ [Plugin c])).
Proof.
  apply (lift_calls _ s _ _ [c]); unfold Fwupd.converting, Fwupd.ask_result;
    fw_unfold; by destruct (answer (Fwupd.calls (plugin s))).
Qed.

Lemma lift_modify_app (app : nat) (f : GsApp -> GsApp) (s : FwupdJobs.State) :
  lift (Fwupd.modify_app app f) s
  = (Ok tt,
     FwupdJobs.mkState (with_apps (alter f app (apps (plugin s))) (plugin s))
       (locked s) (update_details s) (FwupdJobs.calls s)).
Proof.
  rewrite (lift_calls (Fwupd.modify_app app f) s (Ok tt)
             (with_apps (alter f app (apps (plugin s))) (plugin s)) []);
    [| done | by rewrite app_nil_r].
  cbn [fmap list_fmap]. by rewrite app_nil_r.
Qed.

(** X22: whatever makes an update fail, the error it leaves is in the
    plugin domain, given that the gio and gdbus converters of the core
    leave theirs there: the update converts the error of the install once
    more, and so also what the install handed on as it came, such as the
    error of deleting the downloaded file. *)
Theorem update_app_errors_are_converted (app : nat) (s : FwupdJobs.State)
    (e : GError) :
  (forall e0 e', gs_utils_error_convert_gio (plugin_host h) e0 = Some e' ->
                 domain e' = GS_PLUGIN_ERROR) ->
  (forall e0 e', gs_utils_error_convert_gdbus (plugin_host h) e0 = Some e' ->
                 domain e' = GS_PLUGIN_ERROR) ->
  fst (gs_plugin_update_app h app s) = Fail (Some e) ->
  domain e = GS_PLUGIN_ERROR.
Proof.
  intros Hgio Hgdbus.
  assert (forall e0 : option GError,
            gs_plugin_fwupd_error_convert (plugin_host h) e0 = Some e ->
            domain e = GS_PLUGIN_ERROR) as Hconverted.
  { intros [e0 |] Heq; [| done].
    destruct (error_convert_lands_in_plugin_domain (plugin_host h) e0 Hgio Hgdbus)
      as (e' & Heq' & Hdom). congruence. }
  unfold gs_plugin_update_app. jobs_unfold. rewrite lift_get_app.
  destruct (not_managed_here (plugin_host h) _); [done |].
  destruct (gs_fwupd_app_get_is_locked s app).
  - destruct (gs_fwupd_app_get_device_id _) as [device_id |].
    + destruct (fwupd_client_unlock h (FwupdJobs.calls s) device_id) as [[] | e0];
        cbn [fst]; [done |].
      intros [= Heq]. by apply (Hconverted e0).
    + by intros [= <-].
  - destruct (lift (gs_plugin_fwupd_install (plugin_host h) app) s) as [[[] | e0] s1];
      cbn [fst]; [done |].
    intros [= Heq]. by apply (Hconverted e0).
Qed.

(** What updating an app with a locked device does. *)
Lemma update_app_unlocks (app : nat) (s : FwupdJobs.State)
    (device_id : string) :
  let a := app_at app (plugin s) in
  app_management_plugin a = Some (Fwupd.gs_plugin_get_name (plugin_host h)) ->
  gs_fwupd_app_get_is_locked s app = true ->
  gs_fwupd_app_get_device_id a = Some device_id ->
  gs_plugin_update_app h app s
  = (match fwupd_client_unlock h (FwupdJobs.calls s) device_id with
     | Ok _ => Ok tt
     | Fail e => Fail (gs_plugin_fwupd_error_convert (plugin_host h) e)
     end,
     FwupdJobs.mkState (plugin s) (locked s) (update_details s)
       (FwupdJobs.calls s ++ [ClientUnlock device_id])).
Proof.
  intros a Hmanaged Hlocked Hid.
  unfold gs_plugin_update_app. jobs_unfold. rewrite lift_get_app. fold a.
  rewrite (not_managed_here_false (plugin_host h) a Hmanaged), Hlocked, Hid.
  by destruct (fwupd_client_unlock h (FwupdJobs.calls s) device_id) as [[] | e].
Qed.

(** X23: updating an app whose device is locked unlocks the device and
    does nothing else: one call to the daemon, for that device, nothing
    downloaded or installed, and the apps as they were.  The update fails
    when the daemon refuses, with the converted error. *)
Theorem locked_device_is_unlocked (app : nat) (s : FwupdJobs.State)
    (device_id : string) :
  let a := app_at app (plugin s) in
  app_management_plugin a = Some (Fwupd.gs_plugin_get_name (plugin_host h)) ->
  gs_fwupd_app_get_is_locked s app = true ->
  gs_fwupd_app_get_device_id a = Some device_id ->
  gs_plugin_update_app h app s
  = (match fwupd_client_unlock h (FwupdJobs.calls s) device_id with
     | Ok _ => Ok tt
     | Fail e => Fail (gs_plugin_fwupd_error_convert (plugin_host h) e)
     end,
     FwupdJobs.mkState (plugin s) (locked s) (update_details s)
       (FwupdJobs.calls s ++ [ClientUnlock device_id])).
Proof. apply update_app_unlocks. Qed.

(** X24: downloading the firmware of an app never changes the state of
    the app, whether the download succeeds or fails.  A file that is in
    the cache is not downloaded again.  A file that is not is downloaded
    between asking the download scheduler for a slot, which only a run
    that is not interactive does, and handing the slot back, which is done
    after a failed download as well; the outcome is that of the download,
    whatever the scheduler answered. *)
Theorem download_app_outcomes (app : nat) (s : FwupdJobs.State) (filename : string) :
  let ph := plugin_host h in
  let a := app_at app (plugin s) in
  app_management_plugin a = Some (Fwupd.gs_plugin_get_name ph) ->
  app_local_file a = Some filename ->
  let r := gs_plugin_download_app h app s in
  let uri := gs_fwupd_app_get_update_uri a in
  let asked := Fwupd.calls (plugin s) ++ [QueryFileExists filename] in
  app_state (app_at app (plugin (snd r))) = app_state a /\
  if Fwupd.g_file_query_exists ph (Fwupd.calls (plugin s)) filename then
    fst r = Ok tt /\
    FwupdJobs.calls (snd r) = FwupdJobs.calls s ++ [Plugin (QueryFileExists filename)]
  else
    FwupdJobs.calls (snd r)
    = FwupdJobs.calls s ++ [Plugin (QueryFileExists filename)]
      ++ (if gs_plugin_has_flags_interactive h then [] else [MeteredBlock app])
      ++ [Plugin (if fwupd_check_version_1_5_2 ph
                  then ClientDownloadFile uri filename
                  else PluginDownloadFile uri filename);
          MeteredRemove] /\
    fst r = match (if fwupd_check_version_1_5_2 ph
                   then fwupd_client_download_file ph asked uri filename
                   else gs_plugin_download_file ph asked uri filename) with
            | Ok _ => Ok tt
            | Fail e => Fail (if fwupd_check_version_1_5_2 ph
                              then gs_plugin_fwupd_error_convert ph e else e)
            end.
Proof.
  intros ph a Hmanaged Hfile r uri asked. subst r.
  assert (forall f (l : list GsApp),
            app_state (default (gs_app_new None)
                         (alter (with_app_size_download f) app l !! app))
            = app_state (default (gs_app_new None) (l !! app))) as Hstate.
  { intros f l. rewrite list_lookup_alter_eq. by destruct (l !! app). }
  destruct (Fwupd.g_file_query_exists ph (Fwupd.calls (plugin s)) filename)
    eqn:Hpresent;
    unfold gs_plugin_download_app; jobs_unfold; rewrite lift_get_app;
    fold ph; fold a; rewrite (not_managed_here_false ph a Hmanaged), Hfile;
    rewrite lift_ask; rewrite Hpresent; cbn [negb].
  - rewrite lift_modify_app.
    cbn [fst snd plugin locked update_details FwupdJobs.calls].
    split; [| done]. unfold app_at.
    cbn [Fwupd.calls Fwupd.with_calls Fwupd.with_apps Fwupd.apps]. apply Hstate.
  - fold uri.
    destruct (gs_plugin_has_flags_interactive h); cbn [negb];
      destruct (fwupd_check_version_1_5_2 ph);
      cbv beta iota zeta;
      cbn [fst snd plugin locked update_details FwupdJobs.calls];
      rewrite ?lift_converting_ask_result, ?lift_ask_result;
      cbn [fst snd plugin locked update_details FwupdJobs.calls
           Fwupd.calls Fwupd.with_calls Fwupd.with_apps Fwupd.apps];
      fold asked;
      match goal with
      | |- context [fwupd_client_download_file ph asked uri filename] =>
          destruct (fwupd_client_download_file ph asked uri filename) as [[] | e]
      | |- context [Fwupd.gs_plugin_download_file ph asked uri filename] =>
          destruct (Fwupd.gs_plugin_download_file ph asked uri filename) as [[] | e]
      end;
      cbv beta iota zeta;
      cbn [fst snd plugin locked update_details FwupdJobs.calls];
      rewrite ?lift_modify_app;
      cbn [fst snd plugin locked update_details FwupdJobs.calls];
      (split; [unfold app_at;
               cbn [Fwupd.calls Fwupd.with_calls Fwupd.with_apps Fwupd.apps];
               try apply Hstate; try done
              | split; [by rewrite <- ?app_assoc | done]]).
Qed.


Lemma jobs_fold_cons {A B} (body : A -> B -> FwupdJobs.M B) (x : A) (xs : list A)
    (acc : B) (s : FwupdJobs.State) :
  act_fold body (x :: xs) acc s =
  match body x acc s with
  | (Ok acc', s') => act_fold body xs acc' s'
  | (Fail e, s') => (Fail e, s')
  end.
Proof. reflexivity. Qed.




Lemma gs_app_new_object_run (a : GsApp) (s : FwupdJobs.State) :
  gs_app_new_object a s
  = (Ok (length (apps (plugin s))),
     FwupdJobs.mkState (with_apps (apps (plugin s) ++ [a]) (plugin s))
       (locked s) (update_details s) (FwupdJobs.calls s)).
Proof.
  unfold gs_app_new_object.
  rewrite (lift_calls _ s (Ok (length (apps (plugin s))))
             (with_apps (apps (plugin s) ++ [a]) (plugin s)) []);
    [| done | by rewrite app_nil_r].
  cbn [fmap list_fmap]. by rewrite app_nil_r.
Qed.

Lemma list_add_elem (store : list GsApp) (app_list : list nat) (app p : nat) :
  p ∈ Odrs.gs_app_list_add store app_list app -> p ∈ app_list \/ p = app.
Proof.
  unfold Odrs.gs_app_list_add. destruct (existsb _ app_list); [by left |].
  intros [? | ->%list_elem_of_singleton]%elem_of_app; [by left | by right].
Qed.

Lemma add_sources_loop (remotes : list FwupdRemote) :
  forall (app_list : list nat) (s : FwupdJobs.State),
  exists app_list',
    act_fold add_source remotes app_list s
    = (Ok app_list',
       FwupdJobs.mkState
         (with_apps (apps (plugin s) ++
                     (source_app <$> filter (fun remote =>
                        remote_kind remote = FWUPD_REMOTE_KIND_DOWNLOAD) remotes))
                    (plugin s))
         (locked s) (update_details s) (FwupdJobs.calls s)) /\
    forall p, p ∈ app_list' ->
      p ∈ app_list \/
      (length (apps (plugin s)) <= p <
       length (apps (plugin s)) +
       length (filter (fun remote => remote_kind remote = FWUPD_REMOTE_KIND_DOWNLOAD)
                      remotes))%nat.
Proof.
  induction remotes as [| remote rest IH]; intros app_list s.
  - exists app_list. cbn [act_fold filter list_filter fmap list_fmap].
    rewrite app_nil_r. split; [| by left].
    unfold mret, act_ret. f_equal. by destruct s as [[] ? ? ?].
  - rewrite jobs_fold_cons. unfold add_source at 1.
    destruct (decide (remote_kind remote = FWUPD_REMOTE_KIND_DOWNLOAD)) as [Hkind | Hkind].
    + rewrite bool_decide_eq_false_2 by (intros Hne; by apply Hne).
      rewrite filter_cons_True by done. jobs_unfold.
      rewrite gs_app_new_object_run.
      cbn [plugin locked update_details FwupdJobs.calls Fwupd.apps Fwupd.with_apps].
      match goal with
      | |- context [act_fold add_source rest ?l ?st] =>
          destruct (IH l st) as (app_list' & Hrun & Hin)
      end.
      exists app_list'. rewrite Hrun.
      cbn [plugin locked update_details FwupdJobs.calls Fwupd.apps Fwupd.with_apps
           fmap list_fmap length] in *.
      split.
      * f_equal. f_equal. unfold with_apps. cbn. by rewrite <- app_assoc.
      * intros p Hp. destruct (Hin p Hp) as [Hold | Hnew].
        -- apply list_add_elem in Hold as [? | ->]; [by left | right]. lia.
        -- right. rewrite length_app in Hnew. cbn [length] in Hnew. lia.
    + rewrite bool_decide_eq_true_2 by done.
      rewrite filter_cons_False by done.
      unfold mret, act_ret. cbv beta iota. apply IH.
Qed.

(** X26: the sources job asks the daemon for the remotes, once, and
    makes one app for every remote that is a download remote, in their
    order, and none for the others; what it adds to the list are apps it
    made.  When the remotes cannot be had the job fails with the error of
    the daemon as it came.  The app of a remote is a repository of the
    fwupd plugin that carries the id of the remote, INSTALLED when the
    remote is enabled and AVAILABLE when it is not, so that with the
    plugin named fwupd a remove of the app asks the daemon to disable
    that remote and an install to enable it. *)
Theorem add_sources_lists_download_remotes (app_list : list nat)
    (s : FwupdJobs.State) :
  match fwupd_client_get_remotes h (FwupdJobs.calls s) with
  | Fail e => fst (gs_plugin_add_sources h app_list s) = Fail e
  | Ok remotes =>
      let made := source_app <$> filter (fun remote =>
                    remote_kind remote = FWUPD_REMOTE_KIND_DOWNLOAD) remotes in
      exists app_list',
        gs_plugin_add_sources h app_list s
        = (Ok app_list',
           FwupdJobs.mkState (with_apps (apps (plugin s) ++ made) (plugin s))
             (locked s) (update_details s)
             (FwupdJobs.calls s ++ [ClientGetRemotes])) /\
        forall p, p ∈ app_list' ->
          p ∈ app_list \/
          (length (apps (plugin s)) <= p < length (apps (plugin s)) + length made)%nat
  end /\
  forall (remote : FwupdRemote) (id : string) (st : Fwupd.State) (app : nat)
         (enabled : bool),
    Fwupd.gs_plugin_get_name (plugin_host h) = "fwupd"%string ->
    remote_id remote = Some id ->
    apps st !! app = Some (source_app remote) ->
    app_state (source_app remote)
    = (if remote_enabled remote then GS_APP_STATE_INSTALLED
       else GS_APP_STATE_AVAILABLE) /\
    Fwupd.calls (snd (if enabled then gs_plugin_app_install (plugin_host h) app st
                      else gs_plugin_app_remove (plugin_host h) app st))
    = Fwupd.calls st
      ++ [ClientModifyRemote id "Enabled" (if enabled then "true" else "false")].
Proof.
  split.
  - unfold gs_plugin_add_sources. jobs_unfold.
    destruct (fwupd_client_get_remotes h (FwupdJobs.calls s)) as [remotes | e];
      [| done].
    destruct (add_sources_loop remotes app_list
                (FwupdJobs.mkState (plugin s) (locked s) (update_details s)
                   (FwupdJobs.calls s ++ [ClientGetRemotes])))
      as (app_list' & Hrun & Hin).
    exists app_list'. rewrite Hrun. split; [done |].
    intros p Hp. destruct (Hin p Hp) as [? | Hnew]; [by left | right].
    cbn [plugin] in Hnew. by rewrite length_fmap.
  - intros remote id st app enabled Hname Hid Happ.
    assert (app_at app st = source_app remote) as Hat
      by (unfold app_at; by rewrite Happ).
    assert (gs_app_get_metadata_item (source_app remote) "fwupd::remote-id" = Some id)
      as Hmeta.
    { unfold source_app, gs_app_get_metadata_item. rewrite Hid.
      destruct (remote_enabled remote); vm_compute; reflexivity. }
    assert (not_managed_here (plugin_host h) (source_app remote) = false) as Hmanaged.
    { apply not_managed_here_false. by rewrite Hname. }
    split.
    { unfold source_app. rewrite Hid.
      destruct (remote_enabled remote); vm_compute; reflexivity. }
    destruct (modify_source_run (plugin_host h) st app (source_app remote) enabled id
                Happ Hmeta) as (Hcalls & _).
    destruct enabled.
    + unfold gs_plugin_app_install. fw_unfold. rewrite Hat, Hmanaged.
      rewrite bool_decide_eq_true_2; [exact Hcalls |].
      unfold source_app. rewrite Hid.
      destruct (remote_enabled remote); vm_compute; reflexivity.
    + unfold gs_plugin_app_remove. fw_unfold. rewrite Hat, Hmanaged. exact Hcalls.
Qed.


Lemma add_update_returns (dev : FwupdDevice) (app_list : list nat)
    (s : FwupdJobs.State) :
  (forall cs id, fwupd_client_get_upgrades h cs id <> Ok []) ->
  is_ok (fst (add_update h dev app_list s)) = true.
Proof.
  intros Hrels. unfold add_update. jobs_unfold.
  destruct (bool_decide (FWUPD_DEVICE_FLAG_LOCKED ∈ device_flags dev)).
  { by rewrite gs_app_new_object_run. }
  destruct (bool_decide (FWUPD_DEVICE_FLAG_SUPPORTED ∈ device_flags dev));
    cbn [negb]; [| done].
  destruct (fwupd_client_get_upgrades h (FwupdJobs.calls s) (device_id dev))
    as [[| rel_newest older] | e] eqn:Hanswer; [by destruct (Hrels _ _ Hanswer) | | done].
  match goal with
  | |- context [lift ?m ?st] => destruct (lift m st) as [[app | e] s1]
  end; [| done].
  destruct (1 <? _); [| done].
  by destruct (2 <? _).
Qed.

(** X27: the updates job fails only when the devices cannot be listed:
    with the converted error of the daemon, unless that error says that
    there is nothing to do, nothing supported or nothing found, which
    leaves the list as it was.  Once the devices are listed the job
    succeeds whatever the devices are and whatever asking for their
    upgrades and building their apps gives, a device that cannot be
    handled being passed over; the daemon is taken never to answer with an
    array of upgrades that has no element. *)
Theorem add_updates_survives_devices (app_list : list nat) (s : FwupdJobs.State) :
  (forall cs id, fwupd_client_get_upgrades h cs id <> Ok []) ->
  match fwupd_client_get_devices h (FwupdJobs.calls s) with
  | Ok devices => is_ok (fst (gs_plugin_add_updates h app_list s)) = true
  | Fail error_local =>
      fst (gs_plugin_add_updates h app_list s)
      = if nothing_to_do error_local then Ok app_list
        else Fail (gs_plugin_fwupd_error_convert (plugin_host h) error_local)
  end.
Proof.
  intros Hrels. unfold gs_plugin_add_updates. jobs_unfold.
  destruct (fwupd_client_get_devices h (FwupdJobs.calls s)) as [devices | e].
  2:{ by destruct (nothing_to_do e). }
  generalize (FwupdJobs.mkState (plugin s) (locked s) (update_details s)
                (FwupdJobs.calls s ++ [ClientGetDevices])).
  revert app_list. induction devices as [| dev rest IH]; intros app_list st; [done |].
  rewrite jobs_fold_cons.
  pose proof (add_update_returns dev app_list st Hrels) as Hdev.
  destruct (add_update h dev app_list st) as [[app_list' | e] st']; [apply IH | done].
Qed.



End FwupdJobsFacts.

(** ** The status notifications of the daemon *)

Section StatusFacts.
Import GLib Gs Fwupd FwupdJobs.

Lemma notify_status_idle (status : FwupdStatus) (s : Fwupd.State) :
  app_current s = None -> gs_plugin_fwupd_notify_status_cb status s = (Ok tt, s).
Proof.
  intros Hidle. unfold gs_plugin_fwupd_notify_status_cb. fw_unfold. by rewrite Hidle.
Qed.

(** X30: a status notification changes no app other than the one that
    is being installed, and on IDLE it makes the plugin forget that app
    and changes nothing else.  From then on notifications change nothing,
    whatever they are and however many, until an install sets the current
    app again. *)
Theorem status_after_idle_changes_nothing (statuses : list FwupdStatus)
    (s : Fwupd.State) :
  let idle := snd (gs_plugin_fwupd_notify_status_cb FWUPD_STATUS_IDLE s) in
  idle = with_app_current None s /\
  act_iter gs_plugin_fwupd_notify_status_cb statuses idle = (Ok tt, idle) /\
  forall status other,
    app_current s <> Some other ->
    apps (snd (gs_plugin_fwupd_notify_status_cb status s)) !! other = apps s !! other.
Proof.
  cbv zeta.
  assert (snd (gs_plugin_fwupd_notify_status_cb FWUPD_STATUS_IDLE s)
          = with_app_current None s) as ->.
  { unfold gs_plugin_fwupd_notify_status_cb. fw_unfold.
    destruct (app_current s) eqn:Hcur; [done |]. by destruct s as [[] ? ? ?]. }
  split; [done |]. split.
  - induction statuses as [| status rest IH]; [done |].
    change (act_iter gs_plugin_fwupd_notify_status_cb (status :: rest)
              (with_app_current None s))
      with (match gs_plugin_fwupd_notify_status_cb status (with_app_current None s) with
            | (Ok _, s') => act_iter gs_plugin_fwupd_notify_status_cb rest s'
            | (Fail e, s') => (Fail e, s')
            end).
    by rewrite notify_status_idle.
  - intros status other Hother.
    unfold gs_plugin_fwupd_notify_status_cb. fw_unfold.
    destruct (app_current s) as [current |]; [| done].
    destruct status; try done; cbn [snd apps with_apps];
      apply list_lookup_alter_ne; congruence.
Qed.

End StatusFacts.

(** ** The fwupd plugin and the installed page on further concrete inputs *)

Section FurtherRuns.
Import GLib Gs BinarySearch Notions Examples Scenarios.

Lemma daemon_converts (present deletable : bool) :
  (forall e e', Fwupd.gs_utils_error_convert_gio (daemon present deletable) e = Some e' ->
                domain e' = GS_PLUGIN_ERROR) /\
  (forall e e', Fwupd.gs_utils_error_convert_gdbus (daemon present deletable) e = Some e' ->
                domain e' = GS_PLUGIN_ERROR).
Proof.
  split; intros e e'; cbn [daemon Fwupd.gs_utils_error_convert_gio
                           Fwupd.gs_utils_error_convert_gdbus];
    destruct (bool_decide _); intros [= <-]; reflexivity.
Qed.

Lemma fwupd_host_converts (v_1_5_2 present : bool) (failure : GError) :
  (forall e e', Fwupd.gs_utils_error_convert_gio (fwupd_host v_1_5_2 present failure) e
                = Some e' -> domain e' = GS_PLUGIN_ERROR) /\
  (forall e e', Fwupd.gs_utils_error_convert_gdbus (fwupd_host v_1_5_2 present failure) e
                = Some e' -> domain e' = GS_PLUGIN_ERROR).
Proof.
  split; intros e e'; cbn [fwupd_host Fwupd.gs_utils_error_convert_gio
                           Fwupd.gs_utils_error_convert_gdbus];
    destruct (bool_decide _); intros [= <-]; reflexivity.
Qed.

Lemma ratings_stay_in_order_witness :
  let h := review_server 0 200 acknowledged false true in
  let s := rated_state [unrated_app] in
  ratings_in_order s /\
  ratings_in_order (snd (Odrs.gs_plugin_refresh h 0 s)) /\
  ratings_in_order (snd (Odrs.gs_plugin_refine h [0%nat] review_and_rating_flags s)) /\
  ratings_in_order (snd (Odrs.gs_plugin_add_unvoted_reviews h [] s)).
Proof.
  intros h s.
  assert (ratings_in_order s) as Hs by apply loaded_ratings_sorted.
  destruct (ratings_stay_in_order h s Hs) as (Hrefresh & Hrefine & _ & _ & Hunvoted).
  split; [exact Hs |]. split; [apply Hrefresh |]. split; [apply Hrefine | apply Hunvoted].
Defined.

Lemma error_convert_idempotent_witness :
  let h := fwupd_host true true write_error in
  Fwupd.gs_plugin_fwupd_error_convert h
    (Fwupd.gs_plugin_fwupd_error_convert h (Some ac_power_error))
  = Fwupd.gs_plugin_fwupd_error_convert h (Some ac_power_error) /\
  Fwupd.gs_plugin_fwupd_error_convert h (Some ac_power_error) <> None.
Proof.
  intros h.
  destruct (fwupd_host_converts true true write_error) as (Hgio & Hgdbus).
  destruct (error_convert_idempotent h Hgio Hgdbus (Some ac_power_error))
    as (Htwice & Hnone).
  split; [exact Htwice |]. intros Hcleared. by apply Hnone in Hcleared.
Defined.

Lemma install_from_cache_witness :
  let h := daemon true true in
  let s := fwupd_state [firmware_app] in
  let r := Fwupd.gs_plugin_fwupd_install h 0 s in
  Fwupd.app_current (snd r) = Some 0%nat /\
  fst r = Ok tt /\
  Fwupd.calls (snd r)
  = [Fwupd.QueryFileExists "/cache/fwupd/firmware.cab";
     Fwupd.ClientInstall "*" "/cache/fwupd/firmware.cab" false;
     Fwupd.ClientGetDeviceById "*"] /\
  app_state (Fwupd.app_at 0 (snd r)) = GS_APP_STATE_INSTALLED.
Proof.
  intros h s r.
  pose proof (install_from_cache h s 0 firmware_app "/cache/fwupd/firmware.cab"
                eq_refl eq_refl eq_refl) as Hrun.
  cbv zeta in Hrun. destruct Hrun as (Hcurrent & Hok & Hcalls & Hstate).
  split; [exact Hcurrent |]. split; [exact Hok |]. split; [exact Hcalls | exact Hstate].
Defined.

Lemma install_deletes_what_it_downloaded_witness :
  let h := daemon false false in
  let s := fwupd_state [firmware_app] in
  let r := Fwupd.gs_plugin_fwupd_install h 0 s in
  app_state (Fwupd.app_at 0 (snd r)) = GS_APP_STATE_INSTALLED /\
  fst r = Fail (Some (mkGError G_IO_ERROR (RawCode 14))) /\
  Fwupd.calls (snd r)
  = [Fwupd.QueryFileExists "/cache/fwupd/firmware.cab";
     Fwupd.ClientDownloadFile None "/cache/fwupd/firmware.cab";
     Fwupd.ClientInstall "*" "/cache/fwupd/firmware.cab" false;
     Fwupd.DeleteFile "/cache/fwupd/firmware.cab"].
Proof.
  intros h s r.
  pose proof (install_deletes_what_it_downloaded h s 0 firmware_app
                "/cache/fwupd/firmware.cab" eq_refl eq_refl eq_refl eq_refl eq_refl)
    as Hrun.
  cbv zeta in Hrun. destruct Hrun as (Hstate & Hfail & Hcalls).
  split; [exact Hstate |]. split; [exact Hfail | exact Hcalls].
Defined.

Lemma modify_source_outcomes_witness :
  let h := daemon true true in
  let s := fwupd_state [package_app; remote_app] in
  let r := Fwupd.gs_plugin_fwupd_modify_source h 1 false s in
  Fwupd.calls (snd r) = [Fwupd.ClientModifyRemote "lvfs" "Enabled" "false"] /\
  Fwupd.apps (snd r) !! 0%nat = Some package_app /\
  fst r = Ok tt /\
  app_state (Fwupd.app_at 1 (snd r)) = GS_APP_STATE_AVAILABLE.
Proof.
  intros h s r.
  pose proof (modify_source_outcomes h s 1 remote_app false "lvfs" eq_refl eq_refl)
    as Hrun.
  cbv zeta in Hrun. destruct Hrun as (Hcalls & Hothers & Hok & Hstate).
  split; [exact Hcalls |]. split; [by apply (Hothers 0%nat) |].
  split; [exact Hok | exact Hstate].
Defined.


Lemma pending_apps_get_one_row_each_witness :
  exists added,
    InstalledPage.gs_installed_page_pending_apps_changed_cb upgrade_is_app_2
      [1; 2; 3; 1]%nat [0; 1]%nat
    = ([0; 1]%nat ++ added, Some 3) /\
    NoDup ([0; 1]%nat ++ added).
Proof.
  assert (NoDup [0; 1]%nat) as Hrows.
  { apply (bool_decide_unpack _). vm_compute. exact I. }
  assert (Z.of_nat (length [1; 2; 3; 1]%nat) <= G_MAXUINT) as Hfits.
  { vm_compute. discriminate. }
  destruct (pending_apps_get_one_row_each upgrade_is_app_2 [1; 2; 3; 1]%nat [0; 1]%nat
              Hrows Hfits) as (added & Hrun & Hnodup & _).
  exists added. split; [exact Hrun | exact Hnodup].
Defined.

Lemma update_app_errors_are_converted_witness :
  let h := jobs_host (fwupd_host true false write_error) false [] in
  let s := jobs_state [firmware_app] ∅ in
  fst (FwupdJobs.gs_plugin_update_app h 0 s)
  = Fail (Some (plugin_error GS_PLUGIN_ERROR_FAILED)) /\
  domain (plugin_error GS_PLUGIN_ERROR_FAILED) = GS_PLUGIN_ERROR.
Proof.
  intros h s.
  assert (fst (FwupdJobs.gs_plugin_update_app h 0 s)
          = Fail (Some (plugin_error GS_PLUGIN_ERROR_FAILED))) as Hfails
    by (vm_compute; reflexivity).
  destruct (fwupd_host_converts true false write_error) as (Hgio & Hgdbus).
  split; [exact Hfails |].
  exact (update_app_errors_are_converted h 0 s _ Hgio Hgdbus Hfails).
Defined.

Lemma locked_device_is_unlocked_witness :
  let h := jobs_host (daemon false true) false [] in
  let s := jobs_state [locked_firmware_app] {[0%nat]} in
  FwupdJobs.gs_plugin_update_app h 0 s
  = (Ok tt, FwupdJobs.mkState (FwupdJobs.plugin s) (FwupdJobs.locked s)
              (FwupdJobs.update_details s) [FwupdJobs.ClientUnlock "dev0"]).
Proof.
  intros h s.
  apply (locked_device_is_unlocked h 0 s "dev0").
  - reflexivity.
  - vm_compute. reflexivity.
  - vm_compute. reflexivity.
Defined.

Lemma download_app_outcomes_witness :
  let h := jobs_host (daemon false true) false [] in
  let s := jobs_state [firmware_app] ∅ in
  let r := FwupdJobs.gs_plugin_download_app h 0 s in
  app_state (Fwupd.app_at 0 (FwupdJobs.plugin (snd r))) = GS_APP_STATE_UPDATABLE_LIVE /\
  FwupdJobs.calls (snd r)
  = [FwupdJobs.Plugin (Fwupd.QueryFileExists "/cache/fwupd/firmware.cab");
     FwupdJobs.MeteredBlock 0;
     FwupdJobs.Plugin (Fwupd.ClientDownloadFile None "/cache/fwupd/firmware.cab");
     FwupdJobs.MeteredRemove] /\
  fst r = Ok tt.
Proof.
  intros h s r.
  pose proof (download_app_outcomes h 0 s "/cache/fwupd/firmware.cab" eq_refl eq_refl)
    as Hrun.
  cbv zeta in Hrun. destruct Hrun as (Hstate & Hcalls & Hok).
  split; [exact Hstate |]. split; [exact Hcalls | exact Hok].
Defined.


Lemma add_updates_survives_devices_witness :
  let h := jobs_host (daemon false true) false
             [bare_device [Fwupd.FWUPD_DEVICE_FLAG_SUPPORTED];
              bare_device [Fwupd.FWUPD_DEVICE_FLAG_LOCKED]; bare_device []] in
  is_ok (fst (FwupdJobs.gs_plugin_add_updates h [] (jobs_state [] ∅))) = true.
Proof.
  intros h.
  assert (forall cs id, FwupdJobs.fwupd_client_get_upgrades h cs id <> Ok []) as Hupgrades
    by (intros cs id; discriminate).
  exact (add_updates_survives_devices h [] (jobs_state [] ∅) Hupgrades).
Defined.



(** A Debian version without its epoch, its suffix and its revision. *)
Example sanitize_version_run :
  OdrsRequest.gs_plugin_odrs_sanitize_version (Some "1:2.4.1+dfsg-3"%string)
  = "2.4.1"%string.
Proof. vm_compute. reflexivity. Qed.

End FurtherRuns.
